(** * FinanceTracker: monthly aggregation over the in-memory store

    A shallow embedding of the server side of the finance tracker:
    the volatile entity store ([MemStorage], server/storage.ts), the
    aggregation engine and the request handlers (server/routes.ts) and the
    month filter of the relational store (server/db-storage.ts); with them
    the CSV export of the server and the month selector of the dashboard
    (client/src/pages/Dashboard.tsx).

    Conventions of the embedding
    - a JavaScript [Map] is an association list in insertion order;
    - a [Date] object is its time value, an integer count of milliseconds
      since the epoch, and [None] where the constructor can make an Invalid
      Date; the process time zone is an explicit [TimeZone];
    - a date-only ISO string ("YYYY-MM-DD") is the civil date it spells;
    - JavaScript numbers are a type class ([JsNum]) whose instance
      [Float64] is IEEE binary64, the numbers the program runs on;
    - [new Date()] is the argument [now] of the operation that evaluates it;
    - the store singleton returned by [getStorage()] is threaded explicitly. *)

From Stdlib Require Import ZArith List Bool String Ascii Lia.
From Stdlib Require Import Floats DecimalString DecimalPos.
Import ListNotations.

Set Implicit Arguments.
Local Open Scope Z_scope.

(* ------------------------------------------------------------------ *)
(** ** JavaScript [Map]: association lists in insertion order           *)
(* ------------------------------------------------------------------ *)

Module JsMap.
Section Ops.
Variables K V : Type.
Variable keqb : K -> K -> bool.

Definition t := list (K * V).

Definition empty : t := [].

(** [m.get(k)] *)
Fixpoint get (k : K) (m : t) : option V :=
  match m with
  | [] => None
  | (k', v) :: r => if keqb k k' then Some v else get k r
  end.

(** [m.set(k, v)]: an existing key keeps its position, a new key is
    appended. *)
Fixpoint set (k : K) (v : V) (m : t) : t :=
  match m with
  | [] => [(k, v)]
  | (k', v') :: r =>
      if keqb k k' then (k, v) :: r else (k', v') :: set k v r
  end.

(** [m.delete(k)] and its boolean result [m.has(k)] *)
Fixpoint delete (k : K) (m : t) : t :=
  match m with
  | [] => []
  | (k', v') :: r => if keqb k k' then r else (k', v') :: delete k r
  end.

Definition has (k : K) (m : t) : bool :=
  match get k m with Some _ => true | None => false end.

(** [Array.from(m.values())], [Array.from(m.keys())], [Array.from(m.entries())]
    is the list itself. *)
Definition values (m : t) : list V := map snd m.
Definition keys (m : t) : list K := map fst m.
End Ops.
End JsMap.

(* ------------------------------------------------------------------ *)
(** ** Dates                                                            *)
(* ------------------------------------------------------------------ *)

Module JsDate.

Definition msPerDay : Z := 86400000.

(** The date-only form "YYYY-MM-DD". *)
Record DateOnly := { year : Z; month : Z; day : Z }.

Definition DateOnly_eqb (a b : DateOnly) : bool :=
  (year a =? year b) && (month a =? month b) && (day a =? day b).

(** Day number (days since 1970-01-01) of a proleptic Gregorian date. *)
Definition days_from_civil (y m d : Z) : Z :=
  let y' := if m <=? 2 then y - 1 else y in
  let era := y' / 400 in
  let yoe := y' - era * 400 in
  let mp := if m >? 2 then m - 3 else m + 9 in
  let doy := (153 * mp + 2) / 5 + d - 1 in
  let doe := yoe * 365 + yoe / 4 - yoe / 100 + doy in
  era * 146097 + doe - 719468.

(** Year, month (1..12) and day of month of a day number: the
    [YearFromTime], [MonthFromTime]+1 and [DateFromTime] of the language. *)
Definition civil_from_days (z : Z) : DateOnly :=
  let z := z + 719468 in
  let era := z / 146097 in
  let doe := z - era * 146097 in
  let yoe := (doe - doe / 1460 + doe / 36524 - doe / 146096) / 365 in
  let doy := doe - (365 * yoe + yoe / 4 - yoe / 100) in
  let mp := (5 * doy + 2) / 153 in
  let d := doy - (153 * mp + 2) / 5 + 1 in
  let m := if mp <? 10 then mp + 3 else mp - 9 in
  {| year := if m <=? 2 then yoe + era * 400 + 1 else yoe + era * 400;
     month := m; day := d |}.

Definition Day (t : Z) : Z := t / msPerDay.

(** [TimeClip]: a time value is at most 8.64e15 ms away from the epoch;
    beyond that the Date object is an Invalid Date, here [None]. *)
Definition maxTime : Z := 8640000000000000.

Definition TimeClip (t : Z) : option Z :=
  if Z.abs t <=? maxTime then Some t else None.

(** [a >= b] and [a <= b] on Date objects compare the time values; with an
    Invalid Date (time value NaN) on either side both are false. *)
Definition date_geb (a b : option Z) : bool :=
  match a, b with Some x, Some y => x >=? y | _, _ => false end.

Definition date_leb (a b : option Z) : bool :=
  match a, b with Some x, Some y => x <=? y | _, _ => false end.

(** The process time zone: the offset (ms) to add to a UTC time value to
    get local time, and the offset to subtract from a local time value to
    get UTC. *)
Record TimeZone := {
  localTZA : Z -> Z;        (* argument: a UTC time value  *)
  localTZA_of_local : Z -> Z (* argument: a local time value *)
}.

Definition fixedOffset (minutes : Z) : TimeZone :=
  {| localTZA := fun _ => minutes * 60000;
     localTZA_of_local := fun _ => minutes * 60000 |}.

Definition UTC : TimeZone := fixedOffset 0.

Section Zone.
Variable tz : TimeZone.

Definition LocalTime (t : Z) : Z := t + localTZA tz t.

(** [d.getFullYear()], [d.getMonth()] (0..11), [d.getDate()] *)
Definition getFullYear (t : Z) : Z := year (civil_from_days (Day (LocalTime t))).
Definition getMonth (t : Z) : Z := month (civil_from_days (Day (LocalTime t))) - 1.
Definition getDate (t : Z) : Z := day (civil_from_days (Day (LocalTime t))).

(** [new Date(year, monthIndex, date)]: local midnight of the day that
    many days and months from year's January 1st; years 0..99 mean
    1900..1999. The time value is clipped: out of range the result is an
    Invalid Date ([None]). *)
Definition newDateLocal (y monthIndex d : Z) : option Z :=
  let y := if (0 <=? y) && (y <=? 99) then 1900 + y else y in
  let ym := y + monthIndex / 12 in
  let mn := monthIndex mod 12 in
  let tl := (days_from_civil ym (mn + 1) 1 + d - 1) * msPerDay in
  TimeClip (tl - localTZA_of_local tz tl).
End Zone.

(** [new Date(s)] for a date-only string: midnight UTC of that date. *)
Definition newDate (s : DateOnly) : Z :=
  days_from_civil (year s) (month s) (day s) * msPerDay.

(** [d.toISOString().split('T')[0]]: the UTC calendar date. *)
Definition toISODate (t : Z) : DateOnly := civil_from_days (Day t).

Definition is_leap (y : Z) : bool :=
  ((y mod 4 =? 0) && negb (y mod 100 =? 0)) || (y mod 400 =? 0).

Definition days_in_month (y m : Z) : Z :=
  if m =? 2 then (if is_leap y then 29 else 28)
  else if (m =? 4) || (m =? 6) || (m =? 9) || (m =? 11) then 30 else 31.

(** A date-only string that denotes a calendar date. *)
Definition valid (s : DateOnly) : Prop :=
  1 <= month s <= 12 /\ 1 <= day s <= days_in_month (year s) (month s).

End JsDate.
Export JsDate(DateOnly, TimeZone).

(* ------------------------------------------------------------------ *)
(** ** Numbers                                                          *)
(* ------------------------------------------------------------------ *)

(** The operations of JavaScript numbers the server uses. [numstr] is the
    type of decimal strings held in the store ([String(x)]). *)
Class JsNum (num numstr : Type) := {
  zero : num;                         (* 0 *)
  hundred : num;                      (* 100 *)
  add : num -> num -> num;            (* x + y *)
  sub : num -> num -> num;            (* x - y *)
  mul : num -> num -> num;            (* x * y *)
  div : num -> num -> num;            (* x / y *)
  neg : num -> num;                   (* -x *)
  abs : num -> num;                   (* Math.abs(x) *)
  gtb : num -> num -> bool;           (* x > y *)
  truthy : num -> bool;               (* ToBoolean(x) *)
  isNaN : num -> bool;
  numToString : num -> numstr;        (* String(x) *)
  toNumber : numstr -> num;           (* Number(s), and the implicit ToNumber *)
  parseFloat : string -> num
}.

(* ------------------------------------------------------------------ *)
(** ** Data model (shared/schema.ts)                                    *)
(* ------------------------------------------------------------------ *)

(** [categories] *)
Definition categories : list string :=
  ["Housing"; "Transportation"; "Food"; "Utilities"; "Healthcare";
   "Entertainment"; "Education"; "Shopping"; "Income"; "Other"]%string.

Module User.
Record t := { id : Z; username : string; password : string }.
End User.

Module InsertUser.
Record t := { username : string; password : string }.
End InsertUser.

Module Transaction.
Record t (numstr : Type) := {
  id : Z;
  userId : Z;
  date : DateOnly;
  description : string;
  category : string;
  amount : numstr;
  type : string;
  pdfSource : option string;   (* null is [None] *)
  createdAt : Z
}.
End Transaction.

(** The validated request body: [date] is a [Date], [amount] a number;
    a missing or null [pdfSource] is [None]. *)
Module InsertTransaction.
Record t (num : Type) := {
  date : Z;
  description : string;
  category : string;
  amount : num;
  type : string;
  pdfSource : option string
}.
End InsertTransaction.

(** [Partial<InsertTransaction>]: an absent ([undefined]) field is [None];
    [pdfSource] may also be present and null ([Some None]). *)
Module PartialInsertTransaction.
Record t (num : Type) := {
  date : option Z;
  description : option string;
  category : option string;
  amount : option num;
  type : option string;
  pdfSource : option (option string)
}.
End PartialInsertTransaction.

Module MonthlySummary.
Record t (numstr : Type) := {
  id : Z;
  userId : Z;
  year : Z;
  month : Z;
  totalIncome : numstr;
  totalExpenses : numstr;
  netBalance : numstr;
  lastUpdated : Z
}.
End MonthlySummary.

Module InsertMonthlySummary.
Record t (num : Type) := {
  year : Z;
  month : Z;
  totalIncome : num;
  totalExpenses : num;
  netBalance : num
}.
End InsertMonthlySummary.

Module CategoryBreakdown.
Record t (numstr : Type) := {
  id : Z;
  summaryId : Z;
  category : string;
  amount : numstr;
  percentage : numstr
}.
End CategoryBreakdown.

Module InsertCategoryBreakdown.
Record t (num : Type) := {
  category : string;
  amount : num;
  percentage : num
}.
End InsertCategoryBreakdown.

(* ------------------------------------------------------------------ *)
(** ** The volatile store (server/storage.ts, class MemStorage)         *)
(* ------------------------------------------------------------------ *)

Module MemStorage.

Record t (numstr : Type) := {
  users : JsMap.t Z User.t;
  transactions : JsMap.t Z (Transaction.t numstr);
  monthlySummaries : JsMap.t Z (MonthlySummary.t numstr);
  categoryBreakdowns : JsMap.t Z (CategoryBreakdown.t numstr);
  userId : Z;
  transactionId : Z;
  summaryId : Z;
  breakdownId : Z
}.

Section Methods.
Context {num numstr : Type} `{JsNum num numstr}.
Variable tz : TimeZone.

Local Abbreviation store := (t numstr).

Definition createUser (st : store) (insertUser : InsertUser.t) : User.t * store :=
  let id := userId st in
  let user := {| User.id := id;
                 User.username := InsertUser.username insertUser;
                 User.password := InsertUser.password insertUser |} in
  (user,
   {| users := JsMap.set Z.eqb id user (users st);
      transactions := transactions st;
      monthlySummaries := monthlySummaries st;
      categoryBreakdowns := categoryBreakdowns st;
      userId := id + 1;
      transactionId := transactionId st;
      summaryId := summaryId st;
      breakdownId := breakdownId st |}).

(** [new MemStorage()] *)
Definition new : store :=
  snd (createUser
         {| users := JsMap.empty Z User.t;
            transactions := JsMap.empty Z _;
            monthlySummaries := JsMap.empty Z _;
            categoryBreakdowns := JsMap.empty Z _;
            userId := 1; transactionId := 1; summaryId := 1; breakdownId := 1 |}
         {| InsertUser.username := "demo"; InsertUser.password := "password" |}).

Definition getUser (st : store) (id : Z) : option User.t :=
  JsMap.get Z.eqb id (users st).

Definition getUserByUsername (st : store) (username : string) : option User.t :=
  find (fun user => String.eqb (User.username user) username)
       (JsMap.values (users st)).

Definition getTransactions (st : store) (userId : Z) : list (Transaction.t numstr) :=
  filter (fun transaction => Transaction.userId transaction =? userId)
         (JsMap.values (transactions st)).

Definition getTransactionsByMonth (st : store) (userId year month : Z)
  : list (Transaction.t numstr) :=
  filter (fun transaction =>
            let transactionDate := JsDate.newDate (Transaction.date transaction) in
            (Transaction.userId transaction =? userId)
            && (JsDate.getFullYear tz transactionDate =? year)
            && (JsDate.getMonth tz transactionDate =? month - 1))
         (JsMap.values (transactions st)).

Definition getTransactionById (st : store) (id : Z) : option (Transaction.t numstr) :=
  JsMap.get Z.eqb id (transactions st).

(** [s || null] on an optional string: the empty string is falsy. *)
Definition orNull (s : option string) : option string :=
  match s with
  | Some s' => if String.eqb s' "" then None else Some s'
  | None => None
  end.

Definition createTransaction (now : Z) (st : store) (userId : Z)
           (insertTransaction : InsertTransaction.t num)
  : Transaction.t numstr * store :=
  let id := transactionId st in
  let transaction :=
    {| Transaction.id := id;
       Transaction.userId := userId;
       Transaction.date := JsDate.toISODate (InsertTransaction.date insertTransaction);
       Transaction.type := InsertTransaction.type insertTransaction;
       Transaction.description := InsertTransaction.description insertTransaction;
       Transaction.category := InsertTransaction.category insertTransaction;
       Transaction.amount := numToString (InsertTransaction.amount insertTransaction);
       Transaction.pdfSource := orNull (InsertTransaction.pdfSource insertTransaction);
       Transaction.createdAt := now |} in
  (transaction,
   {| users := users st;
      transactions := JsMap.set Z.eqb id transaction (transactions st);
      monthlySummaries := monthlySummaries st;
      categoryBreakdowns := categoryBreakdowns st;
      userId := MemStorage.userId st;
      transactionId := id + 1;
      summaryId := summaryId st;
      breakdownId := breakdownId st |}).

(** [if (u !== undefined) field = f(u)] *)
Definition overwrite {A B : Type} (f : A -> B) (u : option A) (old : B) : B :=
  match u with Some a => f a | None => old end.

Definition updateTransaction (st : store) (id : Z)
           (updateData : PartialInsertTransaction.t num)
  : option (Transaction.t numstr) * store :=
  match JsMap.get Z.eqb id (transactions st) with
  | None => (None, st)
  | Some transaction =>
      let updatedTransaction :=
        {| Transaction.id := Transaction.id transaction;
           Transaction.userId := Transaction.userId transaction;
           Transaction.date :=
             overwrite JsDate.toISODate (PartialInsertTransaction.date updateData)
                       (Transaction.date transaction);
           Transaction.amount :=
             overwrite numToString (PartialInsertTransaction.amount updateData)
                       (Transaction.amount transaction);
           Transaction.description :=
             overwrite (fun x => x) (PartialInsertTransaction.description updateData)
                       (Transaction.description transaction);
           Transaction.category :=
             overwrite (fun x => x) (PartialInsertTransaction.category updateData)
                       (Transaction.category transaction);
           Transaction.type :=
             overwrite (fun x => x) (PartialInsertTransaction.type updateData)
                       (Transaction.type transaction);
           Transaction.pdfSource :=
             overwrite (fun x => x) (PartialInsertTransaction.pdfSource updateData)
                       (Transaction.pdfSource transaction);
           Transaction.createdAt := Transaction.createdAt transaction |} in
      (Some updatedTransaction,
       {| users := users st;
          transactions := JsMap.set Z.eqb id updatedTransaction (transactions st);
          monthlySummaries := monthlySummaries st;
          categoryBreakdowns := categoryBreakdowns st;
          userId := userId st;
          transactionId := transactionId st;
          summaryId := summaryId st;
          breakdownId := breakdownId st |})
  end.

Definition deleteTransaction (st : store) (id : Z) : bool * store :=
  (JsMap.has Z.eqb id (transactions st),
   {| users := users st;
      transactions := JsMap.delete Z.eqb id (transactions st);
      monthlySummaries := monthlySummaries st;
      categoryBreakdowns := categoryBreakdowns st;
      userId := userId st;
      transactionId := transactionId st;
      summaryId := summaryId st;
      breakdownId := breakdownId st |}).

Definition getMonthlySummaries (st : store) (userId : Z)
  : list (MonthlySummary.t numstr) :=
  filter (fun summary => MonthlySummary.userId summary =? userId)
         (JsMap.values (monthlySummaries st)).

Definition getMonthlySummaryByMonth (st : store) (userId year month : Z)
  : option (MonthlySummary.t numstr) :=
  find (fun summary =>
          (MonthlySummary.userId summary =? userId)
          && (MonthlySummary.year summary =? year)
          && (MonthlySummary.month summary =? month))
       (JsMap.values (monthlySummaries st)).

Definition withSummaries (st : store) ms sid : store :=
  {| users := users st;
     transactions := transactions st;
     monthlySummaries := ms;
     categoryBreakdowns := categoryBreakdowns st;
     userId := userId st;
     transactionId := transactionId st;
     summaryId := sid;
     breakdownId := breakdownId st |}.

Definition createOrUpdateMonthlySummary (now : Z) (st : store) (userId : Z)
           (summaryData : InsertMonthlySummary.t num)
  : MonthlySummary.t numstr * store :=
  let existing :=
    getMonthlySummaryByMonth st userId
      (InsertMonthlySummary.year summaryData)
      (InsertMonthlySummary.month summaryData) in
  let dbData_year := InsertMonthlySummary.year summaryData in
  let dbData_month := InsertMonthlySummary.month summaryData in
  let dbData_totalIncome := numToString (InsertMonthlySummary.totalIncome summaryData) in
  let dbData_totalExpenses := numToString (InsertMonthlySummary.totalExpenses summaryData) in
  let dbData_netBalance := numToString (InsertMonthlySummary.netBalance summaryData) in
  match existing with
  | Some existing =>
      let updatedSummary :=
        {| MonthlySummary.id := MonthlySummary.id existing;
           MonthlySummary.userId := MonthlySummary.userId existing;
           MonthlySummary.year := dbData_year;
           MonthlySummary.month := dbData_month;
           MonthlySummary.totalIncome := dbData_totalIncome;
           MonthlySummary.totalExpenses := dbData_totalExpenses;
           MonthlySummary.netBalance := dbData_netBalance;
           MonthlySummary.lastUpdated := now |} in
      (updatedSummary,
       withSummaries st
         (JsMap.set Z.eqb (MonthlySummary.id existing) updatedSummary (monthlySummaries st))
         (summaryId st))
  | None =>
      let id := summaryId st in
      let summary :=
        {| MonthlySummary.id := id;
           MonthlySummary.userId := userId;
           MonthlySummary.year := dbData_year;
           MonthlySummary.month := dbData_month;
           MonthlySummary.totalIncome := dbData_totalIncome;
           MonthlySummary.totalExpenses := dbData_totalExpenses;
           MonthlySummary.netBalance := dbData_netBalance;
           MonthlySummary.lastUpdated := now |} in
      (summary,
       withSummaries st (JsMap.set Z.eqb id summary (monthlySummaries st)) (id + 1))
  end.

Definition getCategoryBreakdowns (st : store) (summaryId : Z)
  : list (CategoryBreakdown.t numstr) :=
  filter (fun breakdown => CategoryBreakdown.summaryId breakdown =? summaryId)
         (JsMap.values (categoryBreakdowns st)).

Definition withBreakdowns (st : store) bs bid : store :=
  {| users := users st;
     transactions := transactions st;
     monthlySummaries := monthlySummaries st;
     categoryBreakdowns := bs;
     userId := userId st;
     transactionId := transactionId st;
     summaryId := summaryId st;
     breakdownId := bid |}.

Definition createCategoryBreakdown (st : store) (summaryId : Z)
           (breakdownData : InsertCategoryBreakdown.t num)
  : CategoryBreakdown.t numstr * store :=
  let id := breakdownId st in
  let breakdown :=
    {| CategoryBreakdown.id := id;
       CategoryBreakdown.summaryId := summaryId;
       CategoryBreakdown.category := InsertCategoryBreakdown.category breakdownData;
       CategoryBreakdown.amount :=
         numToString (InsertCategoryBreakdown.amount breakdownData);
       CategoryBreakdown.percentage :=
         numToString (InsertCategoryBreakdown.percentage breakdownData) |} in
  (breakdown,
   withBreakdowns st (JsMap.set Z.eqb id breakdown (categoryBreakdowns st)) (id + 1)).

(** The [for ... of] loop of [updateCategoryBreakdowns]. *)
Fixpoint createAll (st : store) (summaryId : Z)
         (breakdowns : list (InsertCategoryBreakdown.t num))
  : list (CategoryBreakdown.t numstr) * store :=
  match breakdowns with
  | [] => ([], st)
  | breakdown :: rest =>
      let (b, st1) := createCategoryBreakdown st summaryId breakdown in
      let (results, st2) := createAll st1 summaryId rest in
      (b :: results, st2)
  end.

Definition updateCategoryBreakdowns (st : store) (summaryId : Z)
           (breakdowns : list (InsertCategoryBreakdown.t num))
  : list (CategoryBreakdown.t numstr) * store :=
  let stale :=
    filter (fun breakdown => CategoryBreakdown.summaryId breakdown =? summaryId)
           (JsMap.values (categoryBreakdowns st)) in
  let st1 :=
    withBreakdowns st
      (fold_left (fun m breakdown => JsMap.delete Z.eqb (CategoryBreakdown.id breakdown) m)
                 stale (categoryBreakdowns st))
      (breakdownId st) in
  createAll st1 summaryId breakdowns.

End Methods.
End MemStorage.

(* ------------------------------------------------------------------ *)
(** ** Strings and the regular expressions of the importer              *)
(* ------------------------------------------------------------------ *)

Module JsString.
Local Open Scope string_scope.

(** [s.split('\n')] *)
Fixpoint split_lines (s : string) : list string :=
  match s with
  | EmptyString => [EmptyString]
  | String c r =>
      if Ascii.eqb c "010"%char then EmptyString :: split_lines r
      else match split_lines r with
           | [] => [String c EmptyString]
           | l :: ls => String c l :: ls
           end
  end.

(** White space and line terminators among 8-bit code units. *)
Definition is_space (c : ascii) : bool :=
  let n := nat_of_ascii c in
  ((9 <=? n) && (n <=? 13) || (n =? 32) || (n =? 160))%nat.

Fixpoint trim_start (s : string) : string :=
  match s with
  | String c r => if is_space c then trim_start r else s
  | EmptyString => EmptyString
  end.

Fixpoint trim_end (s : string) : string :=
  match s with
  | EmptyString => EmptyString
  | String c r =>
      match trim_end r with
      | EmptyString => if is_space c then EmptyString else String c EmptyString
      | r' => String c r'
      end
  end.

(** [s.trim()] *)
Definition trim (s : string) : string := trim_end (trim_start s).

(** [\d] *)
Definition is_digit (c : ascii) : bool :=
  let n := nat_of_ascii c in ((48 <=? n) && (n <=? 57))%nat.

Fixpoint take_digits (s : string) : string :=
  match s with
  | String c r => if is_digit c then String c (take_digits r) else EmptyString
  | EmptyString => EmptyString
  end.

Fixpoint drop_digits (s : string) : string :=
  match s with
  | String c r => if is_digit c then drop_digits r else s
  | EmptyString => EmptyString
  end.

(** [\d+\.\d{2}] anchored at the head of [s]; the result is the text
    matched. The digit run is taken whole: a shorter run is followed by a
    digit, never by the dot. *)
Definition amount_here (s : string) : option string :=
  match take_digits s, drop_digits s with
  | String _ _ as ds, String dot (String a (String b _)) =>
      if Ascii.eqb dot "."%char && is_digit a && is_digit b
      then Some (ds ++ String dot (String a (String b EmptyString)))
      else None
  | _, _ => None
  end.

(** [s.match(/\$(\d+\.\d{2})/)?.[1]]: group 1 of the leftmost match. *)
Fixpoint match_amount (s : string) : option string :=
  match s with
  | EmptyString => None
  | String c r =>
      if Ascii.eqb c "$"%char then
        match amount_here r with
        | Some g => Some g
        | None => match_amount r
        end
      else match_amount r
  end.

(** [/\$\d+\.\d{2}/.test(s)] *)
Definition test_amount (s : string) : bool :=
  match match_amount s with Some _ => true | None => false end.

(** Case folding of the [i] flag: only the ASCII letters fold. *)
Definition fold_case (c : ascii) : ascii :=
  let n := nat_of_ascii c in
  if ((65 <=? n) && (n <=? 90))%nat then ascii_of_nat (n + 32) else c.

Fixpoint prefix_ci (p s : string) : bool :=
  match p, s with
  | EmptyString, _ => true
  | String a p', String b s' => Ascii.eqb (fold_case a) (fold_case b) && prefix_ci p' s'
  | String _ _, EmptyString => false
  end.

(** [/p/i.test(s)] for a literal [p] *)
Fixpoint contains_ci (p s : string) : bool :=
  prefix_ci p s ||
  match s with
  | EmptyString => false
  | String _ s' => contains_ci p s'
  end.

(** [/p1|p2|.../i.test(s)] for literal alternatives *)
Definition test_any_ci (ps : list string) (s : string) : bool :=
  existsb (fun p => contains_ci p s) ps.
End JsString.

(* ------------------------------------------------------------------ *)
(** ** Aggregation engine and request handlers (server/routes.ts)       *)
(* ------------------------------------------------------------------ *)

Section Routes.
Context {num numstr : Type} `{JsNum num numstr}.
Variable tz : TimeZone.

(** [pdfParse(Buffer.from(pdfContent, 'base64'))]: the text of the
    document, [None] when the library throws. *)
Variable pdfParse : string -> option string.

Local Abbreviation store := (MemStorage.t numstr).
Local Abbreviation Tx := (Transaction.t numstr).

Definition extractTransactions (now : Z) (text : string)
  : list (InsertTransaction.t num) :=
  let lines :=
    filter (fun line => negb (Nat.eqb (String.length (JsString.trim line)) 0))
           (JsString.split_lines text) in
  flat_map
    (fun line =>
       match JsString.match_amount line with
       | Some g =>
           let amount := parseFloat g in
           let isIncome :=
             JsString.test_any_ci ["deposit"; "salary"; "income"; "transfer in"]%string line in
           let category :=
            (if JsString.test_any_ci ["rent"; "mortgage"; "home"] line
             then "Housing"
             else if JsString.test_any_ci ["car"; "gas"; "uber"; "lyft"; "transit"] line
             then "Transportation"
             else if JsString.test_any_ci ["grocery"; "restaurant"; "food"] line
             then "Food"
             else if JsString.test_any_ci ["electric"; "water"; "phone"; "internet"] line
             then "Utilities"
             else if JsString.test_any_ci ["salary"; "deposit"; "income"] line
             then "Income"
             else "Other")%string in
           [ {| InsertTransaction.date := now;
                InsertTransaction.description :=
                  String.substring 0 100 (JsString.trim line);
                InsertTransaction.category := category;
                InsertTransaction.amount := if isIncome then amount else neg amount;
                InsertTransaction.type := (if isIncome then "income" else "expense")%string;
                InsertTransaction.pdfSource := None |} ]
       | None => []
       end)
    lines.

(** *** The pure aggregation of a list of transactions *)

Definition isIncome (t : Tx) : bool := String.eqb (Transaction.type t) "income".
Definition isExpense (t : Tx) : bool := String.eqb (Transaction.type t) "expense".

(** [Number(Math.abs(t.amount))] *)
Definition absAmount (t : Tx) : num := abs (toNumber (Transaction.amount t)).

Definition totalIncomeOf (transactions : list Tx) : num :=
  fold_left (fun sum t => add sum (toNumber (Transaction.amount t)))
            (filter isIncome transactions) zero.

Definition totalExpensesOf (transactions : list Tx) : num :=
  fold_left (fun sum t => add sum (absAmount t))
            (filter isExpense transactions) zero.

(** [x || 0] on the result of [Map.get] *)
Definition orZero (x : option num) : num :=
  match x with
  | Some v => if truthy v then v else zero
  | None => zero
  end.

Definition expensesByCategory (transactions : list Tx) : JsMap.t string num :=
  fold_left
    (fun m t =>
       let currentAmount := orZero (JsMap.get String.eqb (Transaction.category t) m) in
       JsMap.set String.eqb (Transaction.category t) (add currentAmount (absAmount t)) m)
    (filter isExpense transactions)
    (fold_left (fun m cat => JsMap.set String.eqb cat zero m)
               categories (JsMap.empty string num)).

Definition breakdownsOf (transactions : list Tx)
  : list (InsertCategoryBreakdown.t num) :=
  let totalExpenses := totalExpensesOf transactions in
  map (fun entry =>
         {| InsertCategoryBreakdown.category := fst entry;
            InsertCategoryBreakdown.amount := snd entry;
            InsertCategoryBreakdown.percentage :=
              mul (div (snd entry) totalExpenses) hundred |})
      (filter (fun entry => gtb (snd entry) zero) (expensesByCategory transactions)).

Definition summaryDataOf (year month : Z) (transactions : list Tx)
  : InsertMonthlySummary.t num :=
  let totalIncome := totalIncomeOf transactions in
  let totalExpenses := totalExpensesOf transactions in
  let netBalance := sub totalIncome totalExpenses in
  {| InsertMonthlySummary.year := year;
     InsertMonthlySummary.month := month;
     InsertMonthlySummary.totalIncome := totalIncome;
     InsertMonthlySummary.totalExpenses := totalExpenses;
     InsertMonthlySummary.netBalance := netBalance |}.

Definition generateMonthlySummary (now : Z) (st : store) (userId year month : Z)
  : option (MonthlySummary.t numstr) * store :=
  let transactions := MemStorage.getTransactionsByMonth tz st userId year month in
  if Nat.eqb (List.length transactions) 0 then (None, st)
  else
    let (summary, st1) :=
      MemStorage.createOrUpdateMonthlySummary now st userId
        (summaryDataOf year month transactions) in
    let breakdowns := breakdownsOf transactions in
    let (_, st2) :=
      MemStorage.updateCategoryBreakdowns st1 (MonthlySummary.id summary) breakdowns in
    (Some summary, st2).

(** *** Request validation (shared/schema.ts, [insertTransactionSchema])

    What [parse] checks on an object whose fields already have their
    JavaScript types: the amount is not NaN, the category and the type
    are members of their enumerations. *)
Definition insertTransactionSchema_parse (x : InsertTransaction.t num)
  : option (InsertTransaction.t num) :=
  if negb (isNaN (InsertTransaction.amount x))
     && existsb (String.eqb (InsertTransaction.category x)) categories
     && existsb (String.eqb (InsertTransaction.type x)) ["income"; "expense"]%string
  then Some x else None.

Definition absentOr {A : Type} (ok : A -> bool) (x : option A) : bool :=
  match x with Some a => ok a | None => true end.

(** [insertTransactionSchema.partial().parse] *)
Definition partialSchema_parse (x : PartialInsertTransaction.t num)
  : option (PartialInsertTransaction.t num) :=
  if absentOr (fun a => negb (isNaN a)) (PartialInsertTransaction.amount x)
     && absentOr (fun c => existsb (String.eqb c) categories)
                 (PartialInsertTransaction.category x)
     && absentOr (fun c => existsb (String.eqb c) ["income"; "expense"]%string)
                 (PartialInsertTransaction.type x)
  then Some x else None.

(** *** Requests and responses *)

Inductive Request :=
| POST_transactions (body : option (InsertTransaction.t num))
(* [None]: a body that does not have the shape of the schema *)
| PUT_transactions (id : option Z) (body : option (PartialInsertTransaction.t num))
(* [id = None]: [parseInt] gave NaN *)
| DELETE_transactions (id : option Z)
| POST_upload_statement (pdfContent : option string)
| GET_transactions_month (year month : option Z)
| GET_summaries_month (year month : option Z).

Inductive Body :=
| json_transaction (t : option Tx)
| json_transactions (l : list Tx)
| json_message (message : string)
| json_upload (transactions : list Tx) (summary : option (MonthlySummary.t numstr))
| json_summary (summary : MonthlySummary.t numstr)
               (breakdowns : list (CategoryBreakdown.t numstr))
| no_content.

Record Response := { status : Z; body : Body }.

(** The year and month (1..12) the handlers pass to
    [generateMonthlySummary] for a stored date string [d]:
    [new Date(d).getFullYear()], [new Date(d).getMonth() + 1]. *)
Definition summaryYear (d : DateOnly) : Z := JsDate.getFullYear tz (JsDate.newDate d).
Definition summaryMonth (d : DateOnly) : Z := JsDate.getMonth tz (JsDate.newDate d) + 1.

(** [app.post('/api/transactions')] *)
Definition post_transactions (now : Z) (st : store)
           (body : option (InsertTransaction.t num)) : Response * store :=
  let userId := 1 in
  match option_map insertTransactionSchema_parse body with
  | Some (Some validatedData) =>
      let (transaction, st1) := MemStorage.createTransaction now st userId validatedData in
      let (_, st2) :=
        generateMonthlySummary now st1 userId
          (summaryYear (Transaction.date transaction))
          (summaryMonth (Transaction.date transaction)) in
      ({| status := 201; body := json_transaction (Some transaction) |}, st2)
  | _ => ({| status := 400; body := json_message "Invalid transaction data" |}, st)
  end.

(** [app.put('/api/transactions/:id')] *)
Definition put_transactions (now : Z) (st : store) (id : option Z)
           (body : option (PartialInsertTransaction.t num)) : Response * store :=
  match id with
  | None => ({| status := 400; body := json_message "Invalid transaction ID" |}, st)
  | Some id =>
      match MemStorage.getTransactionById st id with
      | None => ({| status := 404; body := json_message "Transaction not found" |}, st)
      | Some transaction =>
          match option_map partialSchema_parse body with
          | Some (Some validatedData) =>
              let (updatedTransaction, st1) :=
                MemStorage.updateTransaction st id validatedData in
              let d := match updatedTransaction with
                       | Some u => Transaction.date u
                       | None => Transaction.date transaction
                       end in
              let (_, st2) :=
                generateMonthlySummary now st1 (Transaction.userId transaction)
                  (summaryYear d) (summaryMonth d) in
              ({| status := 200; body := json_transaction updatedTransaction |}, st2)
          | _ => ({| status := 400; body := json_message "Invalid transaction data" |}, st)
          end
      end
  end.

(** [app.delete('/api/transactions/:id')] *)
Definition delete_transactions (now : Z) (st : store) (id : option Z)
  : Response * store :=
  match id with
  | None => ({| status := 400; body := json_message "Invalid transaction ID" |}, st)
  | Some id =>
      match MemStorage.getTransactionById st id with
      | None => ({| status := 404; body := json_message "Transaction not found" |}, st)
      | Some transaction =>
          let (success, st1) := MemStorage.deleteTransaction st id in
          if success then
            let (_, st2) :=
              generateMonthlySummary now st1 (Transaction.userId transaction)
                (summaryYear (Transaction.date transaction))
                (summaryMonth (Transaction.date transaction)) in
            ({| status := 204; body := no_content |}, st2)
          else
            ({| status := 500; body := json_message "Failed to delete transaction" |}, st1)
      end
  end.

(** The loop that saves the extracted transactions; [None] when
    [insertTransactionSchema.parse] throws, the transactions saved before
    stay in the store. *)
Fixpoint saveAll (now : Z) (st : store) (userId : Z)
         (extracted : list (InsertTransaction.t num))
  : option (list Tx) * store :=
  match extracted with
  | [] => (Some [], st)
  | transaction :: rest =>
      match insertTransactionSchema_parse
              {| InsertTransaction.date := InsertTransaction.date transaction;
                 InsertTransaction.description := InsertTransaction.description transaction;
                 InsertTransaction.category := InsertTransaction.category transaction;
                 InsertTransaction.amount := InsertTransaction.amount transaction;
                 InsertTransaction.type := InsertTransaction.type transaction;
                 InsertTransaction.pdfSource := Some "Uploaded PDF"%string |} with
      | None => (None, st)
      | Some transactionData =>
          let (saved, st1) := MemStorage.createTransaction now st userId transactionData in
          match saveAll now st1 userId rest with
          | (Some savedTransactions, st2) => (Some (saved :: savedTransactions), st2)
          | (None, st2) => (None, st2)
          end
      end
  end.

(** [app.post('/api/upload-statement')] *)
Definition post_upload_statement (now : Z) (st : store) (pdfContent : option string)
  : Response * store :=
  match MemStorage.orNull pdfContent with
  | None => ({| status := 400; body := json_message "No PDF content provided" |}, st)
  | Some pdfContent =>
      let userId := 1 in
      match pdfParse pdfContent with
      | None => ({| status := 500; body := json_message "Failed to process PDF" |}, st)
      | Some extractedText =>
          let extractedTransactions := extractTransactions now extractedText in
          if Nat.eqb (List.length extractedTransactions) 0 then
            ({| status := 400;
                body := json_message
                  "No transactions could be extracted from the PDF. Please check the format or try manual entry." |},
             st)
          else
            match saveAll now st userId extractedTransactions with
            | (Some ((first :: _) as savedTransactions), st1) =>
                let (summary, st2) :=
                  generateMonthlySummary now st1 userId
                    (summaryYear (Transaction.date first))
                    (summaryMonth (Transaction.date first)) in
                ({| status := 201; body := json_upload savedTransactions summary |}, st2)
            | (_, st1) =>
                ({| status := 500; body := json_message "Failed to process PDF" |}, st1)
            end
      end
  end.

Definition validMonth (year month : option Z) : option (Z * Z) :=
  match year, month with
  | Some y, Some m => if (m <? 1) || (m >? 12) then None else Some (y, m)
  | _, _ => None
  end.

(** [app.get('/api/transactions/month/:year/:month')] *)
Definition get_transactions_month (st : store) (year month : option Z)
  : Response * store :=
  match validMonth year month with
  | None => ({| status := 400; body := json_message "Invalid year or month" |}, st)
  | Some (y, m) =>
      ({| status := 200;
          body := json_transactions (MemStorage.getTransactionsByMonth tz st 1 y m) |}, st)
  end.

(** [app.get('/api/summaries/:year/:month')] *)
Definition get_summaries_month (st : store) (year month : option Z)
  : Response * store :=
  match validMonth year month with
  | None => ({| status := 400; body := json_message "Invalid year or month" |}, st)
  | Some (y, m) =>
      match MemStorage.getMonthlySummaryByMonth st 1 y m with
      | None =>
          ({| status := 404; body := json_message "Summary not found for this month" |}, st)
      | Some summary =>
          ({| status := 200;
              body := json_summary summary
                        (MemStorage.getCategoryBreakdowns st (MonthlySummary.id summary)) |},
           st)
      end
  end.

(** The router. *)
Definition handle (now : Z) (st : store) (req : Request) : Response * store :=
  match req with
  | POST_transactions body => post_transactions now st body
  | PUT_transactions id body => put_transactions now st id body
  | DELETE_transactions id => delete_transactions now st id
  | POST_upload_statement pdfContent => post_upload_statement now st pdfContent
  | GET_transactions_month year month => get_transactions_month st year month
  | GET_summaries_month year month => get_summaries_month st year month
  end.

(** The store after a sequence of requests, each with its clock reading. *)
Definition run (st : store) (reqs : list (Z * Request)) : store :=
  fold_left (fun st r => snd (handle (fst r) st (snd r))) reqs st.
End Routes.

(* ------------------------------------------------------------------ *)
(** ** The month filter of the relational store (server/db-storage.ts)  *)
(* ------------------------------------------------------------------ *)

Module PostgresStorage.
Section Methods.
Context {numstr : Type}.
Variable tz : TimeZone.

(** [getTransactionsByMonth]; [result] is what the query returns, the
    rows of [userId] (the query has no date condition). *)
Definition getTransactionsByMonth (result : list (Transaction.t numstr))
           (year month : Z) : list (Transaction.t numstr) :=
  let startDate := JsDate.newDateLocal tz year (month - 1) 1 in
  let endDate := JsDate.newDateLocal tz year month 0 in
  filter (fun transaction =>
            let txDate := JsDate.TimeClip (JsDate.newDate (Transaction.date transaction)) in
            JsDate.date_geb txDate startDate && JsDate.date_leb txDate endDate)
         result.
End Methods.
End PostgresStorage.

(* ------------------------------------------------------------------ *)
(** ** The syntax of numeric strings                                    *)
(* ------------------------------------------------------------------ *)

Module NumberSyntax.

Inductive literal :=
| Infinite (negative : bool)
| Decimal (negative : bool) (digits exp10 : Z).   (* digits * 10^exp10 *)

Fixpoint digits_value (acc : Z) (s : string) : Z :=
  match s with
  | String c r => digits_value (10 * acc + (Z.of_nat (nat_of_ascii c) - 48)) r
  | EmptyString => acc
  end.

Definition split_sign (s : string) : bool * string :=
  match s with
  | String "-"%char r => (true, r)
  | String "+"%char r => (false, r)
  | _ => (false, s)
  end.

Fixpoint strip_prefix (p s : string) : option string :=
  match p, s with
  | EmptyString, _ => Some s
  | String a p', String b s' => if Ascii.eqb a b then strip_prefix p' s' else None
  | _, _ => None
  end.

Definition nonempty (s : string) : bool := (0 <? String.length s)%nat.

(** The longest prefix of [s] that is a [StrDecimalLiteral], and the text
    after it. *)
Definition scan_decimal (s : string) : option (literal * string) :=
  let (sg, s1) := split_sign s in
  match strip_prefix "Infinity" s1 with
  | Some rest => Some (Infinite sg, rest)
  | None =>
      let ip := JsString.take_digits s1 in
      let s2 := JsString.drop_digits s1 in
      let (fp, s3) :=
        match s2 with
        | String "."%char r =>
(* a dot needs a digit on one side at least *)
if nonempty ip || nonempty (JsString.take_digits r)
then (JsString.take_digits r, JsString.drop_digits r)
else (EmptyString, s2)
| _ => (EmptyString, s2)
end in
if negb (nonempty ip || nonempty fp) then None
else
let (ex, s4) :=
match s3 with
| String e r =>
  if Ascii.eqb e "e"%char || Ascii.eqb e "E"%char then
    let (esg, r1) := split_sign r in
    let ed := JsString.take_digits r1 in
    if nonempty ed
    then ((if esg then - digits_value 0 ed else digits_value 0 ed),
          JsString.drop_digits r1)
    else (0, s3)
  else (0, s3)
| EmptyString => (0, s3)
end in
Some (Decimal sg (digits_value 0 (ip ++ fp)%string)
          (ex - Z.of_nat (String.length fp)), s4)
end.

Fixpoint all_space (s : string) : bool :=
  match s with
  | String c r => JsString.is_space c && all_space r
  | EmptyString => true
  end.

Definition string_of_Z (z : Z) : string := NilZero.string_of_int (Z.to_int z).

Fixpoint zeros (n : nat) : string :=
  match n with O => EmptyString | S n' => String "0"%char (zeros n') end.
End NumberSyntax.

(* ------------------------------------------------------------------ *)
(** ** IEEE binary64: the numbers of the program                        *)
(* ------------------------------------------------------------------ *)

Module Float64.
Import NumberSyntax.

(** The binary64 value nearest to [digits * 10^exp10] (ties to even). *)
Definition of_decimal (negative : bool) (digits exp10 : Z) : float :=
  let signed x := if negative then PrimFloat.opp x else x in
  if digits <=? 0 then signed PrimFloat.zero
  else if 310 <? exp10 + Z.log2 digits * 3 / 10 then signed PrimFloat.infinity
  else if exp10 + (Z.log2 digits + 1) * 4 / 10 + 1 <? -400 then signed PrimFloat.zero
  else
    match exp10 with
    | Zneg _ =>
        signed (SF2Prim (SFdiv prec emax
                           (S754_finite false (Z.to_pos digits) 0)
                           (S754_finite false (Z.to_pos (10 ^ (- exp10))) 0)))
    | _ => signed (SF2Prim (binary_normalize prec emax (digits * 10 ^ exp10) 0 false))
    end.

Definition of_literal (l : literal) : float :=
  match l with
  | Infinite negative => if negative then PrimFloat.neg_infinity else PrimFloat.infinity
  | Decimal negative digits exp10 => of_decimal negative digits exp10
  end.

(** [parseFloat(s)] *)
Definition parse_float (s : string) : float :=
  match scan_decimal (JsString.trim_start s) with
  | Some (l, _) => of_literal l
  | None => PrimFloat.nan
  end.

(** [Number(s)] for decimal text: white space apart, the whole string
    must be one decimal literal; the empty string is 0. (The store holds
    only results of [String(x)]; hexadecimal, octal and binary literals
    are not modelled and read as NaN.) *)
Definition of_string (s : string) : float :=
  match JsString.trim_start s with
  | EmptyString => PrimFloat.zero
  | s' =>
      match scan_decimal s' with
      | Some (l, rest) => if all_space rest then of_literal l else PrimFloat.nan
      | None => PrimFloat.nan
      end
  end.

(** [x = p / q] exactly, for a finite positive [x]. *)
Definition ratio (x : float) : Z * Z :=
  match Prim2SF x with
  | S754_finite _ m e =>
      if 0 <=? e then (Zpos m * 2 ^ e, 1) else (Zpos m, 2 ^ (- e))
  | _ => (0, 1)
  end.

(** The [n] with [10^(n-1) <= p/q < 10^n]. *)
Fixpoint exponent10_up (fuel : nat) (p q n : Z) : Z :=
  match fuel with
  | O => n
  | S f => if p <? q * 10 ^ n then n else exponent10_up f p q (n + 1)
  end.

Fixpoint exponent10_down (fuel : nat) (p q n : Z) : Z :=
  match fuel with
  | O => n
  | S f => if q <=? p * 10 ^ (1 - n) then n else exponent10_down f p q (n - 1)
  end.

Definition exponent10 (p q : Z) : Z :=
  if q <=? p then exponent10_up 400 p q 1 else exponent10_down 400 p q 0.

(** [Number::toString], the choice of digits: the least [k] and a
    [k]-digit integer [s] with [s * 10^(n-k)] reading back as [x]; of two
    such [s], the nearer to [x], then the even one. *)
Fixpoint shortest (fuel : nat) (x : float) (p q n k : Z) : Z * Z * Z :=
  match fuel with
  | O => (0, n, k)
  | S f =>
(* x * 10^(k-n) = a / b *)
let a := if 0 <=? k - n then p * 10 ^ (k - n) else p in
let b := if 0 <=? k - n then q else q * 10 ^ (n - k) in
let lo := a / b in
let hi := lo + 1 in
let reads s n' := PrimFloat.eqb (of_decimal false s (n' - k)) x in
(* [hi] may be 10^k: the [k]-digit string is then 10^(k-1), one
   decimal place up *)
let hi' := if hi =? 10 ^ k then (10 ^ (k - 1), n + 1) else (hi, n) in
let r := a - lo * b in
let prefer_lo := (2 * r <? b) || ((2 * r =? b) && Z.even lo) in
match reads lo n, reads (fst hi') (snd hi') with
| true, true => if prefer_lo then (lo, n, k) else (fst hi', snd hi', k)
| true, false => (lo, n, k)
| false, true => (fst hi', snd hi', k)
| false, false => shortest f x p q n (k + 1)
end
end.

(** [Number::toString], the layout of [k] digits with decimal exponent [n]. *)
Definition format (n k : Z) (digits : string) : string :=
  let sub i len := String.substring (Z.to_nat i) (Z.to_nat len) digits in
  let e := n - 1 in
  let sign := if 0 <=? e then "+"%string else "-"%string in
  let es := string_of_Z (Z.abs e) in
  let one := k =? 1 in
  if (k <=? n) && (n <=? 21) then (digits ++ zeros (Z.to_nat (n - k)))%string
  else if (0 <? n) && (n <=? 21) then (sub 0 n ++ "." ++ sub n (k - n))%string
  else if (-6 <? n) && (n <=? 0) then ("0." ++ zeros (Z.to_nat (- n)) ++ digits)%string
  else if one then (digits ++ "e" ++ sign ++ es)%string
  else (sub 0 1 ++ "." ++ sub 1 (k - 1) ++ "e" ++ sign ++ es)%string.

Definition positiveToString (x : float) : string :=
  let (p, q) := ratio x in
  let '(s, n, k) := shortest 17 x p q (exponent10 p q) 1 in
  format n k (string_of_Z s).

(** [String(x)] *)
Definition to_string (x : float) : string :=
  (if PrimFloat.is_nan x then "NaN"
   else if PrimFloat.is_zero x then "0"
   else if PrimFloat.is_infinity x then
     (if PrimFloat.ltb x PrimFloat.zero then "-Infinity" else "Infinity")
   else if PrimFloat.ltb x PrimFloat.zero
   then "-" ++ positiveToString (PrimFloat.opp x)
   else positiveToString x)%string.

#[global] Instance ops : JsNum float string := {|
  zero := PrimFloat.zero;
  hundred := 100%float;
  add := PrimFloat.add;
  sub := PrimFloat.sub;
  mul := PrimFloat.mul;
  div := PrimFloat.div;
  neg := PrimFloat.opp;
  abs := PrimFloat.abs;
  gtb := fun x y => PrimFloat.ltb y x;
  truthy := fun x => negb (PrimFloat.is_zero x || PrimFloat.is_nan x);
  isNaN := PrimFloat.is_nan;
  numToString := to_string;
  toNumber := of_string;
  parseFloat := parse_float
|}.
End Float64.

(* ------------------------------------------------------------------ *)
(** ** The read-only routes and the CSV export (server/routes.ts)       *)
(* ------------------------------------------------------------------ *)

Section ReadRoutes.
Context {num numstr : Type} `{JsNum num numstr}.

(** [app.get('/api/transactions')]: status and JSON body *)
Definition get_transactions (st : MemStorage.t numstr) : Z * list (Transaction.t numstr) :=
  let userId := 1 in
  (200, MemStorage.getTransactions st userId).

(** [app.get('/api/summaries')] *)
Definition get_summaries (st : MemStorage.t numstr) : Z * list (MonthlySummary.t numstr) :=
  let userId := 1 in
  (200, MemStorage.getMonthlySummaries st userId).

(** [app.get('/api/categories')] *)
Definition get_categories : Z * list string := (200, categories).

End ReadRoutes.

(** The export runs on the numbers of the program, binary64. *)
Module Csv.
Import NumberSyntax.
Local Open Scope string_scope.

(** [x.toFixed(2)]: not finite, [String(x)]; from 10^21 on, the sign and
    [String] of the magnitude; else the integer [n] nearest to 100 |x| (of
    two, the larger), written with a dot before its last two digits. *)
Definition toFixed2 (x : float) : string :=
  match Prim2SF x with
  | S754_finite s m e =>
      (* |x| = p / q *)
      let p := if (0 <=? e)%Z then Zpos m * 2 ^ e else Zpos m in
      let q := if (0 <=? e)%Z then 1 else 2 ^ (- e) in
      if (10 ^ 21 * q <=? p)%Z then Float64.to_string x
      else
        let n := (2 * 100 * p + q) / (2 * q) in
        let m := string_of_Z n in
        let m := zeros (3 - String.length m) ++ m in
        let k := String.length m in
        (if s then "-" else "")
        ++ String.substring 0 (k - 2) m ++ "." ++ String.substring (k - 2) 2 m
  | S754_zero _ => "0.00"
  | _ => Float64.to_string x
  end.

(** The double quote. *)
Definition dquote : ascii := "034"%char.

(** [s.replace] of every double quote by two of them (the [g] flag). *)
Fixpoint escape_quotes (s : string) : string :=
  match s with
  | EmptyString => EmptyString
  | String c r =>
      if Ascii.eqb c dquote then String dquote (String dquote (escape_quotes r))
      else String c (escape_quotes r)
  end.

Section Rows.
Variable tz : TimeZone.

(** [`${date.getMonth() + 1}/${date.getDate()}/${date.getFullYear()}`] *)
Definition formattedDate (d : DateOnly) : string :=
  let date := JsDate.newDate d in
  string_of_Z (JsDate.getMonth tz date + 1) ++ "/"
  ++ string_of_Z (JsDate.getDate tz date) ++ "/"
  ++ string_of_Z (JsDate.getFullYear tz date).

(** The description column: [safeDescription] between double quotes. *)
Definition descriptionField (description : string) : string :=
  String dquote (escape_quotes description ++ String dquote EmptyString).

(** The amount column: [Math.abs(Number(transaction.amount)).toFixed(2)] *)
Definition amountField (amount : string) : string :=
  toFixed2 (PrimFloat.abs (Float64.of_string amount)).

Definition csvRow (transaction : Transaction.t string) : string :=
  String.concat ","
    [formattedDate (Transaction.date transaction);
     descriptionField (Transaction.description transaction);
     Transaction.category transaction;
     amountField (Transaction.amount transaction);
     Transaction.type transaction].

Definition csvContent (transactions : list (Transaction.t string)) : string :=
  let headers := ["Date"; "Description"; "Category"; "Amount"; "Type"] in
  let csvRows := String.concat "," headers :: map csvRow transactions in
  String.concat (String "010"%char EmptyString) csvRows.

Inductive ExportResponse :=
| json_message (status : Z) (message : string)
| text_csv (csvContent : string).      (* status 200, Content-Type text/csv *)

(** [app.get('/api/export/:year/:month')]; the response headers are
    left out. *)
Definition get_export (st : MemStorage.t string) (year month : option Z) : ExportResponse :=
  let userId := 1 in
  match validMonth year month with
  | None => json_message 400 "Invalid year or month"
  | Some (y, m) =>
      let transactions := MemStorage.getTransactionsByMonth tz st userId y m in
      if Nat.eqb (List.length transactions) 0
      then json_message 404 "No transactions found for this month"
      else text_csv (csvContent transactions)
  end.
End Rows.
End Csv.

(* ------------------------------------------------------------------ *)
(** ** The month selector of the dashboard (client/src/pages/Dashboard.tsx) *)
(* ------------------------------------------------------------------ *)

Module Dashboard.

(** The state of the component: [currentMonth] (1-12) and [currentYear]. *)
Record State := { currentMonth : Z; currentYear : Z }.

Definition prevMonth (s : State) : State :=
  if currentMonth s =? 1
  then {| currentMonth := 12; currentYear := currentYear s - 1 |}
  else {| currentMonth := currentMonth s - 1; currentYear := currentYear s |}.

Definition nextMonth (s : State) : State :=
  if currentMonth s =? 12
  then {| currentMonth := 1; currentYear := currentYear s + 1 |}
  else {| currentMonth := currentMonth s + 1; currentYear := currentYear s |}.

(** The parameters of the query
    [/api/transactions/month/${currentYear}/${currentMonth}], as the
    server's [parseInt] reads them. *)
Definition queryYear (s : State) : option Z := Some (currentYear s).
Definition queryMonth (s : State) : option Z := Some (currentMonth s).

End Dashboard.

(* ------------------------------------------------------------------ *)
(** ** Vocabulary of the specification                                  *)
(* ------------------------------------------------------------------ *)

(** The invariant of the store: in each table a record sits under its own
    identifier, identifiers are distinct and below the table's counter. *)
Module StoreInv.

Fixpoint nodupb (l : list Z) : bool :=
  match l with
  | [] => true
  | k :: r => negb (existsb (Z.eqb k) r) && nodupb r
  end.

Definition table_ok {V : Type} (idf : V -> Z) (next : Z) (m : JsMap.t Z V) : bool :=
  forallb (fun e => (idf (snd e) =? fst e) && (fst e <? next)) m
  && nodupb (JsMap.keys m).

Definition wf {numstr : Type} (st : MemStorage.t numstr) : bool :=
  table_ok (@Transaction.id numstr) (MemStorage.transactionId st) (MemStorage.transactions st)
  && table_ok (@MonthlySummary.id numstr) (MemStorage.summaryId st)
              (MemStorage.monthlySummaries st)
  && table_ok (@CategoryBreakdown.id numstr) (MemStorage.breakdownId st)
              (MemStorage.categoryBreakdowns st).

End StoreInv.

Section Vocabulary.
Context {num numstr : Type} `{JsNum num numstr}.

(** [l.reduce((sum, x) => sum + x, 0)] *)
Definition sum (l : list num) : num := fold_left add l zero.

(** The values of a stored summary, its identifier, owner and timestamp
    apart. *)
Definition summaryValues (s : MonthlySummary.t numstr) : Z * Z * numstr * numstr * numstr :=
  (MonthlySummary.year s, MonthlySummary.month s, MonthlySummary.totalIncome s,
   MonthlySummary.totalExpenses s, MonthlySummary.netBalance s).

(** The values of a stored breakdown, its identifier apart. *)
Definition breakdownValues (b : CategoryBreakdown.t numstr) : Z * string * numstr * numstr :=
  (CategoryBreakdown.summaryId b, CategoryBreakdown.category b,
   CategoryBreakdown.amount b, CategoryBreakdown.percentage b).

(** What the aggregation of [transactions] stores for the month. *)
Definition aggregateSummary (year month : Z) (transactions : list (Transaction.t numstr))
  : Z * Z * numstr * numstr * numstr :=
  (year, month,
   numToString (totalIncomeOf transactions),
   numToString (totalExpensesOf transactions),
   numToString (sub (totalIncomeOf transactions) (totalExpensesOf transactions))).

Definition aggregateBreakdowns (summaryId : Z) (transactions : list (Transaction.t numstr))
  : list (Z * string * numstr * numstr) :=
  map (fun b => (summaryId, InsertCategoryBreakdown.category b,
                 numToString (InsertCategoryBreakdown.amount b),
                 numToString (InsertCategoryBreakdown.percentage b)))
      (breakdownsOf transactions).

(** The transaction's date lies in the month: from its first to its last
    day. *)
Definition inMonth (year month : Z) (t : Transaction.t numstr) : bool :=
  (JsDate.year (Transaction.date t) =? year)
  && (JsDate.month (Transaction.date t) =? month).

(** The month's transaction set: the stored transactions of the user
    whose date lies in the month, in the order of the store. *)
Definition monthTransactions (st : MemStorage.t numstr) (userId year month : Z)
  : list (Transaction.t numstr) :=
  filter (fun t => (Transaction.userId t =? userId) && inMonth year month t)
         (JsMap.values (MemStorage.transactions st)).

(** The stored summary and breakdowns of (user, year, month) are the
    aggregation of the month's transaction set. *)
Definition month_current (st : MemStorage.t numstr) (userId year month : Z) : Prop :=
  let transactions := monthTransactions st userId year month in
  exists s,
    MemStorage.getMonthlySummaryByMonth st userId year month = Some s
    /\ summaryValues s = aggregateSummary year month transactions
    /\ map breakdownValues (MemStorage.getCategoryBreakdowns st (MonthlySummary.id s))
       = aggregateBreakdowns (MonthlySummary.id s) transactions.

(** The total expenses: the sum of the absolute amounts of the
    transactions of type expense. *)
Definition expenseTotal (transactions : list (Transaction.t numstr)) : num :=
  sum (map (fun t => abs (toNumber (Transaction.amount t)))
           (filter (fun t => String.eqb (Transaction.type t) "expense") transactions)).

(** The total expense of a category: the sum of the absolute amounts of
    the transactions of type expense and of that category. *)
Definition categoryTotal (category : string) (transactions : list (Transaction.t numstr))
  : num :=
  sum (map (fun t => abs (toNumber (Transaction.amount t)))
           (filter (fun t => String.eqb (Transaction.type t) "expense"
                             && String.eqb (Transaction.category t) category)
                   transactions)).

(** The records [updateCategoryBreakdowns] creates from [breakdowns],
    numbered from the counter value [id]. *)
Fixpoint numbered (id summaryId : Z) (breakdowns : list (InsertCategoryBreakdown.t num))
  : list (CategoryBreakdown.t numstr) :=
  match breakdowns with
  | [] => []
  | b :: rest =>
      {| CategoryBreakdown.id := id;
         CategoryBreakdown.summaryId := summaryId;
         CategoryBreakdown.category := InsertCategoryBreakdown.category b;
         CategoryBreakdown.amount := numToString (InsertCategoryBreakdown.amount b);
         CategoryBreakdown.percentage := numToString (InsertCategoryBreakdown.percentage b) |}
      :: numbered (id + 1) summaryId rest
  end.

(** A stored summary, its timestamp apart. *)
Definition summaryCore (s : MonthlySummary.t numstr)
  : Z * Z * (Z * Z * numstr * numstr * numstr) :=
  (MonthlySummary.id s, MonthlySummary.userId s, summaryValues s).

End Vocabulary.

(** ** The central invariant: its reading to the letter, and the runs on
    which it holds *)

Section Invariant.
Context {num numstr : Type} `{JsNum num numstr}.
Variable tz : TimeZone.
Variable pdfParse : string -> option string.




(** Two dates of the same month of the same year. *)
Definition sameMonth (a b : DateOnly) : bool :=
  (JsDate.year a =? JsDate.year b) && (JsDate.month a =? JsDate.month b).

(** The request is a PUT answered with the transaction updated, whose date
    is of another month than the date stored before. [st] is the store
    before the request. *)
Definition moves_month (st : MemStorage.t numstr) (req : Request (num := num))
           (resp : Response (numstr := numstr)) : bool :=
  match req, body resp with
  | PUT_transactions (Some id) _, json_transaction (Some updated) =>
      match MemStorage.getTransactionById st id with
      | Some stored =>
          negb (sameMonth (Transaction.date stored) (Transaction.date updated))
      | None => false
      end
  | _, _ => false
  end.

(** A sequence of requests, served from the store [st], none of which is
    answered 500 and none of which moves a transaction to another month. *)
Fixpoint steady (st : MemStorage.t numstr) (reqs : list (Z * Request (num := num))) : bool :=
  match reqs with
  | [] => true
  | (now, req) :: rest =>
      let r := handle tz pdfParse now st req in
      negb (status (fst r) =? 500)
      && negb (moves_month st req (fst r))
      && steady (snd r) rest
  end.

End Invariant.

(** ** The two-decimal reading of [createTransaction]

    A decimal string of fixed precision two: an optional minus sign, one
    digit or more, a dot, two digits. *)
Definition twoDecimals (s : string) : bool :=
  let s' := match s with String "-"%char r => r | _ => s end in
  match JsString.amount_here s' with
  | Some matched => String.eqb matched s'
  | None => false
  end.

(** ** The calendar arithmetic, step by step *)

Module Calendar.
Import JsDate.

(** The steps of [days_from_civil] and [civil_from_days], named. Years of
    the era start on March 1st: [carry m] tells January and February, which
    belong to the era year before. *)
Definition carry (m : Z) : Z := if m <=? 2 then 1 else 0.

(** Days of the era before the era year [yoe]. *)
Definition year_start (yoe : Z) : Z := yoe * 365 + yoe / 4 - yoe / 100.

(** Length of the era year [yoe]: its February is that of year [yoe + 1]. *)
Definition year_length (yoe : Z) : Z := if is_leap (yoe + 1) then 366 else 365.

Definition yoe_of (doe : Z) : Z :=
  (doe - doe / 1460 + doe / 36524 - doe / 146096) / 365.

Definition doy_of (m d : Z) : Z :=
  let mp := if m >? 2 then m - 3 else m + 9 in
  (153 * mp + 2) / 5 + d - 1.

Definition md_of (doy : Z) : Z * Z :=
  let mp := (5 * doy + 2) / 153 in
  let d := doy - (153 * mp + 2) / 5 + 1 in
  let m := if mp <? 10 then mp + 3 else mp - 9 in
  (m, d).

(** [p] holds of the [fuel] integers from [z] on. *)
Fixpoint all_from (fuel : nat) (z : Z) (p : Z -> bool) : bool :=
  match fuel with
  | O => true
  | S f => p z && all_from f (z + 1) p
  end.

(** One line of the table of era years. *)
Definition year_ok (yoe : Z) : bool :=
  (0 <=? year_start yoe)
  && (year_start yoe + year_length yoe
      =? (if yoe =? 399 then 146097 else year_start (yoe + 1)))
  && (year_start yoe + year_length yoe <=? 146097)
  && (yoe_of (year_start yoe) =? yoe)
  && (yoe_of (year_start yoe + year_length yoe - 1) =? yoe).

(** One line of the table of days of the era year. *)
Definition doy_ok (doy : Z) : bool :=
  let '(m, d) := md_of doy in
  (1 <=? m) && (m <=? 12) && (1 <=? d) && (doy_of m d =? doy)
  && (if doy =? 365 then (m =? 2) && (d =? 29) else d <=? days_in_month 1 m).

(** One line of the table of dates: 31 day slots for each of 12 months. *)
Definition slot_ok (i : Z) : bool :=
  let m := i / 31 + 1 in
  let d := i mod 31 + 1 in
  negb (d <=? (if m =? 2 then 29 else days_in_month 1 m))
  || ((0 <=? doy_of m d)
      && (let '(m', d') := md_of (doy_of m d) in (m' =? m) && (d' =? d))
      && ((doy_of m d <=? 364) || ((m =? 2) && (d =? 29) && (doy_of m d =? 365)))).


End Calendar.

(** A zone whose local time is never behind UTC, and less than a day
    ahead: UTC and the zones east of Greenwich. *)
Definition not_behind_utc (tz : TimeZone) : Prop :=
  forall t, 0 <= JsDate.localTZA tz t < JsDate.msPerDay.

(** Every stored transaction is dated with a calendar date. *)
Definition dates_valid {numstr : Type} (st : MemStorage.t numstr) : Prop :=
  forall t, In t (JsMap.values (MemStorage.transactions st)) ->
            JsDate.valid (Transaction.date t).

(** ** Further vocabulary: what the store keeps *)

Section StoreVocabulary.
Context {numstr : Type}.

(** The users table: each user sits under its own identifier, below the
    counter. *)
Definition users_ok (st : MemStorage.t numstr) : bool :=
  StoreInv.table_ok User.id (MemStorage.userId st) (MemStorage.users st).

(** The month a summary is about. *)
Definition summaryKey (s : MonthlySummary.t numstr) : Z * Z * Z :=
  (MonthlySummary.userId s, MonthlySummary.year s, MonthlySummary.month s).

(** No two stored summaries are about the same month of the same user. *)
Definition summaries_unique (st : MemStorage.t numstr) : Prop :=
  NoDup (map summaryKey (JsMap.values (MemStorage.monthlySummaries st))).

(** Every stored breakdown belongs to a stored summary. *)
Definition breakdowns_owned (st : MemStorage.t numstr) : Prop :=
  forall b, In b (JsMap.values (MemStorage.categoryBreakdowns st)) ->
            exists s, In s (JsMap.values (MemStorage.monthlySummaries st))
                      /\ MonthlySummary.id s = CategoryBreakdown.summaryId b.

(** Every stored transaction has a category of the enumeration and the
    type income or expense. *)
Definition schema_valid (st : MemStorage.t numstr) : Prop :=
  forall t, In t (JsMap.values (MemStorage.transactions st)) ->
            In (Transaction.category t) categories
            /\ (Transaction.type t = "income"%string \/ Transaction.type t = "expense"%string).

(** Every stored transaction and summary is owned by the demo user. *)
Definition single_user (st : MemStorage.t numstr) : Prop :=
  (forall t, In t (JsMap.values (MemStorage.transactions st)) -> Transaction.userId t = 1)
  /\ (forall s, In s (JsMap.values (MemStorage.monthlySummaries st)) ->
                MonthlySummary.userId s = 1).

(** Every stored summary is about a month of the calendar, 1 to 12. *)
Definition months_in_range (st : MemStorage.t numstr) : Prop :=
  forall s, In s (JsMap.values (MemStorage.monthlySummaries st)) ->
            1 <= MonthlySummary.month s <= 12.

(** Against an earlier store [st0]: the transaction counter has not gone
    back, and an identifier below the earlier counter that was absent then
    is absent still. *)
Definition no_reuse (st0 st : MemStorage.t numstr) : Prop :=
  MemStorage.transactionId st0 <= MemStorage.transactionId st
  /\ forall id, id < MemStorage.transactionId st0 ->
                MemStorage.getTransactionById st0 id = None ->
                MemStorage.getTransactionById st id = None.

End StoreVocabulary.

(** ** Further vocabulary: the importer and the export *)

(** A line mentions a word when some stretch of the line is the word, the
    case of the letters A to Z apart. *)
Definition lower_case (c : ascii) : ascii :=
  let n := nat_of_ascii c in
  if ((65 <=? n) && (n <=? 90))%nat then ascii_of_nat (n + 32) else c.

Fixpoint lower (s : string) : string :=
  match s with
  | EmptyString => EmptyString
  | String c r => String (lower_case c) (lower r)
  end.

Definition mentions (word line : string) : Prop :=
  exists pre w post, line = (pre ++ w ++ post)%string /\ lower w = lower word.

Definition mentions_any (words : list string) (line : string) : Prop :=
  exists word, In word words /\ mentions word line.

(** The words that make a line an income. *)
Definition incomeWords : list string :=
  ["deposit"; "salary"; "income"; "transfer in"]%string.

(** The words of the categories, in the order in which they are tried. *)
Definition categoryWords : list (list string * string) :=
  [ (["rent"; "mortgage"; "home"], "Housing");
    (["car"; "gas"; "uber"; "lyft"; "transit"], "Transportation");
    (["grocery"; "restaurant"; "food"], "Food");
    (["electric"; "water"; "phone"; "internet"], "Utilities");
    (["salary"; "deposit"; "income"], "Income") ]%string.

(** The category of a line: that of the first group of which the line
    mentions a word, Other when it mentions none. *)
Inductive categoryOf (line : string) : list (list string * string) -> string -> Prop :=
| categoryOf_other : categoryOf line [] "Other"
| categoryOf_first words category groups :
    mentions_any words line ->
    categoryOf line ((words, category) :: groups) category
| categoryOf_later words category groups category' :
    ~ mentions_any words line ->
    categoryOf line groups category' ->
    categoryOf line ((words, category) :: groups) category'.

Section ImporterVocabulary.
Context {num numstr : Type} `{JsNum num numstr}.

(** What [extractTransactions] makes of one line: the amount is the first
    text of the line that matches the pattern, read as a number; a line
    that mentions an income word gives an income of that amount, any other
    line an expense of the negated amount. *)
Definition ofLine (now : Z) (line : string) (x : InsertTransaction.t num) : Prop :=
  exists g,
    JsString.match_amount line = Some g
    /\ InsertTransaction.date x = now
    /\ InsertTransaction.description x = String.substring 0 100 (JsString.trim line)
    /\ InsertTransaction.pdfSource x = None
    /\ categoryOf line categoryWords (InsertTransaction.category x)
    /\ (mentions_any incomeWords line ->
        InsertTransaction.type x = "income"%string
        /\ InsertTransaction.amount x = parseFloat g)
    /\ (~ mentions_any incomeWords line ->
        InsertTransaction.type x = "expense"%string
        /\ InsertTransaction.amount x = neg (parseFloat g)).

(** What the store makes of an extracted transaction. *)
Definition savedFrom (x : InsertTransaction.t num) (t : Transaction.t numstr) : Prop :=
  Transaction.userId t = 1
  /\ Transaction.date t = JsDate.toISODate (InsertTransaction.date x)
  /\ Transaction.description t = InsertTransaction.description x
  /\ Transaction.category t = InsertTransaction.category x
  /\ Transaction.amount t = numToString (InsertTransaction.amount x)
  /\ Transaction.type t = InsertTransaction.type x
  /\ Transaction.pdfSource t = Some "Uploaded PDF"%string.

End ImporterVocabulary.

(** A string with a character that is not white space. *)
Fixpoint has_text (s : string) : bool :=
  match s with
  | EmptyString => false
  | String c r => negb (JsString.is_space c) || has_text r
  end.

(** The date and the row the export writes for a transaction whose stored
    date is read as it is written: month/day/year. *)
Definition plainDate (d : DateOnly) : string :=
  (NumberSyntax.string_of_Z (JsDate.month d) ++ "/"
   ++ NumberSyntax.string_of_Z (JsDate.day d) ++ "/"
   ++ NumberSyntax.string_of_Z (JsDate.year d))%string.

Definition plainRow (t : Transaction.t string) : string :=
  String.concat ","%string
    [plainDate (Transaction.date t);
     Csv.descriptionField (Transaction.description t);
     Transaction.category t;
     Csv.amountField (Transaction.amount t);
     Transaction.type t].

(** A string of decimal digits. *)
Fixpoint all_digits (s : string) : bool :=
  match s with
  | EmptyString => true
  | String c r => JsString.is_digit c && all_digits r
  end.

(** The reading of a quoted field of a CSV row (RFC 4180): after the
    opening quote, two quotes in a row are one quote of the text and a
    single quote closes the field; the result is the text and what follows
    the field. *)
Fixpoint read_quoted_text (s : string) : option (string * string) :=
  match s with
  | EmptyString => None
  | String c r =>
      if Ascii.eqb c Csv.dquote then
        match r with
        | String c' r' =>
            if Ascii.eqb c' Csv.dquote
            then option_map (fun x => (String Csv.dquote (fst x), snd x)) (read_quoted_text r')
            else Some (EmptyString, r)
        | EmptyString => Some (EmptyString, EmptyString)
        end
      else option_map (fun x => (String c (fst x), snd x)) (read_quoted_text r)
  end.

Definition read_quoted (s : string) : option (string * string) :=
  match s with
  | String c r => if Ascii.eqb c Csv.dquote then read_quoted_text r else None
  | EmptyString => None
  end.

(** ** A worked scenario on the binary64 instance *)

Module Scenario.

Definition midnight (y m d : Z) : Z := JsDate.days_from_civil y m d * JsDate.msPerDay.

Definition entry (y m d : Z) (amount : float) (type category : string)
  : InsertTransaction.t float :=
  {| InsertTransaction.date := midnight y m d;
     InsertTransaction.description := "entry"%string;
     InsertTransaction.category := category;
     InsertTransaction.amount := amount;
     InsertTransaction.type := type;
     InsertTransaction.pdfSource := None |}.

(** A text document is its own extracted text. *)
Definition plainText (content : string) : option string := Some content.

Definition fresh : MemStorage.t string := MemStorage.new.

(** The two transactions of the specification's scenario, posted in turn. *)
Definition salary := entry 2024 3 5 1000 "income" "Income".
Definition groceries := entry 2024 3 10 (-200) "expense" "Food".

Definition march : MemStorage.t string :=
  run JsDate.UTC plainText fresh
      [(1000, POST_transactions (Some salary)); (2000, POST_transactions (Some groceries))].

(** The salary is posted, then deleted. *)
Definition posted_then_deleted : list (Z * Request (num := float)) :=
  [(1000, POST_transactions (Some salary)); (2000, DELETE_transactions (Some 1))].

(** Both transactions are posted, then the groceries are moved to April. *)
Definition moveToApril : PartialInsertTransaction.t float :=
  {| PartialInsertTransaction.date := Some (midnight 2024 4 10);
     PartialInsertTransaction.description := None;
     PartialInsertTransaction.category := None;
     PartialInsertTransaction.amount := None;
     PartialInsertTransaction.type := None;
     PartialInsertTransaction.pdfSource := None |}.

Definition posted_then_moved : list (Z * Request (num := float)) :=
  [(1000, POST_transactions (Some salary)); (2000, POST_transactions (Some groceries));
   (3000, PUT_transactions (Some 2) (Some moveToApril))].

(** Three expenses of 0.10, 0.10 and 0.60 in March 2024. *)
Definition expense (amount category : string) : InsertTransaction.t float :=
  entry 2024 3 15 (Float64.parse_float amount) "expense" category.

Definition cents : MemStorage.t string :=
  run JsDate.UTC plainText fresh
      [(1000, POST_transactions (Some (expense "0.1" "Food")));
       (2000, POST_transactions (Some (expense "0.1" "Housing")));
       (3000, POST_transactions (Some (expense "0.6" "Food")))].

(** Three expenses in March 2024, the first two of 1e308. *)
Definition overflow : MemStorage.t string :=
  run JsDate.UTC plainText fresh
      [(1000, POST_transactions (Some (expense "1e308" "Food")));
       (2000, POST_transactions (Some (expense "1e308" "Food")));
       (3000, POST_transactions (Some (expense "5" "Housing")))].


(** A process five hours west of Greenwich, and a store with one expense
    dated 2024-04-01. *)
Definition west : TimeZone := JsDate.fixedOffset (-300).

Definition aprilFirst : MemStorage.t string :=
  run west plainText fresh
      [(1000, POST_transactions (Some (entry 2024 4 1 (-50) "expense" "Food")))].

(** A row of the relational store dated 1950-03-10. *)
Definition row1950 : Transaction.t string :=
  {| Transaction.id := 1;
     Transaction.userId := 1;
     Transaction.date := {| JsDate.year := 1950; JsDate.month := 3; JsDate.day := 10 |};
     Transaction.description := "entry"%string;
     Transaction.category := "Food"%string;
     Transaction.amount := "-50.00"%string;
     Transaction.type := "expense"%string;
     Transaction.pdfSource := None;
     Transaction.createdAt := 0 |}.

(** A process two hours east of Greenwich, and the row of the relational
    store dated [y]-[m]-[d]. *)
Definition east : TimeZone := JsDate.fixedOffset 120.

Definition rowDated (y m d : Z) : Transaction.t string :=
  {| Transaction.id := 1;
     Transaction.userId := 1;
     Transaction.date := {| JsDate.year := y; JsDate.month := m; JsDate.day := d |};
     Transaction.description := "entry"%string;
     Transaction.category := "Food"%string;
     Transaction.amount := "-50.00"%string;
     Transaction.type := "expense"%string;
     Transaction.pdfSource := None;
     Transaction.createdAt := 0 |}.

End Scenario.

(* ================================================================== *)
(** * Properties                                                        *)
(* ================================================================== *)

(** ** Facts about [JsMap] *)

Lemma filter_none (A : Type) (p : A -> bool) (l : list A) :
  (forall x, In x l -> p x = false) -> filter p l = [].
Proof.
  induction l as [|a l IH]; simpl; intros Hall; [reflexivity|].
  rewrite (Hall a) by now left. apply IH. intros x Hin. apply Hall. now right.
Qed.

Lemma filter_all (A : Type) (p : A -> bool) (l : list A) :
  (forall x, In x l -> p x = true) -> filter p l = l.
Proof.
  induction l as [|a l IH]; simpl; intros Hall; [reflexivity|].
  rewrite (Hall a) by now left. f_equal. apply IH. intros x Hin. apply Hall. now right.
Qed.

Module JsMapFacts.
Section Facts.
Variables K V : Type.
Variable keqb : K -> K -> bool.
Hypothesis keqb_eq : forall a b, keqb a b = true <-> a = b.

Local Abbreviation get := (JsMap.get keqb).
Local Abbreviation set := (JsMap.set keqb).
Local Abbreviation delete := (JsMap.delete keqb).

Lemma keqb_refl k : keqb k k = true.
Proof. now apply keqb_eq. Qed.

Lemma keqb_neq a b : a <> b -> keqb a b = false.
Proof.
  intros Hn. destruct (keqb a b) eqn:E; [|reflexivity].
  apply keqb_eq in E. contradiction.
Qed.

Lemma get_set_same k v (m : JsMap.t K V) : get k (set k v m) = Some v.
Proof.
  induction m as [|[k' v'] r IH]; simpl.
  - now rewrite keqb_refl.
  - destruct (keqb k k') eqn:E; simpl; rewrite ?keqb_refl, ?E; auto.
Qed.

Lemma get_set_other k k' v (m : JsMap.t K V) :
  k <> k' -> get k' (set k v m) = get k' m.
Proof.
  intros Hn. induction m as [|[k0 v0] r IH]; simpl.
  - rewrite keqb_neq; auto.
  - destruct (keqb k k0) eqn:E; simpl.
    + apply keqb_eq in E. subst k0. rewrite keqb_neq; auto.
    + now rewrite IH.
Qed.

Lemma get_None_not_in k (m : JsMap.t K V) :
  get k m = None <-> ~ In k (JsMap.keys m).
Proof.
  induction m as [|[k' v'] r IH]; simpl.
  - tauto.
  - destruct (keqb k k') eqn:E.
    + apply keqb_eq in E. subst. split; [discriminate|]. intros Hn. exfalso. auto.
    + rewrite IH. split.
      * intros Hn [Heq|Hin]; [|auto]. subst. rewrite keqb_refl in E. discriminate.
      * tauto.
Qed.

Lemma get_Some_in k v (m : JsMap.t K V) : get k m = Some v -> In (k, v) m.
Proof.
  induction m as [|[k' v'] r IH]; simpl; [discriminate|].
  destruct (keqb k k') eqn:E.
  - apply keqb_eq in E. subst. intros [= ->]. now left.
  - auto.
Qed.

Lemma in_get_nodup k v (m : JsMap.t K V) :
  NoDup (JsMap.keys m) -> In (k, v) m -> get k m = Some v.
Proof.
  induction m as [|[k' v'] r IH]; simpl; [tauto|].
  intros Hnd [Heq|Hin].
  - inversion Heq; subst. now rewrite keqb_refl.
  - inversion Hnd as [|? ? Hni Hnd']; subst.
    destruct (keqb k k') eqn:E; [|auto].
    apply keqb_eq in E. subst. exfalso. apply Hni.
    change k' with (fst (k', v)). now apply in_map.
Qed.

(** A new key is appended. *)
Lemma set_new k v (m : JsMap.t K V) :
  ~ In k (JsMap.keys m) -> set k v m = m ++ [(k, v)].
Proof.
  induction m as [|[k' v'] r IH]; simpl; [reflexivity|].
  intros Hn. rewrite keqb_neq by (intros ->; auto).
  rewrite IH; auto.
Qed.

(** An existing key keeps the key list. *)
Lemma keys_set_old k v (m : JsMap.t K V) :
  In k (JsMap.keys m) -> JsMap.keys (set k v m) = JsMap.keys m.
Proof.
  induction m as [|[k' v'] r IH]; simpl; [tauto|].
  intros Hin. destruct (keqb k k') eqn:E; simpl.
  - apply keqb_eq in E. now subst.
  - f_equal. apply IH. destruct Hin as [->|]; [|assumption].
    rewrite keqb_refl in E. discriminate.
Qed.

Lemma in_set k v k' v' (m : JsMap.t K V) :
  In (k', v') (set k v m) -> (k' = k /\ v' = v) \/ (k' <> k /\ In (k', v') m)
                            \/ (k' = k /\ In (k', v') m).
Proof.
  induction m as [|[k0 v0] r IH]; simpl.
  - intros [[= <- <-]|[]]. now left.
  - destruct (keqb k k0) eqn:E; simpl.
    + apply keqb_eq in E. subst k0. intros [[= <- <-]|Hin]; [now left|].
      destruct (keqb k' k) eqn:E'.
      * apply keqb_eq in E'. subst. right. right. auto.
      * right. left. split; [|auto]. intros ->. rewrite keqb_refl in E'. discriminate.
    + intros [[= <- <-]|Hin].
      * right. left. split; [|auto]. intros ->. rewrite keqb_refl in E. discriminate.
      * destruct (IH Hin) as [?|[[? ?]|[? ?]]]; auto.
Qed.

Lemma in_keys_set k v k' (m : JsMap.t K V) :
  In k' (JsMap.keys (set k v m)) <-> k' = k \/ In k' (JsMap.keys m).
Proof.
  induction m as [|[k0 v0] r IH]; simpl.
  - intuition.
  - destruct (keqb k k0) eqn:E; simpl.
    + apply keqb_eq in E. subst. intuition.
    + rewrite IH. intuition.
Qed.

Lemma nodup_set k v (m : JsMap.t K V) :
  NoDup (JsMap.keys m) -> NoDup (JsMap.keys (set k v m)).
Proof.
  induction m as [|[k0 v0] r IH]; simpl; intros Hnd.
  - constructor; [simpl; tauto|constructor].
  - inversion Hnd as [|? ? Hni Hnd']; subst.
    destruct (keqb k k0) eqn:E; simpl.
    + apply keqb_eq in E. subst. now constructor.
    + constructor; [|auto]. rewrite in_keys_set. intros [->|?]; [|auto].
      rewrite keqb_refl in E. discriminate.
Qed.

Lemma filter_absent k (m : JsMap.t K V) :
  ~ In k (JsMap.keys m) -> filter (fun e => negb (keqb k (fst e))) m = m.
Proof.
  induction m as [|[k1 v1] r IH]; simpl; [reflexivity|].
  intros Hni. rewrite keqb_neq by (intros ->; auto). simpl.
  f_equal. apply IH. tauto.
Qed.

(** With distinct keys, [delete] is a filter. *)
Lemma delete_filter k (m : JsMap.t K V) :
  NoDup (JsMap.keys m) ->
  delete k m = filter (fun e => negb (keqb k (fst e))) m.
Proof.
  induction m as [|[k0 v0] r IH]; simpl; [reflexivity|].
  intros Hnd. inversion Hnd as [|? ? Hni Hnd']; subst.
  destruct (keqb k k0) eqn:E; simpl.
  - apply keqb_eq in E. subst k0. now rewrite filter_absent.
  - now rewrite IH.
Qed.

Lemma nodup_filter (p : K * V -> bool) (m : JsMap.t K V) :
  NoDup (JsMap.keys m) -> NoDup (JsMap.keys (filter p m)).
Proof.
  induction m as [|e r IH]; simpl; intros Hnd; [constructor|].
  inversion Hnd as [|? ? Hni Hnd']; subst.
  destruct (p e); simpl; [|auto].
  constructor; [|auto]. intros Hin. apply Hni.
  unfold JsMap.keys in *. apply in_map_iff in Hin as [x [Hx Hin]].
  apply filter_In in Hin as [Hin _]. rewrite <- Hx. now apply in_map.
Qed.

Lemma get_delete_same k (m : JsMap.t K V) :
  NoDup (JsMap.keys m) -> get k (delete k m) = None.
Proof.
  intros Hnd. rewrite delete_filter by assumption.
  apply get_None_not_in. unfold JsMap.keys. rewrite in_map_iff.
  intros [[k' v'] [Hk Hin]]. simpl in Hk. subst k'.
  apply filter_In in Hin as [_ Hf]. simpl in Hf. now rewrite keqb_refl in Hf.
Qed.
End Facts.
End JsMapFacts.

(** ** Facts about the calendar arithmetic *)

Module CalendarFacts.
Import JsDate Calendar.

Lemma all_from_spec (p : Z -> bool) (fuel : nat) :
  forall z, all_from fuel z p = true ->
            forall k, z <= k < z + Z.of_nat fuel -> p k = true.
Proof.
  induction fuel as [|f IH]; intros z Hall k Hk; [lia|].
  cbn [all_from] in Hall. apply andb_true_iff in Hall as [Hz Hrest].
  destruct (Z.eq_dec k z) as [->|Hne]; [exact Hz|].
  apply (IH (z + 1) Hrest k). lia.
Qed.

Lemma civil_from_days_steps (z : Z) :
  civil_from_days z
  = let era := (z + 719468) / 146097 in
    let doe := (z + 719468) mod 146097 in
    let yoe := yoe_of doe in
    let '(m, d) := md_of (doe - year_start yoe) in
    {| year := yoe + era * 400 + carry m; month := m; day := d |}.
Proof.
  unfold civil_from_days, md_of, yoe_of, year_start, carry. cbv zeta.
  replace (z + 719468 - (z + 719468) / 146097 * 146097) with ((z + 719468) mod 146097)
    by (pose proof (Z.div_mod (z + 719468) 146097); lia).
  set (doe := (z + 719468) mod 146097).
  set (yoe := (doe - doe / 1460 + doe / 36524 - doe / 146096) / 365).
  replace (365 * yoe + yoe / 4 - yoe / 100) with (yoe * 365 + yoe / 4 - yoe / 100) by lia.
  destruct (_ <=? 2); f_equal; lia.
Qed.

Lemma days_from_civil_steps (y m d : Z) :
  days_from_civil y m d
  = (y - carry m) / 400 * 146097
    + (year_start ((y - carry m) mod 400) + doy_of m d) - 719468.
Proof.
  unfold days_from_civil, doy_of, year_start, carry. cbv zeta.
  replace (if m <=? 2 then y - 1 else y) with (y - (if m <=? 2 then 1 else 0))
    by (destruct (m <=? 2); lia).
  set (y' := y - (if m <=? 2 then 1 else 0)).
  replace (y' - y' / 400 * 400) with (y' mod 400) by (pose proof (Z.div_mod y' 400); lia).
  lia.
Qed.

(** The day numbers of some dates, as the calendar has them. *)
Lemma known_days :
  days_from_civil 1970 1 1 = 0
  /\ days_from_civil 2024 3 31 = 19813
  /\ days_from_civil 2000 2 29 = 11016
  /\ days_from_civil 1950 3 10 = -7237
  /\ days_from_civil 1600 1 1 = -135140
  /\ civil_from_days (-1) = {| year := 1969; month := 12; day := 31 |}.
Proof. repeat split; vm_compute; reflexivity. Qed.

(** *** The three tables, by computation *)

Lemma year_table : all_from (Z.to_nat 400) 0 year_ok = true.
Proof. vm_compute. reflexivity. Qed.

Lemma doy_table : all_from (Z.to_nat 366) 0 doy_ok = true.
Proof. vm_compute. reflexivity. Qed.

Lemma slot_table : all_from (Z.to_nat 372) 0 slot_ok = true.
Proof. vm_compute. reflexivity. Qed.

Lemma year_ok_all (yoe : Z) : 0 <= yoe <= 399 -> year_ok yoe = true.
Proof. intros H. apply (@all_from_spec year_ok _ 0 year_table). lia. Qed.

Lemma doy_ok_all (doy : Z) : 0 <= doy <= 365 -> doy_ok doy = true.
Proof. intros H. apply (@all_from_spec doy_ok _ 0 doy_table). lia. Qed.

Lemma slot_ok_all (i : Z) : 0 <= i < 372 -> slot_ok i = true.
Proof. intros H. apply (@all_from_spec slot_ok _ 0 slot_table). lia. Qed.

(** *** Era years *)

Lemma year_length_bounds (yoe : Z) : 365 <= year_length yoe <= 366.
Proof. unfold year_length. destruct (is_leap _); lia. Qed.

Lemma yoe_of_step (doe : Z) : 0 <= doe -> yoe_of doe <= yoe_of (doe + 1).
Proof.
  intros H. unfold yoe_of. apply Z.div_le_mono; [lia|].
  Z.div_mod_to_equations. lia.
Qed.

Lemma yoe_of_mono (a b : Z) : 0 <= a <= b -> yoe_of a <= yoe_of b.
Proof.
  intros [Ha Hab]. replace b with (a + Z.of_nat (Z.to_nat (b - a))) by lia.
  induction (Z.to_nat (b - a)) as [|n IH]; [rewrite Z.add_0_r; lia|].
  etransitivity; [exact IH|].
  replace (a + Z.of_nat (S n)) with (a + Z.of_nat n + 1) by lia.
  apply yoe_of_step. lia.
Qed.

Lemma year_facts (yoe : Z) :
  0 <= yoe <= 399 ->
  0 <= year_start yoe
  /\ year_start yoe + year_length yoe
     = (if yoe =? 399 then 146097 else year_start (yoe + 1))
  /\ year_start yoe + year_length yoe <= 146097
  /\ yoe_of (year_start yoe) = yoe
  /\ yoe_of (year_start yoe + year_length yoe - 1) = yoe.
Proof.
  intros H. pose proof (@year_ok_all yoe H) as Hok. unfold year_ok in Hok.
  apply andb_true_iff in Hok as [Hok H5]. apply andb_true_iff in Hok as [Hok H4].
  apply andb_true_iff in Hok as [Hok H3]. apply andb_true_iff in Hok as [H1 H2].
  apply Z.leb_le in H1, H3. apply Z.eqb_eq in H2, H4, H5. auto.
Qed.

(** The era year of a day of the era year [yoe] is [yoe]. *)
Lemma yoe_of_year_start (yoe doy : Z) :
  0 <= yoe <= 399 -> 0 <= doy < year_length yoe ->
  yoe_of (year_start yoe + doy) = yoe.
Proof.
  intros Hy Hd. destruct (@year_facts yoe Hy) as (H0 & _ & _ & Hlo & Hhi).
  pose proof (@yoe_of_mono (year_start yoe) (year_start yoe + doy) ltac:(lia)).
  pose proof (@yoe_of_mono (year_start yoe + doy) (year_start yoe + year_length yoe - 1)
                ltac:(lia)).
  lia.
Qed.

(** Every day of the era lies in one of its years. *)
Lemma era_years (n : nat) :
  (n <= 400)%nat ->
  forall doe, 0 <= doe ->
  doe < (if Z.of_nat n =? 400 then 146097 else year_start (Z.of_nat n)) ->
  exists yoe, 0 <= yoe <= 399 /\ 0 <= doe - year_start yoe < year_length yoe.
Proof.
  induction n as [|n IH]; intros Hn doe H0 Hlt.
  - simpl in Hlt. vm_compute in Hlt. destruct doe; try discriminate; lia.
  - assert (Hy : 0 <= Z.of_nat n <= 399) by lia.
    destruct (@year_facts (Z.of_nat n) Hy) as (_ & Hnext & _ & _ & _).
    replace (Z.of_nat (S n)) with (Z.of_nat n + 1) in Hlt by lia.
    assert (Hlt' : doe < year_start (Z.of_nat n) + year_length (Z.of_nat n)).
    { rewrite Hnext. destruct (Z.eqb_spec (Z.of_nat n) 399) as [E|E].
      - rewrite E in Hlt. exact Hlt.
      - destruct (Z.eqb_spec (Z.of_nat n + 1) 400); [lia|exact Hlt]. }
    destruct (Z_lt_le_dec doe (year_start (Z.of_nat n))) as [Hbefore|Hin].
    + apply IH; [lia|exact H0|].
      destruct (Z.eqb_spec (Z.of_nat n) 400); [lia|exact Hbefore].
    + exists (Z.of_nat n). lia.
Qed.

Lemma yoe_of_spec (doe : Z) :
  0 <= doe < 146097 ->
  0 <= yoe_of doe <= 399
  /\ 0 <= doe - year_start (yoe_of doe) < year_length (yoe_of doe).
Proof.
  intros [H0 H1].
  destruct (@era_years 400 ltac:(lia) doe H0 H1) as (yoe & Hy & Hd).
  assert (E : yoe_of doe = yoe).
  { rewrite <- (@yoe_of_year_start yoe (doe - year_start yoe) Hy Hd). f_equal. lia. }
  rewrite E. auto.
Qed.

(** *** Leap years *)

Lemma is_leap_era (y k : Z) : is_leap (y + k * 400) = is_leap y.
Proof.
  unfold is_leap.
  replace ((y + k * 400) mod 4) with (y mod 4)
    by (replace (y + k * 400) with (y + (k * 100) * 4) by lia; now rewrite Z_mod_plus_full).
  replace ((y + k * 400) mod 100) with (y mod 100)
    by (replace (y + k * 400) with (y + (k * 4) * 100) by lia; now rewrite Z_mod_plus_full).
  now rewrite Z_mod_plus_full.
Qed.

Lemma days_in_month_era (y k m : Z) : days_in_month (y + k * 400) m = days_in_month y m.
Proof. unfold days_in_month. now rewrite is_leap_era. Qed.

Lemma days_in_month_common (y m : Z) :
  days_in_month 1 m <= days_in_month y m <= (if m =? 2 then 29 else days_in_month 1 m).
Proof.
  unfold days_in_month. change (is_leap 1) with false.
  destruct (m =? 2); [destruct (is_leap y); lia|lia].
Qed.

Lemma february_29 (y : Z) : 29 <= days_in_month y 2 -> is_leap y = true.
Proof. unfold days_in_month. simpl. destruct (is_leap y); [reflexivity|lia]. Qed.

(** *** The two directions *)

(** A calendar date written as a day number reads back as itself. *)
Theorem civil_from_days_from_civil (s : DateOnly) :
  valid s -> civil_from_days (days_from_civil (year s) (month s) (day s)) = s.
Proof.
  destruct s as [y m d]. unfold valid. simpl. intros [Hm Hd].
  set (y' := y - carry m).
  pose proof (Z.div_mod y' 400 ltac:(lia)) as Hdm.
  pose proof (Z.mod_pos_bound y' 400 ltac:(lia)) as Hyoe.
  assert (Hy : 0 <= y' mod 400 <= 399) by lia.
  assert (Ey : y = y' mod 400 + carry m + y' / 400 * 400) by (unfold y' in *; lia).
  pose proof (days_in_month_common y m) as Hcommon.
  (* the date's slot in the table *)
  pose proof (@slot_ok_all ((m - 1) * 31 + (d - 1))) as Hslot.
  assert (H31 : days_in_month 1 m <= 31).
  { unfold days_in_month.
    repeat match goal with |- context [if ?b then _ else _] => destruct b end; lia. }
  assert (Hd31 : d <= 31) by (destruct (m =? 2); lia).
  assert (Em : ((m - 1) * 31 + (d - 1)) / 31 + 1 = m) by (Z.div_mod_to_equations; lia).
  assert (Ed : ((m - 1) * 31 + (d - 1)) mod 31 + 1 = d) by (Z.div_mod_to_equations; lia).
  unfold slot_ok in Hslot. cbv zeta in Hslot. rewrite Em, Ed in Hslot.
  specialize (Hslot ltac:(lia)).
  apply orb_true_iff in Hslot as [Hslot|Hslot];
    [apply negb_true_iff in Hslot; apply Z.leb_gt in Hslot; lia|].
  apply andb_true_iff in Hslot as [Hslot Hlast].
  apply andb_true_iff in Hslot as [Hdoy0 Hback]. apply Z.leb_le in Hdoy0.
  set (doy := doy_of m d) in *.
  (* the day lies in the era year *)
  assert (Hdoy : 0 <= doy < year_length (y' mod 400)).
  { pose proof (year_length_bounds (y' mod 400)).
    apply orb_true_iff in Hlast as [Hlast|Hlast]; [apply Z.leb_le in Hlast; lia|].
    apply andb_true_iff in Hlast as [Hlast E365].
    apply andb_true_iff in Hlast as [E2 E29].
    apply Z.eqb_eq in E2, E29, E365. subst m d.
    assert (Hleap : is_leap y = true) by (apply february_29; lia).
    rewrite Ey in Hleap. rewrite is_leap_era in Hleap. change (carry 2) with 1 in Hleap.
    unfold year_length. rewrite Hleap. lia. }
  destruct (@year_facts (y' mod 400) Hy) as (Hs0 & _ & Hs1 & _ & _).
  rewrite civil_from_days_steps, days_from_civil_steps. fold y'. fold doy. cbv zeta.
  replace (y' / 400 * 146097 + (year_start (y' mod 400) + doy) - 719468 + 719468)
    with (year_start (y' mod 400) + doy + y' / 400 * 146097) by lia.
  rewrite Z_mod_plus_full, Z_div_plus_full by lia.
  rewrite (Z.mod_small (year_start (y' mod 400) + doy) 146097),
          (Z.div_small (year_start (y' mod 400) + doy) 146097) by lia.
  rewrite (@yoe_of_year_start (y' mod 400) doy Hy Hdoy).
  replace (year_start (y' mod 400) + doy - year_start (y' mod 400)) with doy by lia.
  destruct (md_of doy) as [m' d'].
  apply andb_true_iff in Hback as [Hm' Hd']. apply Z.eqb_eq in Hm', Hd'. subst m' d'.
  f_equal. lia.
Qed.

(** A day number read as a date is a calendar date that writes back as the
    day number. *)
Theorem days_from_civil_from_days (z : Z) :
  valid (civil_from_days z)
  /\ days_from_civil (year (civil_from_days z)) (month (civil_from_days z))
                     (day (civil_from_days z)) = z.
Proof.
  rewrite civil_from_days_steps. cbv zeta.
  pose proof (Z.div_mod (z + 719468) 146097 ltac:(lia)) as Hdm.
  pose proof (Z.mod_pos_bound (z + 719468) 146097 ltac:(lia)) as Hdoe.
  set (era := (z + 719468) / 146097) in *. set (doe := (z + 719468) mod 146097) in *.
  destruct (@yoe_of_spec doe Hdoe) as [Hy Hdoy].
  set (yoe := yoe_of doe) in *. set (doy := doe - year_start yoe) in *.
  pose proof (year_length_bounds yoe) as Hlen.
  pose proof (@doy_ok_all doy ltac:(lia)) as Hok. unfold doy_ok in Hok.
  destruct (md_of doy) as [m d].
  apply andb_true_iff in Hok as [Hok Hlast]. apply andb_true_iff in Hok as [Hok Hback].
  apply andb_true_iff in Hok as [Hok Hd1]. apply andb_true_iff in Hok as [Hm1 Hm12].
  apply Z.leb_le in Hm1, Hm12, Hd1. apply Z.eqb_eq in Hback.
  unfold valid. simpl. split.
  - split; [lia|split; [exact Hd1|]].
    replace (yoe + era * 400 + carry m) with (yoe + carry m + era * 400) by lia.
    rewrite days_in_month_era.
    destruct (Z.eqb_spec doy 365) as [E|E].
    + apply andb_true_iff in Hlast as [E2 E29]. apply Z.eqb_eq in E2, E29. subst m d.
      change (carry 2) with 1. unfold year_length in Hdoy.
      unfold days_in_month. simpl. destruct (is_leap (yoe + 1)); lia.
    + apply Z.leb_le in Hlast. pose proof (days_in_month_common (yoe + carry m) m). lia.
  - rewrite days_from_civil_steps.
    replace (yoe + era * 400 + carry m - carry m) with (yoe + era * 400) by lia.
    rewrite Z_mod_plus_full, Z_div_plus_full by lia.
    rewrite (Z.mod_small yoe 400), (Z.div_small yoe 400) by lia.
    rewrite Hback. unfold doy. lia.
Qed.

(** *** Months *)







(** *** What the getters read of a stored date *)

Lemma Day_newDate (s : DateOnly) (off : Z) :
  0 <= off < msPerDay ->
  Day (newDate s + off) = days_from_civil (year s) (month s) (day s).
Proof.
  intros Hoff. unfold Day, newDate. unfold msPerDay in *.
  rewrite Z.add_comm, Z_div_plus_full by lia. rewrite Z.div_small by lia. lia.
Qed.

Lemma local_date (tz : TimeZone) (s : DateOnly) :
  not_behind_utc tz -> valid s ->
  civil_from_days (Day (LocalTime tz (newDate s))) = s.
Proof.
  intros Htz Hs. unfold LocalTime. rewrite Day_newDate by apply Htz.
  now apply civil_from_days_from_civil.
Qed.

Lemma toISODate_valid (t : Z) : valid (toISODate t).
Proof. apply days_from_civil_from_days. Qed.

Lemma newDate_toISODate (t : Z) : newDate (toISODate t) = Day t * msPerDay.
Proof. unfold newDate, toISODate. f_equal. apply days_from_civil_from_days. Qed.

End CalendarFacts.

(** ** The invariant is kept by the store's operations *)

Module StoreInvFacts.
Import StoreInv.

Lemma nodupb_spec (l : list Z) : nodupb l = true <-> NoDup l.
Proof.
  induction l as [|k r IH]; simpl.
  - split; [constructor|reflexivity].
  - rewrite andb_true_iff, negb_true_iff, IH. split.
    + intros [Hex Hnd]. constructor; [|assumption].
      intros Hin. assert (existsb (Z.eqb k) r = true) as Ht.
      { apply existsb_exists. exists k. split; [assumption|apply Z.eqb_refl]. }
      congruence.
    + intros Hnd. inversion Hnd as [|? ? Hni Hnd']; subst. split; [|assumption].
      destruct (existsb (Z.eqb k) r) eqn:E; [|reflexivity].
      apply existsb_exists in E as [x [Hin Hx]]. apply Z.eqb_eq in Hx. subst. contradiction.
Qed.

Section Table.
Variable V : Type.
Variable idf : V -> Z.

Definition Ok (next : Z) (m : JsMap.t Z V) : Prop :=
  (forall k v, In (k, v) m -> idf v = k /\ k < next) /\ NoDup (JsMap.keys m).

Lemma table_ok_spec next m : table_ok idf next m = true <-> Ok next m.
Proof.
  unfold table_ok, Ok. rewrite andb_true_iff, nodupb_spec, forallb_forall.
  split; intros [Ha Hb]; split; try assumption.
  - intros k v Hin. specialize (Ha _ Hin). simpl in Ha.
    apply andb_true_iff in Ha as [Ha1 Ha2]. split; lia.
  - intros [k v] Hin. simpl. destruct (Ha _ _ Hin) as [-> Hlt].
    apply andb_true_iff. split; lia.
Qed.

Lemma Ok_key_fresh next m k : Ok next m -> next <= k -> ~ In k (JsMap.keys m).
Proof.
  intros [Ha _] Hle Hin. unfold JsMap.keys in Hin.
  apply in_map_iff in Hin as [[k' v] [Hk Hin]]. simpl in Hk. subst k'.
  destruct (Ha _ _ Hin). lia.
Qed.

Lemma Ok_set_new next m v :
  Ok next m -> idf v = next -> Ok (next + 1) (JsMap.set Z.eqb next v m).
Proof.
  intros Hok Hid. pose proof (Ok_key_fresh Hok (Z.le_refl next)) as Hfresh.
  destruct Hok as [Ha Hnd]. split.
  - intros k v' Hin. rewrite (JsMapFacts.set_new Z.eqb Z.eqb_eq) in Hin by assumption.
    apply in_app_or in Hin as [Hin|[[= <- <-]|[]]].
    + destruct (Ha _ _ Hin). split; lia.
    + split; lia.
  - now apply (JsMapFacts.nodup_set Z.eqb Z.eqb_eq).
Qed.

Lemma Ok_set_old next m k v :
  Ok next m -> In k (JsMap.keys m) -> idf v = k -> Ok next (JsMap.set Z.eqb k v m).
Proof.
  intros [Ha Hnd] Hin Hid. split.
  - intros k' v' Hin'. apply (JsMapFacts.in_set Z.eqb Z.eqb_eq) in Hin'.
    destruct Hin' as [[-> ->]|[[_ Hin']|[_ Hin']]]; [|now apply Ha..].
    split; [assumption|].
    unfold JsMap.keys in Hin. apply in_map_iff in Hin as [[k0 v0] [Hk Hin0]].
    simpl in Hk. subst k0. now destruct (Ha _ _ Hin0).
  - now apply (JsMapFacts.nodup_set Z.eqb Z.eqb_eq).
Qed.

Lemma Ok_filter next m (p : Z * V -> bool) : Ok next m -> Ok next (filter p m).
Proof.
  intros [Ha Hnd]. split.
  - intros k v Hin. apply filter_In in Hin as [Hin _]. now apply Ha.
  - now apply JsMapFacts.nodup_filter.
Qed.

Lemma Ok_delete next m k : Ok next m -> Ok next (JsMap.delete Z.eqb k m).
Proof.
  intros Hok. rewrite (JsMapFacts.delete_filter Z.eqb Z.eqb_eq) by apply Hok.
  now apply Ok_filter.
Qed.

Lemma Ok_in_get next m k v : Ok next m -> In (k, v) m -> JsMap.get Z.eqb k m = Some v.
Proof. intros [_ Hnd] Hin. now apply (JsMapFacts.in_get_nodup Z.eqb Z.eqb_eq). Qed.

Lemma Ok_get_id next m k v : Ok next m -> JsMap.get Z.eqb k m = Some v -> idf v = k.
Proof.
  intros [Ha _] Hg. apply (JsMapFacts.get_Some_in Z.eqb Z.eqb_eq) in Hg. now destruct (Ha _ _ Hg).
Qed.

Lemma Ok_value_key next m v : Ok next m -> In v (JsMap.values m) -> In (idf v, v) m.
Proof.
  intros [Ha _] Hin. unfold JsMap.values in Hin.
  apply in_map_iff in Hin as [[k v'] [Hv Hin]]. simpl in Hv. subst v'.
  destruct (Ha _ _ Hin) as [-> _]. assumption.
Qed.

(** [find] after an update of the record it found, and after an insertion
    when it found nothing. *)
Lemma find_set_found next m (p : V -> bool) e v :
  Ok next m -> find p (JsMap.values m) = Some e -> p v = true ->
  find p (JsMap.values (JsMap.set Z.eqb (idf e) v m)) = Some v.
Proof.
  intros [Ha _]. induction m as [|[k0 v0] r IH]; simpl; [discriminate|].
  intros Hf Hp. destruct (p v0) eqn:Ep.
  - injection Hf as ->. destruct (Ha k0 e (or_introl eq_refl)) as [-> _].
    rewrite Z.eqb_refl. simpl. now rewrite Hp.
  - destruct (idf e =? k0) eqn:E; simpl.
    + now rewrite Hp.
    + rewrite Ep. apply IH; auto. intros k v' Hin. apply Ha. now right.
Qed.

Lemma find_set_none m (p : V -> bool) k v :
  find p (JsMap.values m) = None -> p v = true ->
  find p (JsMap.values (JsMap.set Z.eqb k v m)) = Some v.
Proof.
  induction m as [|[k0 v0] r IH]; simpl; intros Hf Hp.
  - now rewrite Hp.
  - destruct (p v0) eqn:Ep; [discriminate|].
    destruct (k =? k0); simpl; [now rewrite Hp|]. rewrite Ep. auto.
Qed.
End Table.

End StoreInvFacts.

(** ** The store's operations *)

Module MemStorageFacts.
Import StoreInv StoreInvFacts.

Section Facts.
Context {num numstr : Type} `{JsNum num numstr}.
Variable tz : TimeZone.

Local Abbreviation store := (MemStorage.t numstr).

Definition Wf (st : store) : Prop :=
  Ok (@Transaction.id numstr) (MemStorage.transactionId st) (MemStorage.transactions st)
  /\ Ok (@MonthlySummary.id numstr) (MemStorage.summaryId st) (MemStorage.monthlySummaries st)
  /\ Ok (@CategoryBreakdown.id numstr) (MemStorage.breakdownId st)
        (MemStorage.categoryBreakdowns st).

Lemma wf_spec (st : store) : wf st = true <-> Wf st.
Proof.
  unfold wf, Wf. rewrite !andb_true_iff, !table_ok_spec. tauto.
Qed.

Lemma Wf_new : Wf (MemStorage.new (numstr := numstr)).
Proof. apply wf_spec. reflexivity. Qed.

Lemma createTransaction_Wf now (st : store) userId ins :
  Wf st -> Wf (snd (MemStorage.createTransaction now st userId ins)).
Proof.
  intros (Ht & Hs & Hb). unfold MemStorage.createTransaction, Wf. simpl.
  split; [|split]; try assumption. now apply Ok_set_new.
Qed.

Lemma updateTransaction_Wf (st : store) id upd :
  Wf st -> Wf (snd (MemStorage.updateTransaction st id upd)).
Proof.
  intros (Ht & Hs & Hb). unfold MemStorage.updateTransaction.
  destruct (JsMap.get Z.eqb id (MemStorage.transactions st)) as [t|] eqn:E; simpl.
  - unfold Wf. simpl. split; [|split]; try assumption.
    apply Ok_set_old; try assumption.
    + apply (JsMapFacts.get_Some_in Z.eqb Z.eqb_eq) in E.
      change id with (fst (id, t)). now apply in_map.
    + simpl. eapply Ok_get_id; eassumption.
  - unfold Wf. now split; [|split].
Qed.

Lemma deleteTransaction_Wf (st : store) id :
  Wf st -> Wf (snd (MemStorage.deleteTransaction st id)).
Proof.
  intros (Ht & Hs & Hb). unfold MemStorage.deleteTransaction, Wf. simpl.
  split; [|split]; try assumption. now apply Ok_delete.
Qed.

(** *** [createOrUpdateMonthlySummary] *)

Lemma createOrUpdateMonthlySummary_spec now (st : store) userId data :
  Wf st ->
  let r := MemStorage.createOrUpdateMonthlySummary now st userId data in
  Wf (snd r)
  /\ MemStorage.transactions (snd r) = MemStorage.transactions st
  /\ MemStorage.transactionId (snd r) = MemStorage.transactionId st
  /\ MemStorage.categoryBreakdowns (snd r) = MemStorage.categoryBreakdowns st
  /\ MemStorage.breakdownId (snd r) = MemStorage.breakdownId st
  /\ MemStorage.getMonthlySummaryByMonth (snd r) userId
       (InsertMonthlySummary.year data) (InsertMonthlySummary.month data) = Some (fst r)
  /\ summaryValues (fst r)
     = (InsertMonthlySummary.year data, InsertMonthlySummary.month data,
        numToString (InsertMonthlySummary.totalIncome data),
        numToString (InsertMonthlySummary.totalExpenses data),
        numToString (InsertMonthlySummary.netBalance data))
  /\ MonthlySummary.lastUpdated (fst r) = now
  /\ MonthlySummary.userId (fst r) = userId
  /\ MonthlySummary.id (fst r)
     = match MemStorage.getMonthlySummaryByMonth st userId
               (InsertMonthlySummary.year data) (InsertMonthlySummary.month data) with
       | Some existing => MonthlySummary.id existing
       | None => MemStorage.summaryId st
       end.
Proof.
  intros (Ht & Hs & Hb). unfold MemStorage.createOrUpdateMonthlySummary.
  set (y := InsertMonthlySummary.year data). set (m := InsertMonthlySummary.month data).
  destruct (MemStorage.getMonthlySummaryByMonth st userId y m) as [e|] eqn:E; simpl.
  - unfold MemStorage.getMonthlySummaryByMonth in E |- *. simpl.
    pose proof (find_some _ _ E) as [Hin Hp].
    apply andb_true_iff in Hp as [Hp Hm]. apply andb_true_iff in Hp as [Hu Hy].
    split; [|repeat split].
    + unfold Wf. simpl. split; [|split]; try assumption.
      apply Ok_set_old; [assumption| |reflexivity].
      pose proof Hin as Hk. eapply Ok_value_key in Hk; [|exact Hs].
      change (MonthlySummary.id e) with (fst (MonthlySummary.id e, e)). now apply in_map.
    + eapply find_set_found; [exact Hs|exact E|]. simpl.
      rewrite Hu, !Z.eqb_refl. reflexivity.
    + now apply Z.eqb_eq.
  - unfold MemStorage.getMonthlySummaryByMonth in E |- *. simpl.
    split; [|repeat split].
    + unfold Wf. simpl. split; [|split]; try assumption. now apply Ok_set_new.
    + apply find_set_none; [exact E|]. simpl. now rewrite !Z.eqb_refl.
Qed.

(** *** [updateCategoryBreakdowns] *)

Local Abbreviation ofSummary sid :=
  (fun breakdown : CategoryBreakdown.t numstr => CategoryBreakdown.summaryId breakdown =? sid).

Lemma delete_all_filter (l : list (CategoryBreakdown.t numstr))
      (m : JsMap.t Z (CategoryBreakdown.t numstr)) :
  NoDup (JsMap.keys m) ->
  fold_left (fun m b => JsMap.delete Z.eqb (CategoryBreakdown.id b) m) l m
  = filter (fun e => negb (existsb (fun b => CategoryBreakdown.id b =? fst e) l)) m.
Proof.
  revert m. induction l as [|b l IH]; intros m Hnd; simpl.
  - symmetry. now apply filter_all.
  - rewrite IH by (rewrite (JsMapFacts.delete_filter Z.eqb Z.eqb_eq) by assumption;
                   now apply JsMapFacts.nodup_filter).
    rewrite (JsMapFacts.delete_filter Z.eqb Z.eqb_eq) by assumption.
    induction m as [|e r IHr]; simpl; [reflexivity|].
    inversion Hnd; subst.
    destruct (CategoryBreakdown.id b =? fst e); simpl; [now apply IHr|].
    destruct (existsb _ l); simpl; [now apply IHr|]. f_equal. now apply IHr.
Qed.

Lemma delete_stale next (m : JsMap.t Z (CategoryBreakdown.t numstr)) sid :
  Ok (@CategoryBreakdown.id numstr) next m ->
  fold_left (fun m b => JsMap.delete Z.eqb (CategoryBreakdown.id b) m)
            (filter (ofSummary sid) (JsMap.values m)) m
  = filter (fun e => negb (ofSummary sid (snd e))) m.
Proof.
  intros Hok. rewrite delete_all_filter by apply Hok.
  apply filter_ext_in. intros [k v] Hin. simpl. f_equal.
  pose proof Hok as [Ha Hnd]. destruct (Ha _ _ Hin) as [Hid _].
  destruct (CategoryBreakdown.summaryId v =? sid) eqn:Ev.
  - apply existsb_exists. exists v. split; [|lia].
    apply filter_In. split; [|assumption].
    change v with (snd (k, v)). now apply in_map.
  - destruct (existsb _ _) eqn:Ex; [|reflexivity].
    apply existsb_exists in Ex as [b [Hb Hk]]. apply filter_In in Hb as [Hb Hp].
    apply Z.eqb_eq in Hk.
    pose proof Hb as Hb'. eapply Ok_value_key in Hb'; [|exact Hok]. rewrite Hk in Hb'.
    pose proof (JsMapFacts.in_get_nodup Z.eqb Z.eqb_eq _ _ _ Hnd Hb') as G1.
    pose proof (JsMapFacts.in_get_nodup Z.eqb Z.eqb_eq _ _ _ Hnd Hin) as G2.
    assert (b = v) by congruence. subst. congruence.
Qed.

Lemma createAll_spec (bs : list (InsertCategoryBreakdown.t num)) :
  forall (st : store) sid,
    Ok (@CategoryBreakdown.id numstr) (MemStorage.breakdownId st)
       (MemStorage.categoryBreakdowns st) ->
    MemStorage.createAll st sid bs
    = (numbered (MemStorage.breakdownId st) sid bs,
       MemStorage.withBreakdowns st
         (MemStorage.categoryBreakdowns st
            ++ map (fun b => (CategoryBreakdown.id b, b))
                   (numbered (MemStorage.breakdownId st) sid bs))
         (MemStorage.breakdownId st + Z.of_nat (List.length bs))).
Proof.
  induction bs as [|b bs IH]; intros st sid Hok.
  - simpl. rewrite app_nil_r, Z.add_0_r. now destruct st.
  - cbn [MemStorage.createAll MemStorage.createCategoryBreakdown numbered map List.length].
    rewrite IH.
    + cbn [MemStorage.withBreakdowns MemStorage.categoryBreakdowns MemStorage.breakdownId
           MemStorage.users MemStorage.transactions MemStorage.monthlySummaries
           MemStorage.userId MemStorage.transactionId MemStorage.summaryId].
      rewrite (JsMapFacts.set_new Z.eqb Z.eqb_eq)
        by (eapply Ok_key_fresh; [exact Hok|lia]).
      rewrite <- app_assoc. unfold MemStorage.withBreakdowns. simpl.
      f_equal. f_equal. lia.
    + simpl. now apply Ok_set_new.
Qed.

Lemma numbered_ids id sid (bs : list (InsertCategoryBreakdown.t num)) b :
  In b (numbered id sid bs) ->
  id <= CategoryBreakdown.id b < id + Z.of_nat (List.length bs)
  /\ CategoryBreakdown.summaryId b = sid.
Proof.
  revert id. induction bs as [|x bs IH]; intros id; simpl; [tauto|].
  intros [<-|Hin]; simpl; [split; [lia|reflexivity]|].
  destruct (IH _ Hin). split; [lia|assumption].
Qed.

Lemma numbered_nodup id sid (bs : list (InsertCategoryBreakdown.t num)) :
  NoDup (map (@CategoryBreakdown.id numstr) (numbered id sid bs)).
Proof.
  revert id. induction bs as [|x bs IH]; intros id; simpl; constructor; [|apply IH].
  intros Hin. apply in_map_iff in Hin as [b [Hb Hin]].
  apply numbered_ids in Hin. lia.
Qed.

Lemma numbered_values id sid (bs : list (InsertCategoryBreakdown.t num)) :
  map breakdownValues (numbered id sid bs)
  = map (fun b => (sid, InsertCategoryBreakdown.category b,
                   numToString (InsertCategoryBreakdown.amount b),
                   numToString (InsertCategoryBreakdown.percentage b))) bs.
Proof.
  revert id. induction bs as [|x bs IH]; intros id; simpl; [reflexivity|].
  now rewrite IH.
Qed.

Lemma updateCategoryBreakdowns_spec (st : store) sid bs :
  Wf st ->
  let r := MemStorage.updateCategoryBreakdowns st sid bs in
  Wf (snd r)
  /\ MemStorage.transactions (snd r) = MemStorage.transactions st
  /\ MemStorage.transactionId (snd r) = MemStorage.transactionId st
  /\ MemStorage.monthlySummaries (snd r) = MemStorage.monthlySummaries st
  /\ MemStorage.summaryId (snd r) = MemStorage.summaryId st
  /\ fst r = numbered (MemStorage.breakdownId st) sid bs
  /\ MemStorage.getCategoryBreakdowns (snd r) sid = fst r
  /\ (forall sid', sid' <> sid ->
        MemStorage.getCategoryBreakdowns (snd r) sid'
        = MemStorage.getCategoryBreakdowns st sid').
Proof.
  intros (Ht & Hs & Hb). unfold MemStorage.updateCategoryBreakdowns.
  rewrite (delete_stale sid Hb).
  set (kept := filter (fun e => negb (ofSummary sid (snd e))) (MemStorage.categoryBreakdowns st)).
  assert (Hk : Ok (@CategoryBreakdown.id numstr) (MemStorage.breakdownId st) kept)
    by now apply Ok_filter.
  rewrite createAll_spec by exact Hk. simpl.
  set (new := numbered (MemStorage.breakdownId st) sid bs).
  split; [|repeat split].
  - unfold Wf. simpl. split; [|split]; try assumption. split.
    + intros k v Hin. apply in_app_or in Hin as [Hin|Hin].
      * destruct Hk as [Ha _]. destruct (Ha _ _ Hin). split; lia.
      * apply in_map_iff in Hin as [b [[= <- <-] Hin]].
        apply numbered_ids in Hin. split; [reflexivity|lia].
    + unfold JsMap.keys. rewrite map_app, map_map. simpl.
      apply NoDup_app; [apply Hk|apply numbered_nodup|].
      intros k Hin1 Hin2. apply in_map_iff in Hin2 as [b [<- Hin2]].
      apply numbered_ids in Hin2. revert Hin1. eapply Ok_key_fresh; [exact Hk|lia].
  - unfold MemStorage.getCategoryBreakdowns, JsMap.values. simpl.
    rewrite map_app, filter_app, map_map. simpl. rewrite map_id.
    replace (filter (ofSummary sid) (map snd kept)) with (@nil (CategoryBreakdown.t numstr)).
    + simpl. apply filter_all. intros b Hin.
      apply numbered_ids in Hin. lia.
    + symmetry. unfold kept. clear. induction (MemStorage.categoryBreakdowns st) as [|e r IH];
        simpl; [reflexivity|].
      destruct (CategoryBreakdown.summaryId (snd e) =? sid) eqn:E; simpl; [assumption|].
      now rewrite E.
  - intros sid' Hne. unfold MemStorage.getCategoryBreakdowns, JsMap.values. simpl.
    rewrite map_app, filter_app, map_map. simpl. rewrite map_id.
    replace (filter (ofSummary sid') new) with (@nil (CategoryBreakdown.t numstr)).
    + rewrite app_nil_r. unfold kept. clear - Hne.
      induction (MemStorage.categoryBreakdowns st) as [|e r IH]; simpl; [reflexivity|].
      destruct (CategoryBreakdown.summaryId (snd e) =? sid) eqn:E; simpl.
      * apply Z.eqb_eq in E. rewrite E. rewrite (proj2 (Z.eqb_neq sid sid')) by congruence.
        assumption.
      * destruct (CategoryBreakdown.summaryId (snd e) =? sid'); [f_equal|]; assumption.
    + symmetry. apply filter_none. intros b Hin.
      apply numbered_ids in Hin. lia.
Qed.

End Facts.
End MemStorageFacts.

(** ** The aggregation engine *)

Module EngineFacts.
Import StoreInv StoreInvFacts MemStorageFacts.

Section Facts.
Context {num numstr : Type} `{JsNum num numstr}.
Variable tz : TimeZone.

Local Abbreviation store := (MemStorage.t numstr).
Local Abbreviation Tx := (Transaction.t numstr).

Lemma fold_left_map_add (A : Type) (f : A -> num) (l : list A) (z : num) :
  fold_left (fun s t => add s (f t)) l z = fold_left add (map f l) z.
Proof. revert z. induction l as [|a l IH]; intros z; simpl; [reflexivity|apply IH]. Qed.

Lemma length_zero_nil (A : Type) (l : list A) : Nat.eqb (List.length l) 0 = true <-> l = [].
Proof. destruct l; simpl; split; intros; try reflexivity; discriminate. Qed.

(** The lookup of a month's summary reads the summary table only. *)
Lemma getMonthlySummaryByMonth_ext (st st' : store) u y m :
  MemStorage.monthlySummaries st' = MemStorage.monthlySummaries st ->
  MemStorage.getMonthlySummaryByMonth st' u y m = MemStorage.getMonthlySummaryByMonth st u y m.
Proof. unfold MemStorage.getMonthlySummaryByMonth. now intros ->. Qed.

Lemma getTransactionsByMonth_ext (st st' : store) u y m :
  MemStorage.transactions st' = MemStorage.transactions st ->
  MemStorage.getTransactionsByMonth tz st' u y m = MemStorage.getTransactionsByMonth tz st u y m.
Proof. unfold MemStorage.getTransactionsByMonth. now intros ->. Qed.

Lemma getCategoryBreakdowns_ext (st st' : store) sid :
  MemStorage.categoryBreakdowns st' = MemStorage.categoryBreakdowns st ->
  MemStorage.getCategoryBreakdowns st' sid = MemStorage.getCategoryBreakdowns st sid.
Proof. unfold MemStorage.getCategoryBreakdowns. now intros ->. Qed.

(** An empty month: nothing is returned and nothing is written. *)
Lemma generateMonthlySummary_empty now (st : store) u y m :
  MemStorage.getTransactionsByMonth tz st u y m = [] ->
  generateMonthlySummary tz now st u y m = (None, st).
Proof. unfold generateMonthlySummary. now intros ->. Qed.

(** A month with transactions: what is returned and what is stored. *)
Lemma generateMonthlySummary_spec now (st : store) u y m :
  Wf st ->
  MemStorage.getTransactionsByMonth tz st u y m <> [] ->
  let transactions := MemStorage.getTransactionsByMonth tz st u y m in
  let r := generateMonthlySummary tz now st u y m in
  exists s,
    fst r = Some s
    /\ Wf (snd r)
    /\ MemStorage.transactions (snd r) = MemStorage.transactions st
    /\ MemStorage.transactionId (snd r) = MemStorage.transactionId st
    /\ MemStorage.getMonthlySummaryByMonth (snd r) u y m = Some s
    /\ summaryValues s = aggregateSummary y m transactions
    /\ MonthlySummary.lastUpdated s = now
    /\ MonthlySummary.userId s = u
    /\ MonthlySummary.id s
       = match MemStorage.getMonthlySummaryByMonth st u y m with
         | Some existing => MonthlySummary.id existing
         | None => MemStorage.summaryId st
         end
    /\ MemStorage.getCategoryBreakdowns (snd r) (MonthlySummary.id s)
       = numbered (MemStorage.breakdownId st) (MonthlySummary.id s) (breakdownsOf transactions)
    /\ (forall sid, sid <> MonthlySummary.id s ->
          MemStorage.getCategoryBreakdowns (snd r) sid
          = MemStorage.getCategoryBreakdowns st sid).
Proof.
  intros Hwf Hne. cbv zeta. unfold generateMonthlySummary.
  set (txs := MemStorage.getTransactionsByMonth tz st u y m) in *.
  destruct (Nat.eqb (List.length txs) 0) eqn:El.
  { apply length_zero_nil in El. contradiction. }
  pose proof (createOrUpdateMonthlySummary_spec now u (summaryDataOf y m txs) Hwf) as Hc.
  cbv zeta in Hc.
  destruct (MemStorage.createOrUpdateMonthlySummary now st u (summaryDataOf y m txs))
    as [s st1] eqn:Ec.
  simpl in Hc. destruct Hc as (Hwf1 & Ht1 & Hti1 & Hb1 & Hbi1 & Hg1 & Hv1 & Hl1 & Hus1 & Hid1).
  pose proof (updateCategoryBreakdowns_spec (MonthlySummary.id s) (breakdownsOf txs) Hwf1) as Hu.
  cbv zeta in Hu.
  destruct (MemStorage.updateCategoryBreakdowns st1 (MonthlySummary.id s) (breakdownsOf txs))
    as [rs st2] eqn:Eu.
  simpl in Hu. destruct Hu as (Hwf2 & Ht2 & Hti2 & Hs2 & Hsi2 & Hrs & Hg2 & Hother).
  exists s. simpl. split; [reflexivity|]. split; [exact Hwf2|]. repeat split.
  - congruence.
  - congruence.
  - rewrite (getMonthlySummaryByMonth_ext _ _ _ _ _ Hs2). exact Hg1.
  - exact Hv1.
  - exact Hl1.
  - exact Hus1.
  - exact Hid1.
  - rewrite Hg2, Hrs. now rewrite Hbi1.
  - intros sid Hne'. rewrite (Hother _ Hne'). now apply getCategoryBreakdowns_ext.
Qed.

End Facts.
End EngineFacts.

(** ** The category map of the engine *)

Module BreakdownFacts.

Section Facts.
Context {num numstr : Type} `{JsNum num numstr}.

Local Abbreviation Tx := (Transaction.t numstr).
Local Abbreviation sget := (JsMap.get String.eqb).
Local Abbreviation sset := (JsMap.set String.eqb).

(** One step of the [forEach] over the expenses. *)
Definition accumulate (m : JsMap.t string num) (t : Tx) : JsMap.t string num :=
  sset (Transaction.category t)
       (add (orZero (sget (Transaction.category t) m)) (absAmount t)) m.

Definition initial : JsMap.t string num :=
  fold_left (fun m cat => sset cat zero m) categories (JsMap.empty string num).

Definition ofCategory (c : string) (t : Tx) : bool := String.eqb (Transaction.category t) c.

(** The running total of one category. *)
Definition step (acc : num) (t : Tx) : num := add (orZero (Some acc)) (absAmount t).

(** The running total the engine keeps for a category: over the
    category's expenses, in order, the total so far, or 0 when that is
    falsy (0 or NaN), plus the absolute amount. *)
Definition runningTotal (category : string) (transactions : list Tx) : num :=
  fold_left step
            (filter (fun t => isExpense t && String.eqb (Transaction.category t) category)
                    transactions)
            zero.

Lemma expensesByCategory_fold (txs : list Tx) :
  expensesByCategory txs = fold_left accumulate (filter (@isExpense numstr) txs) initial.
Proof. reflexivity. Qed.

Lemma accumulate_nodup (l : list Tx) (m : JsMap.t string num) :
  NoDup (JsMap.keys m) -> NoDup (JsMap.keys (fold_left accumulate l m)).
Proof.
  revert m. induction l as [|t l IH]; intros m Hnd; simpl; [assumption|].
  apply IH. now apply (JsMapFacts.nodup_set String.eqb String.eqb_eq).
Qed.

Lemma accumulate_get c (l : list Tx) (m : JsMap.t string num) :
  sget c (fold_left accumulate l m)
  = match filter (ofCategory c) l with
    | [] => sget c m
    | t :: r => Some (fold_left step r (add (orZero (sget c m)) (absAmount t)))
    end.
Proof.
  revert m. induction l as [|x l IH]; intros m; [reflexivity|].
  cbn [fold_left filter]. rewrite IH.
  assert (Hx : sget c (accumulate m x)
               = if ofCategory c x
                 then Some (add (orZero (sget c m)) (absAmount x)) else sget c m).
  { unfold accumulate, ofCategory.
    destruct (String.eqb (Transaction.category x) c) eqn:E.
    - apply String.eqb_eq in E. subst c.
      apply (JsMapFacts.get_set_same String.eqb String.eqb_eq).
    - apply (JsMapFacts.get_set_other String.eqb String.eqb_eq).
      intros Heq. rewrite Heq, String.eqb_refl in E. discriminate. }
  rewrite Hx. destruct (ofCategory c x); [|reflexivity].
  destruct (filter _ l); reflexivity.
Qed.

Lemma orZero_zero : orZero (Some zero) = zero.
Proof. unfold orZero. now destruct (truthy zero). Qed.

Lemma initial_list :
  initial = map (fun c => (c, zero)) categories.
Proof. reflexivity. Qed.

Lemma initial_nodup : NoDup (JsMap.keys initial).
Proof.
  rewrite initial_list. unfold JsMap.keys. rewrite map_map. simpl.
  repeat (constructor; [simpl; intuition discriminate|]). constructor.
Qed.

Lemma initial_get c :
  sget c initial = if existsb (String.eqb c) categories then Some zero else None.
Proof.
  rewrite initial_list. induction categories as [|k r IH]; simpl; [reflexivity|].
  destruct (String.eqb c k); [reflexivity|exact IH].
Qed.

Lemma initial_orZero c : orZero (sget c initial) = zero.
Proof.
  rewrite initial_get. destruct (existsb _ _); [apply orZero_zero|reflexivity].
Qed.

Lemma filter_filter (A : Type) (p q : A -> bool) (l : list A) :
  filter q (filter p l) = filter (fun x => p x && q x) l.
Proof.
  induction l as [|a l IH]; simpl; [reflexivity|].
  destruct (p a); simpl; [|exact IH]. destruct (q a); [f_equal|]; exact IH.
Qed.

(** The entry of a category in the map. *)
Lemma expensesByCategory_get c (txs : list Tx) :
  sget c (expensesByCategory txs)
  = match filter (fun t => isExpense t && ofCategory c t) txs with
    | [] => if existsb (String.eqb c) categories then Some zero else None
    | _ :: _ => Some (runningTotal c txs)
    end.
Proof.
  rewrite expensesByCategory_fold, accumulate_get, filter_filter.
  unfold runningTotal. fold (ofCategory c).
  change (fun t : Tx => isExpense t && ofCategory c t)
    with (fun t : Tx => isExpense t && String.eqb (Transaction.category t) c).
  destruct (filter _ txs) as [|t r]; [apply initial_get|].
  cbn [fold_left]. rewrite initial_orZero. do 2 f_equal. unfold step.
  now rewrite orZero_zero.
Qed.

Lemma runningTotal_none c (txs : list Tx) :
  filter (fun t => isExpense t && ofCategory c t) txs = [] -> runningTotal c txs = zero.
Proof. unfold runningTotal, ofCategory. now intros ->. Qed.

Lemma expensesByCategory_nodup (txs : list Tx) : NoDup (JsMap.keys (expensesByCategory txs)).
Proof. rewrite expensesByCategory_fold. apply accumulate_nodup, initial_nodup. Qed.



Lemma breakdownsOf_amounts (txs : list Tx) :
  map (@InsertCategoryBreakdown.amount num) (breakdownsOf txs)
  = map snd (filter (fun entry => gtb (snd entry) zero) (expensesByCategory txs)).
Proof. unfold breakdownsOf. now rewrite map_map. Qed.




End Facts.
End BreakdownFacts.

(** ** Sums of binary64 numbers without sign *)

Module Float64Facts.

(** A number that is not NaN and has no sign: +0, a positive number or
    +Infinity. *)
Definition nonneg (x : float) : Prop :=
  match Prim2SF x with
  | S754_zero false | S754_infinity false | S754_finite false _ _ => True
  | _ => False
  end.

Lemma shr_1_nonneg (mrs : shr_record) : 0 <= shr_m mrs -> 0 <= shr_m (shr_1 mrs).
Proof.
  destruct mrs as [m r s]. simpl. destruct m as [|p|p]; [reflexivity| |lia].
  intros _. destruct p; simpl; lia.
Qed.

Lemma iter_pos_nonneg (p : positive) :
  forall mrs, 0 <= shr_m mrs -> 0 <= shr_m (iter_pos shr_1 p mrs).
Proof.
  induction p as [p IH|p IH|]; intros mrs Hm; simpl.
  - apply IH, IH, shr_1_nonneg, Hm.
  - apply IH, IH, Hm.
  - apply shr_1_nonneg, Hm.
Qed.

Lemma shr_fexp_nonneg (m e : Z) (l : location) :
  0 <= m -> 0 <= shr_m (fst (shr_fexp prec emax m e l)).
Proof.
  intros Hm. unfold shr_fexp, shr.
  assert (H0 : 0 <= shr_m (shr_record_of_loc m l)) by (destruct l as [|[]]; exact Hm).
  destruct (fexp prec emax (Zdigits2 m + e) - e); simpl; [exact H0| |exact H0].
  now apply iter_pos_nonneg.
Qed.

Lemma round_nearest_even_nonneg (m : Z) (l : location) :
  0 <= m -> 0 <= round_nearest_even m l.
Proof. intros Hm. destruct l as [|[]]; simpl; try lia. destruct (Z.even m); lia. Qed.

(** Rounding keeps the sign, and makes no NaN of a mantissa without
    sign. *)
Lemma binary_round_aux_sign (sx : bool) (mx ex : Z) (lx : location) :
  0 <= mx ->
  match binary_round_aux prec emax sx mx ex lx with
  | S754_nan => False
  | S754_zero s | S754_infinity s | S754_finite s _ _ => s = sx
  end.
Proof.
  intros Hm. unfold binary_round_aux.
  pose proof (@shr_fexp_nonneg mx ex lx Hm) as H1.
  destruct (shr_fexp prec emax mx ex lx) as [mrs' e']. cbn [fst] in H1.
  pose proof (@shr_fexp_nonneg _ e' loc_Exact
                (@round_nearest_even_nonneg _ (loc_of_shr_record mrs') H1)) as H2.
  destruct (shr_fexp prec emax _ e' loc_Exact) as [mrs'' e'']. cbn [fst] in H2.
  destruct (shr_m mrs'') as [|p|p]; [reflexivity| |lia].
  destruct (e'' <=? emax - prec); reflexivity.
Qed.

Lemma SFadd_nonneg (x y : spec_float) :
  match x with
  | S754_zero false | S754_infinity false | S754_finite false _ _ => True
  | _ => False
  end ->
  match y with
  | S754_zero false | S754_infinity false | S754_finite false _ _ => True
  | _ => False
  end ->
  match SFadd prec emax x y with
  | S754_zero false | S754_infinity false | S754_finite false _ _ => True
  | _ => False
  end.
Proof.
  destruct x as [[]|[]| |[] mx ex]; try contradiction;
    destruct y as [[]|[]| |[] my ey]; try contradiction; intros _ _; try exact I.
  unfold SFadd, cond_Zopp, binary_normalize.
  set (a := fst (shl_align mx ex (Z.min ex ey))).
  set (b := fst (shl_align my ey (Z.min ex ey))).
  change (Z.pos a + Z.pos b) with (Z.pos (a + b)). unfold binary_round.
  destruct (shl_align (a + b) _ _) as [mz ez].
  pose proof (@binary_round_aux_sign false (Z.pos mz) ez loc_Exact ltac:(lia)) as Hs.
  destruct (binary_round_aux prec emax false (Z.pos mz) ez loc_Exact) as [s|s| |s m e];
    try contradiction; now subst s.
Qed.

Lemma add_nonneg (x y : float) : nonneg x -> nonneg y -> nonneg (PrimFloat.add x y).
Proof.
  unfold nonneg. intros Hx Hy. rewrite FloatAxioms.add_spec. now apply SFadd_nonneg.
Qed.

Lemma is_nan_Prim2SF (x : float) : PrimFloat.is_nan x = false -> Prim2SF x <> S754_nan.
Proof.
  unfold PrimFloat.is_nan. rewrite FloatAxioms.eqb_spec. intros Hx E.
  rewrite E in Hx. discriminate.
Qed.

Lemma abs_nonneg (x : float) : PrimFloat.is_nan x = false -> nonneg (PrimFloat.abs x).
Proof.
  intros Hx. apply is_nan_Prim2SF in Hx. unfold nonneg. rewrite FloatAxioms.abs_spec.
  destruct (Prim2SF x); simpl; auto.
Qed.

Lemma zero_nonneg : nonneg PrimFloat.zero.
Proof. exact I. Qed.

(** [x || 0] is [x] for a number without sign. *)
Lemma nonneg_truthy (x : float) :
  nonneg x -> (if truthy x then x else zero) = x.
Proof.
  unfold nonneg. intros Hx. cbn [truthy zero Float64.ops].
  unfold PrimFloat.is_zero, PrimFloat.is_nan. rewrite !FloatAxioms.eqb_spec.
  destruct (Prim2SF x) as [[]|[]| |[] m e] eqn:E; try contradiction.
  - symmetry. apply Prim2SF_inj. rewrite E. reflexivity.
  - reflexivity.
  - cbn [SFeqb SFcompare]. rewrite Z.compare_refl, Pos.compare_cont_refl. reflexivity.
Qed.

(** On numbers that are not NaN the running total of the engine is the
    plain sum of the absolute amounts: no total is falsy but 0. *)
Lemma step_is_add (l : list (Transaction.t string)) :
  (forall t, In t l -> isNaN (toNumber (Transaction.amount t)) = false) ->
  forall acc : float,
    nonneg acc ->
    fold_left BreakdownFacts.step l acc
    = fold_left add (map (fun t => abs (toNumber (Transaction.amount t))) l) acc.
Proof.
  induction l as [|t l IH]; intros Hn acc Ha; [reflexivity|]. cbn [fold_left map].
  assert (Et : BreakdownFacts.step acc t = add acc (abs (toNumber (Transaction.amount t)))).
  { unfold BreakdownFacts.step, orZero, absAmount. now rewrite nonneg_truthy. }
  rewrite Et. apply IH.
  - intros t' Hin. apply Hn. now right.
  - apply add_nonneg; [exact Ha|]. apply abs_nonneg, Hn. now left.
Qed.

Lemma runningTotal_categoryTotal (c : string) (txs : list (Transaction.t string)) :
  (forall t, In t txs -> Transaction.type t = "expense"%string ->
             isNaN (toNumber (Transaction.amount t)) = false) ->
  BreakdownFacts.runningTotal c txs = categoryTotal c txs.
Proof.
  intros Hn. unfold BreakdownFacts.runningTotal, categoryTotal, sum, isExpense.
  apply step_is_add; [|exact zero_nonneg].
  intros t Hin. apply filter_In in Hin as [Hin Ht]. apply andb_true_iff in Ht as [Ht _].
  apply Hn; [exact Hin|]. now apply String.eqb_eq.
Qed.

Lemma totalExpensesOf_expenseTotal (txs : list (Transaction.t string)) :
  totalExpensesOf txs = expenseTotal txs.
Proof.
  unfold totalExpensesOf, expenseTotal, sum, isExpense, absAmount.
  apply EngineFacts.fold_left_map_add.
Qed.

End Float64Facts.

(* ================================================================== *)
(** * The claims                                                        *)
(* ================================================================== *)

Section Recompute.
Context {num numstr : Type} `{JsNum num numstr}.
Variable tz : TimeZone.

Import StoreInv StoreInvFacts MemStorageFacts EngineFacts.

(** C10. When the month has no transaction, recompute returns no summary
    and writes nothing: the store, with whatever summary and breakdowns it
    held for the month, is returned as it was. *)
Theorem recompute_empty_month_is_noop now (st : MemStorage.t numstr) userId year month :
  MemStorage.getTransactionsByMonth tz st userId year month = [] ->
  let r := generateMonthlySummary tz now st userId year month in
  fst r = None
  /\ snd r = st
  /\ MemStorage.getMonthlySummaryByMonth (snd r) userId year month
     = MemStorage.getMonthlySummaryByMonth st userId year month
  /\ forall summaryId,
       MemStorage.getCategoryBreakdowns (snd r) summaryId
       = MemStorage.getCategoryBreakdowns st summaryId.
Proof.
  intros Hempty. cbv zeta. rewrite (generateMonthlySummary_empty _ _ _ _ _ _ Hempty).
  simpl. auto.
Qed.

(** C2. For a month with transactions, the summary recompute returns and
    stores has: totalIncome, the sum of the amounts of the transactions of
    type income; totalExpenses, the sum of the absolute amounts of those of
    type expense; netBalance, the first minus the second (each written as a
    decimal string). *)
Theorem recompute_totals now (st : MemStorage.t numstr) userId year month :
  wf st = true ->
  MemStorage.getTransactionsByMonth tz st userId year month <> [] ->
  let transactions := MemStorage.getTransactionsByMonth tz st userId year month in
  let r := generateMonthlySummary tz now st userId year month in
  let totalIncome :=
    sum (map (fun t => toNumber (Transaction.amount t))
             (filter (fun t => String.eqb (Transaction.type t) "income") transactions)) in
  let totalExpenses :=
    sum (map (fun t => abs (toNumber (Transaction.amount t)))
             (filter (fun t => String.eqb (Transaction.type t) "expense") transactions)) in
  exists s,
    fst r = Some s
    /\ MemStorage.getMonthlySummaryByMonth (snd r) userId year month = Some s
    /\ MonthlySummary.totalIncome s = numToString totalIncome
    /\ MonthlySummary.totalExpenses s = numToString totalExpenses
    /\ MonthlySummary.netBalance s = numToString (sub totalIncome totalExpenses).
Proof.
  intros Hwf Hne. apply wf_spec in Hwf.
  destruct (generateMonthlySummary_spec tz now userId year month Hwf Hne)
    as (s & Hr & _ & _ & _ & Hget & Hv & _).
  cbv zeta. exists s. split; [exact Hr|]. split; [exact Hget|].
  unfold summaryValues, aggregateSummary in Hv. injection Hv as _ _ Hi He Hn.
  unfold totalIncomeOf, totalExpensesOf, isIncome, isExpense in Hi, He, Hn.
  unfold sum. rewrite <- !fold_left_map_add. auto.
Qed.

(** C3. Two recomputes in a row, the transactions unchanged, return and
    store the same summary, its timestamp apart, and leave under every
    summary breakdowns with the same values (owning summary, category,
    amount, percentage), the second set replacing the first; the
    transactions are left as they were. *)
Theorem recompute_twice_same_values now1 now2 (st : MemStorage.t numstr) userId year month :
  wf st = true ->
  let r1 := generateMonthlySummary tz now1 st userId year month in
  let r2 := generateMonthlySummary tz now2 (snd r1) userId year month in
  option_map summaryCore (fst r2) = option_map summaryCore (fst r1)
  /\ option_map summaryCore (MemStorage.getMonthlySummaryByMonth (snd r2) userId year month)
     = option_map summaryCore (MemStorage.getMonthlySummaryByMonth (snd r1) userId year month)
  /\ (forall summaryId,
        map breakdownValues (MemStorage.getCategoryBreakdowns (snd r2) summaryId)
        = map breakdownValues (MemStorage.getCategoryBreakdowns (snd r1) summaryId))
  /\ MemStorage.transactions (snd r2) = MemStorage.transactions (snd r1).
Proof.
  intros Hwf. apply wf_spec in Hwf. cbv zeta.
  destruct (MemStorage.getTransactionsByMonth tz st userId year month) as [|t0 txs] eqn:Et.
  - rewrite (generateMonthlySummary_empty _ now1 _ _ _ _ Et). simpl.
    rewrite (generateMonthlySummary_empty _ now2 _ _ _ _ Et). simpl. auto.
  - assert (Hne : MemStorage.getTransactionsByMonth tz st userId year month <> [])
      by (rewrite Et; discriminate).
    destruct (generateMonthlySummary_spec tz now1 userId year month Hwf Hne)
      as (s1 & Hr1 & Hwf1 & Ht1 & _ & Hg1 & Hv1 & _ & Hu1 & Hid1 & Hb1 & Ho1).
    set (st1 := snd (generateMonthlySummary tz now1 st userId year month)) in *.
    pose proof (getTransactionsByMonth_ext tz st st1 userId year month Ht1) as Ht.
    assert (Hne1 : MemStorage.getTransactionsByMonth tz st1 userId year month <> [])
      by (rewrite Ht; exact Hne).
    destruct (generateMonthlySummary_spec tz now2 userId year month Hwf1 Hne1)
      as (s2 & Hr2 & _ & Ht2 & _ & Hg2 & Hv2 & _ & Hu2 & Hid2 & Hb2 & Ho2).
    rewrite Hg1 in Hid2. rewrite Ht in Hv2, Hb2.
    assert (Hcore : summaryCore s2 = summaryCore s1).
    { unfold summaryCore. rewrite Hid2, Hu1, Hu2, Hv1, Hv2. reflexivity. }
    rewrite Hr1, Hr2, Hg1, Hg2. simpl. rewrite Hcore.
    repeat split; try assumption.
    intros sid. destruct (Z.eq_dec sid (MonthlySummary.id s1)) as [->|Hn].
    + rewrite <- Hid2 at 1. rewrite Hb2, Hb1, !numbered_values. now rewrite Hid2.
    + rewrite Ho2 by congruence. reflexivity.
Qed.

End Recompute.

(** The witness of C10: the new store has no transaction in March 2024. *)
Lemma recompute_empty_month_is_noop_witness :
  MemStorage.getTransactionsByMonth JsDate.UTC Scenario.fresh 1 2024 3 = []
  /\ generateMonthlySummary JsDate.UTC 0 Scenario.fresh 1 2024 3 = (None, Scenario.fresh).
Proof.
  split; [reflexivity|].
  pose proof (recompute_empty_month_is_noop JsDate.UTC 0 Scenario.fresh 1 2024 3 eq_refl)
    as (H1 & H2 & _).
  destruct (generateMonthlySummary JsDate.UTC 0 Scenario.fresh 1 2024 3). simpl in *.
  now subst.
Defined.

(** The witness of C2: March 2024 of the scenario. *)
Lemma recompute_totals_witness :
  StoreInv.wf Scenario.march = true
  /\ MemStorage.getTransactionsByMonth JsDate.UTC Scenario.march 1 2024 3 <> []
  /\ exists s,
       fst (generateMonthlySummary JsDate.UTC 3000 Scenario.march 1 2024 3) = Some s
       /\ MonthlySummary.totalIncome s = "1000"%string
       /\ MonthlySummary.totalExpenses s = "200"%string
       /\ MonthlySummary.netBalance s = "800"%string.
Proof.
  assert (Hwf : StoreInv.wf Scenario.march = true) by (vm_compute; reflexivity).
  assert (Hne : MemStorage.getTransactionsByMonth JsDate.UTC Scenario.march 1 2024 3 <> [])
    by (vm_compute; discriminate).
  split; [exact Hwf|]. split; [exact Hne|].
  destruct (recompute_totals JsDate.UTC 3000 Scenario.march 1 2024 3 Hwf Hne)
    as (s & Hs & _ & Hi & He & Hn).
  exists s. split; [exact Hs|]. rewrite Hi, He, Hn.
  repeat split; vm_compute; reflexivity.
Defined.

(** The witness of C3. *)
Lemma recompute_twice_same_values_witness :
  StoreInv.wf Scenario.march = true
  /\ let r1 := generateMonthlySummary JsDate.UTC 3000 Scenario.march 1 2024 3 in
     let r2 := generateMonthlySummary JsDate.UTC 4000 (snd r1) 1 2024 3 in
     option_map summaryCore (fst r2) = option_map summaryCore (fst r1).
Proof.
  assert (Hwf : StoreInv.wf Scenario.march = true) by (vm_compute; reflexivity).
  split; [exact Hwf|].
  exact (proj1 (recompute_twice_same_values JsDate.UTC 3000 4000 Scenario.march 1 2024 3 Hwf)).
Defined.

Section Breakdowns.
Variable tz : TimeZone.

Import StoreInv StoreInvFacts MemStorageFacts EngineFacts BreakdownFacts Float64Facts.


End Breakdowns.




Section Store.
Context {num numstr : Type} `{JsNum num numstr}.
Variable tz : TimeZone.
Variable pdfParse : string -> option string.

Import StoreInv StoreInvFacts MemStorageFacts EngineFacts.

(** C7. [updateTransaction] on a stored identifier returns the updated
    transaction, which is the one now stored under the identifier: each
    supplied field is overwritten (a date by its date-only form, an amount
    by its decimal string), each field not supplied keeps its value, as do
    id, userId and createdAt; no other transaction and no other table
    changes. On an identifier with no transaction it returns nothing and
    the store is unchanged. *)
Theorem updateTransaction_overwrites_supplied_fields
        (st : MemStorage.t numstr) id (updateData : PartialInsertTransaction.t num) :
  let r := MemStorage.updateTransaction st id updateData in
  match MemStorage.getTransactionById st id with
  | Some t =>
      exists t',
        fst r = Some t'
        /\ MemStorage.getTransactionById (snd r) id = Some t'
        /\ Transaction.id t' = Transaction.id t
        /\ Transaction.userId t' = Transaction.userId t
        /\ Transaction.createdAt t' = Transaction.createdAt t
        /\ Transaction.date t'
           = match PartialInsertTransaction.date updateData with
             | Some d => JsDate.toISODate d
             | None => Transaction.date t
             end
        /\ Transaction.amount t'
           = match PartialInsertTransaction.amount updateData with
             | Some a => numToString a
             | None => Transaction.amount t
             end
        /\ Transaction.description t'
           = match PartialInsertTransaction.description updateData with
             | Some d => d
             | None => Transaction.description t
             end
        /\ Transaction.category t'
           = match PartialInsertTransaction.category updateData with
             | Some c => c
             | None => Transaction.category t
             end
        /\ Transaction.type t'
           = match PartialInsertTransaction.type updateData with
             | Some ty => ty
             | None => Transaction.type t
             end
        /\ Transaction.pdfSource t'
           = match PartialInsertTransaction.pdfSource updateData with
             | Some p => p
             | None => Transaction.pdfSource t
             end
        /\ (forall id', id' <> id ->
              MemStorage.getTransactionById (snd r) id' = MemStorage.getTransactionById st id')
        /\ MemStorage.users (snd r) = MemStorage.users st
        /\ MemStorage.monthlySummaries (snd r) = MemStorage.monthlySummaries st
        /\ MemStorage.categoryBreakdowns (snd r) = MemStorage.categoryBreakdowns st
  | None => fst r = None /\ snd r = st
  end.
Proof.
  cbv zeta. unfold MemStorage.updateTransaction, MemStorage.getTransactionById.
  destruct (JsMap.get Z.eqb id (MemStorage.transactions st)) as [t|] eqn:E; simpl.
  - eexists. split; [reflexivity|]. simpl.
    split; [apply (JsMapFacts.get_set_same Z.eqb Z.eqb_eq)|].
    unfold MemStorage.overwrite.
    repeat (split; [reflexivity|]). split; [|auto].
    intros id' Hne. apply (JsMapFacts.get_set_other Z.eqb Z.eqb_eq). congruence.
  - auto.
Qed.

(** The identifier and the date of a created transaction:
    [createTransaction] returns a transaction whose identifier is the
    counter's value, which no stored transaction has, and stores it under
    that identifier; its date is the date-only form of the date given: the
    UTC calendar date of that instant, a date of the calendar that read
    back is midnight of the same UTC day, the time of day dropped. *)
Lemma createTransaction_fresh_and_dated
        now (st : MemStorage.t numstr) userId (insertTransaction : InsertTransaction.t num) :
  wf st = true ->
  let r := MemStorage.createTransaction now st userId insertTransaction in
  MemStorage.getTransactionById st (Transaction.id (fst r)) = None
  /\ (forall t, In t (JsMap.values (MemStorage.transactions st)) ->
                Transaction.id t <> Transaction.id (fst r))
  /\ MemStorage.getTransactionById (snd r) (Transaction.id (fst r)) = Some (fst r)
  /\ Transaction.userId (fst r) = userId
  /\ Transaction.date (fst r) = JsDate.toISODate (InsertTransaction.date insertTransaction)
  /\ Transaction.createdAt (fst r) = now
  /\ JsDate.valid (Transaction.date (fst r))
  /\ JsDate.newDate (Transaction.date (fst r))
     = JsDate.Day (InsertTransaction.date insertTransaction) * JsDate.msPerDay.
Proof.
  intros Hwf. apply wf_spec in Hwf. destruct Hwf as (Ht & _ & _).
  cbv zeta. unfold MemStorage.createTransaction, MemStorage.getTransactionById. simpl.
  split; [|split; [|split]]; [| | |repeat (split; [reflexivity|])].
  - apply (JsMapFacts.get_None_not_in Z.eqb Z.eqb_eq).
    eapply Ok_key_fresh; [exact Ht|lia].
  - intros t Hin Heq. eapply Ok_value_key in Hin; [|exact Ht].
    destruct Ht as [Ha _]. destruct (Ha _ _ Hin). lia.
  - apply (JsMapFacts.get_set_same Z.eqb Z.eqb_eq).
  - split; [apply CalendarFacts.toISODate_valid|apply CalendarFacts.newDate_toISODate].
Qed.

Lemma extractTransactions_nil now text :
  (forall line, In line (JsString.split_lines text) -> JsString.test_amount line = false) ->
  extractTransactions now text = [].
Proof.
  intros Hno. unfold extractTransactions.
  induction (JsString.split_lines text) as [|line lines IH]; [reflexivity|].
  assert (Hl : JsString.match_amount line = None).
  { specialize (Hno line (or_introl eq_refl)). unfold JsString.test_amount in Hno.
    destruct (JsString.match_amount line); [discriminate|reflexivity]. }
  cbn [filter]. destruct (negb _); [cbn [flat_map]; rewrite Hl|];
    apply IH; intros l Hin; apply Hno; now right.
Qed.

(** C9. When the text extracted from the uploaded statement has no line
    with a currency amount (a dollar sign, digits, a dot, two digits), the
    upload handler answers 400 and the store is left as it was: no
    transaction is created. *)
Theorem upload_without_amounts_is_rejected
        now (st : MemStorage.t numstr) pdfContent content text :
  MemStorage.orNull pdfContent = Some content ->
  pdfParse content = Some text ->
  (forall line, In line (JsString.split_lines text) -> JsString.test_amount line = false) ->
  let r := post_upload_statement tz pdfParse now st pdfContent in
  status (fst r) = 400
  /\ snd r = st
  /\ MemStorage.getTransactions (snd r) 1 = MemStorage.getTransactions st 1.
Proof.
  intros Hc Hp Hno. cbv zeta. unfold post_upload_statement.
  rewrite Hc, Hp, (extractTransactions_nil now text Hno). simpl. auto.
Qed.

End Store.

(** C8, at the failing inputs. The volatile store keeps [String(amount)]:
    the amounts 1000, 12.5 and 0.1 + 0.2 are stored as 1000, 12.5 and
    0.30000000000000004, none of them a decimal string with two decimals
    (the relational store returns its numeric(10,2) column: 1000.00, 12.50,
    0.30). *)
Lemma createTransaction_amount_not_two_decimals :
  map (fun amount =>
         Transaction.amount
           (fst (MemStorage.createTransaction 1000 Scenario.fresh 1
                   (Scenario.entry 2024 3 5 amount "income" "Income"))))
      [1000; 12.5; PrimFloat.add (Float64.parse_float "0.1") (Float64.parse_float "0.2")]%float
  = ["1000"; "12.5"; "0.30000000000000004"]%string
  /\ map twoDecimals ["1000"; "12.5"; "0.30000000000000004"; "1000.00"]%string
     = [false; false; false; true].
Proof. split; vm_compute; reflexivity. Qed.

(** The witness of C9: a statement whose only line has no amount. *)
Lemma upload_without_amounts_is_rejected_witness :
  let r := post_upload_statement JsDate.UTC Scenario.plainText 5000 Scenario.march
             (Some "opening balance 12.3"%string) in
  status (fst r) = 400 /\ snd r = Scenario.march.
Proof.
  pose proof (upload_without_amounts_is_rejected JsDate.UTC Scenario.plainText 5000
                Scenario.march (Some "opening balance 12.3"%string)
                (content := "opening balance 12.3"%string)
                (text := "opening balance 12.3"%string) eq_refl eq_refl) as Hw.
  cbv zeta in *. destruct Hw as (H1 & H2 & _).
  - intros line [<-|[]]. reflexivity.
  - split; assumption.
Defined.

(** ** The request handlers *)

Module HandlerFacts.
Import StoreInv StoreInvFacts MemStorageFacts EngineFacts.

Section Facts.
Context {num numstr : Type} `{JsNum num numstr}.
Variable tz : TimeZone.
Variable pdfParse : string -> option string.

Local Abbreviation store := (MemStorage.t numstr).
Local Abbreviation Tx := (Transaction.t numstr).

Lemma generateMonthlySummary_Wf now (st : store) u y m :
  Wf st -> Wf (snd (generateMonthlySummary tz now st u y m)).
Proof.
  intros Hwf.
  destruct (MemStorage.getTransactionsByMonth tz st u y m) as [|t0 txs] eqn:Et.
  - now rewrite (generateMonthlySummary_empty _ now _ _ _ _ Et).
  - assert (Hne : MemStorage.getTransactionsByMonth tz st u y m <> [])
      by (rewrite Et; discriminate).
    destruct (generateMonthlySummary_spec tz now u y m Hwf Hne) as (s & _ & Hwf' & _).
    exact Hwf'.
Qed.

Lemma createAll_transactions (bs : list (InsertCategoryBreakdown.t num)) :
  forall (st : store) sid,
    MemStorage.transactions (snd (MemStorage.createAll st sid bs)) = MemStorage.transactions st.
Proof.
  induction bs as [|b bs IH]; intros st sid; [reflexivity|].
  cbn [MemStorage.createAll MemStorage.createCategoryBreakdown].
  specialize (IH (MemStorage.withBreakdowns st
                    (JsMap.set Z.eqb (MemStorage.breakdownId st)
                       {| CategoryBreakdown.id := MemStorage.breakdownId st;
                          CategoryBreakdown.summaryId := sid;
                          CategoryBreakdown.category := InsertCategoryBreakdown.category b;
                          CategoryBreakdown.amount :=
                            numToString (InsertCategoryBreakdown.amount b);
                          CategoryBreakdown.percentage :=
                            numToString (InsertCategoryBreakdown.percentage b) |}
                       (MemStorage.categoryBreakdowns st))
                    (MemStorage.breakdownId st + 1)) sid).
  destruct (MemStorage.createAll _ sid bs) as [rs st']. exact IH.
Qed.

Lemma generateMonthlySummary_transactions now (st : store) u y m :
  MemStorage.transactions (snd (generateMonthlySummary tz now st u y m))
  = MemStorage.transactions st.
Proof.
  unfold generateMonthlySummary.
  destruct (Nat.eqb _ 0); [reflexivity|].
  destruct (MemStorage.createOrUpdateMonthlySummary now st u _) as [s st1] eqn:E1.
  assert (H1 : MemStorage.transactions st1 = MemStorage.transactions st).
  { unfold MemStorage.createOrUpdateMonthlySummary in E1.
    destruct (MemStorage.getMonthlySummaryByMonth st u _ _); injection E1 as _ <-; reflexivity. }
  destruct (MemStorage.updateCategoryBreakdowns st1 _ _) as [rs st2] eqn:E2.
  simpl. rewrite <- H1. unfold MemStorage.updateCategoryBreakdowns in E2.
  change st2 with (snd (rs, st2)). rewrite <- E2. now rewrite createAll_transactions.
Qed.


(** A stored transaction is in the month the handlers compute for it. *)
Lemma month_nonempty (st : store) (t : Tx) :
  In t (JsMap.values (MemStorage.transactions st)) ->
  MemStorage.getTransactionsByMonth tz st (Transaction.userId t)
    (summaryYear tz (Transaction.date t)) (summaryMonth tz (Transaction.date t)) <> [].
Proof.
  intros Hin Hnil.
  assert (Hf : In t (MemStorage.getTransactionsByMonth tz st (Transaction.userId t)
                       (summaryYear tz (Transaction.date t))
                       (summaryMonth tz (Transaction.date t)))).
  { unfold MemStorage.getTransactionsByMonth. apply filter_In. split; [exact Hin|].
    unfold summaryYear, summaryMonth. rewrite Z.add_simpl_r, !Z.eqb_refl. reflexivity. }
  rewrite Hnil in Hf. destruct Hf.
Qed.

Lemma get_in_values (m : JsMap.t Z Tx) k v :
  JsMap.get Z.eqb k m = Some v -> In v (JsMap.values m).
Proof.
  intros Hg. apply (JsMapFacts.get_Some_in Z.eqb Z.eqb_eq) in Hg.
  change v with (snd (k, v)). now apply in_map.
Qed.

Lemma createTransaction_keeps now (st : store) u ins (t : Tx) :
  Wf st ->
  In t (JsMap.values (MemStorage.transactions st)) ->
  In t (JsMap.values (MemStorage.transactions (snd (MemStorage.createTransaction now st u ins)))).
Proof.
  intros (Ht & _) Hin. unfold MemStorage.createTransaction. simpl.
  rewrite (JsMapFacts.set_new Z.eqb Z.eqb_eq)
    by (eapply Ok_key_fresh; [exact Ht|lia]).
  unfold JsMap.values. rewrite map_app. apply in_or_app. now left.
Qed.

Lemma createTransaction_stored now (st : store) u ins :
  let r := MemStorage.createTransaction now st u ins in
  In (fst r) (JsMap.values (MemStorage.transactions (snd r)))
  /\ Transaction.userId (fst r) = u.
Proof.
  cbv zeta. unfold MemStorage.createTransaction. simpl. split; [|reflexivity].
  eapply get_in_values. apply (JsMapFacts.get_set_same Z.eqb Z.eqb_eq).
Qed.

Lemma saveAll_spec now u (l : list (InsertTransaction.t num)) :
  forall (st : store),
    Wf st ->
    Wf (snd (saveAll now st u l))
    /\ (forall t, In t (JsMap.values (MemStorage.transactions st)) ->
                  In t (JsMap.values (MemStorage.transactions (snd (saveAll now st u l)))))
    /\ (forall saved t, fst (saveAll now st u l) = Some saved -> In t saved ->
          In t (JsMap.values (MemStorage.transactions (snd (saveAll now st u l))))
          /\ Transaction.userId t = u).
Proof.
  induction l as [|x l IH]; intros st Hwf.
  - simpl. split; [exact Hwf|]. split; [auto|]. intros saved t [= <-] [].
  - cbn [saveAll]. destruct (insertTransactionSchema_parse _) as [data|].
    2:{ simpl. split; [exact Hwf|]. split; [auto|]. discriminate. }
    pose proof (createTransaction_Wf now u data Hwf) as Hwf1.
    pose proof (createTransaction_stored now st u data) as Hst. cbv zeta in Hst.
    pose proof (fun t => @createTransaction_keeps now st u data t Hwf) as Hkeep.
    destruct (MemStorage.createTransaction now st u data) as [saved st1].
    simpl in Hwf1, Hst, Hkeep. destruct Hst as [Hin1 Hu1].
    destruct (IH st1 Hwf1) as (Hwf2 & Hkeep2 & Hsaved2).
    destruct (saveAll now st1 u l) as [[rest|] st2]; simpl in *.
    + split; [exact Hwf2|]. split; [auto|].
      intros saved' t [= <-] [<-|Hin]; [split; auto|]. now apply (Hsaved2 rest).
    + split; [exact Hwf2|]. split; [auto|]. discriminate.
Qed.

Lemma handle_Wf now (st : store) (req : Request (num := num)) :
  Wf st -> Wf (snd (handle tz pdfParse now st req)).
Proof.
  intros Hwf. destruct req as [body|id body|id|pdfContent|y m|y m]; simpl.
  - unfold post_transactions.
    destruct (option_map insertTransactionSchema_parse body) as [[data|]|]; try exact Hwf.
    pose proof (createTransaction_Wf now 1 data Hwf) as Hwf1.
    destruct (MemStorage.createTransaction now st 1 data) as [t st1]. simpl in Hwf1.
    pose proof (generateMonthlySummary_Wf now 1 (summaryYear tz (Transaction.date t))
                  (summaryMonth tz (Transaction.date t)) Hwf1) as Hwf2.
    destruct (generateMonthlySummary tz now st1 1 _ _). exact Hwf2.
  - unfold put_transactions.
    destruct id as [id|]; [|exact Hwf].
    destruct (MemStorage.getTransactionById st id) as [t|]; [|exact Hwf].
    destruct (option_map partialSchema_parse body) as [[data|]|]; try exact Hwf.
    pose proof (updateTransaction_Wf id data Hwf) as Hwf1.
    destruct (MemStorage.updateTransaction st id data) as [upd st1]. simpl in Hwf1.
    match goal with
    | |- context [generateMonthlySummary tz now st1 ?u ?y ?m] =>
        pose proof (generateMonthlySummary_Wf now u y m Hwf1) as Hwf2;
          destruct (generateMonthlySummary tz now st1 u y m)
    end. exact Hwf2.
  - unfold delete_transactions.
    destruct id as [id|]; [|exact Hwf].
    destruct (MemStorage.getTransactionById st id) as [t|]; [|exact Hwf].
    pose proof (deleteTransaction_Wf id Hwf) as Hwf1.
    destruct (MemStorage.deleteTransaction st id) as [[|] st1]; simpl in Hwf1; [|exact Hwf1].
    match goal with
    | |- context [generateMonthlySummary tz now st1 ?u ?y ?m] =>
        pose proof (generateMonthlySummary_Wf now u y m Hwf1) as Hwf2;
          destruct (generateMonthlySummary tz now st1 u y m)
    end. exact Hwf2.
  - unfold post_upload_statement.
    destruct (MemStorage.orNull pdfContent) as [content|]; [|exact Hwf].
    destruct (pdfParse content) as [text|]; [|exact Hwf].
    destruct (Nat.eqb _ 0); [exact Hwf|].
    destruct (saveAll_spec now 1 (extractTransactions now text) Hwf) as (Hwf1 & _).
    destruct (saveAll now st 1 (extractTransactions now text)) as [[[|first saved]|] st1];
      simpl in Hwf1; try exact Hwf1.
    match goal with
    | |- context [generateMonthlySummary tz now st1 ?u ?y ?m] =>
        pose proof (generateMonthlySummary_Wf now u y m Hwf1) as Hwf2;
          destruct (generateMonthlySummary tz now st1 u y m)
    end. exact Hwf2.
  - unfold get_transactions_month. destruct (validMonth y m) as [[? ?]|]; exact Hwf.
  - unfold get_summaries_month. destruct (validMonth y m) as [[? ?]|]; [|exact Hwf].
    destruct (MemStorage.getMonthlySummaryByMonth st 1 _ _); exact Hwf.
Qed.

Lemma run_Wf (reqs : list (Z * Request (num := num))) :
  forall st : store, Wf st -> Wf (run tz pdfParse st reqs).
Proof.
  induction reqs as [|[now req] reqs IH]; intros st Hwf; [exact Hwf|].
  apply IH. now apply handle_Wf.
Qed.


End Facts.
End HandlerFacts.

(** ** The month filters, where they are exact *)

Module MonthFilterFacts.
Import JsDate Calendar CalendarFacts.

Section Filters.
Context {num numstr : Type} `{JsNum num numstr}.

Local Abbreviation store := (MemStorage.t numstr).
Local Abbreviation Tx := (Transaction.t numstr).

(** In a zone that is not behind UTC the volatile store's month filter
    keeps exactly the user's transactions dated in the month. *)
Lemma getTransactionsByMonth_not_behind_utc (tz : TimeZone) (st : store) (u y m : Z) :
  not_behind_utc tz -> dates_valid st ->
  MemStorage.getTransactionsByMonth tz st u y m
  = filter (fun t => (Transaction.userId t =? u) && inMonth y m t)
           (JsMap.values (MemStorage.transactions st)).
Proof.
  intros Htz Hst. unfold MemStorage.getTransactionsByMonth.
  apply filter_ext_in. intros t Hin. cbv zeta.
  unfold getFullYear, getMonth, inMonth.
  rewrite (@local_date tz _ Htz (Hst t Hin)).
  rewrite <- andb_assoc. f_equal. f_equal.
  destruct (Z.eqb_spec (month (Transaction.date t)) m);
    destruct (Z.eqb_spec (month (Transaction.date t) - 1) (m - 1)); (reflexivity || lia).
Qed.




(** At the last month that holds a time value the bounds of the relational
    filter are no longer dates: new Date(275760, 9, 0) is an Invalid Date,
    and the filter returns nothing, the row dated +275760-09-13 included,
    which the volatile store returns. *)
Lemma relational_filter_at_the_last_month :
  newDateLocal UTC 275760 9 0 = None
  /\ TimeClip (newDate {| year := 275760; month := 9; day := 13 |}) = Some maxTime
  /\ PostgresStorage.getTransactionsByMonth UTC [Scenario.rowDated 275760 9 13] 275760 9 = []
  /\ filter (inMonth 275760 9) [Scenario.rowDated 275760 9 13]
     = [Scenario.rowDated 275760 9 13].
Proof. split; [|split; [|split]]; vm_compute; reflexivity. Qed.

(** *** Stored dates are calendar dates *)

Variable tz : TimeZone.
Variable pdfParse : string -> option string.

Lemma in_values_set (m : JsMap.t Z Tx) k v (t : Tx) :
  In t (JsMap.values (JsMap.set Z.eqb k v m)) -> t = v \/ In t (JsMap.values m).
Proof.
  unfold JsMap.values. intros Hin. apply in_map_iff in Hin as [[k' v'] [<- Hin]].
  apply (JsMapFacts.in_set Z.eqb Z.eqb_eq) in Hin as [[_ ->]|[[_ Hin]|[_ Hin]]];
    [now left| |]; right; apply in_map_iff; exists (k', v'); auto.
Qed.

Lemma in_values_delete (m : JsMap.t Z Tx) k (t : Tx) :
  In t (JsMap.values (JsMap.delete Z.eqb k m)) -> In t (JsMap.values m).
Proof.
  unfold JsMap.values. induction m as [|[k0 v0] r IH]; simpl; [auto|].
  destruct (k =? k0); simpl; intuition.
Qed.

Lemma dates_valid_new : dates_valid (MemStorage.new (numstr := numstr)).
Proof. intros t []. Qed.

Lemma createTransaction_dates_valid now (st : store) u ins :
  dates_valid st -> dates_valid (snd (MemStorage.createTransaction now st u ins)).
Proof.
  intros Hst t Hin. unfold MemStorage.createTransaction in Hin. simpl in Hin.
  apply in_values_set in Hin as [->|Hin]; [apply toISODate_valid|now apply Hst].
Qed.

Lemma updateTransaction_dates_valid (st : store) id upd :
  dates_valid st -> dates_valid (snd (MemStorage.updateTransaction st id upd)).
Proof.
  intros Hst. unfold MemStorage.updateTransaction.
  destruct (JsMap.get Z.eqb id (MemStorage.transactions st)) as [old|] eqn:Eg; [|exact Hst].
  intros t Hin. simpl in Hin. apply in_values_set in Hin as [->|Hin]; [|now apply Hst].
  simpl. destruct (PartialInsertTransaction.date upd); simpl; [apply toISODate_valid|].
  apply Hst. apply (JsMapFacts.get_Some_in Z.eqb Z.eqb_eq) in Eg.
  change old with (snd (id, old)). now apply in_map.
Qed.

Lemma deleteTransaction_dates_valid (st : store) id :
  dates_valid st -> dates_valid (snd (MemStorage.deleteTransaction st id)).
Proof.
  intros Hst t Hin. unfold MemStorage.deleteTransaction in Hin. simpl in Hin.
  apply Hst. now apply in_values_delete in Hin.
Qed.

Lemma generateMonthlySummary_dates_valid now (st : store) u y m :
  dates_valid st -> dates_valid (snd (generateMonthlySummary tz now st u y m)).
Proof.
  intros Hst t. rewrite HandlerFacts.generateMonthlySummary_transactions. apply Hst.
Qed.

Lemma saveAll_dates_valid now u (l : list (InsertTransaction.t num)) :
  forall st : store, dates_valid st -> dates_valid (snd (saveAll now st u l)).
Proof.
  induction l as [|x l IH]; intros st Hst; [exact Hst|].
  cbn [saveAll]. destruct (insertTransactionSchema_parse _) as [data|]; [|exact Hst].
  pose proof (@createTransaction_dates_valid now st u data Hst) as H1.
  destruct (MemStorage.createTransaction now st u data) as [saved st1]. simpl in H1.
  specialize (IH st1 H1). destruct (saveAll now st1 u l) as [[rest|] st2]; exact IH.
Qed.

Lemma handle_dates_valid now (st : store) (req : Request (num := num)) :
  dates_valid st -> dates_valid (snd (handle tz pdfParse now st req)).
Proof.
  intros Hst. destruct req as [body|id body|id|pdfContent|y m|y m]; simpl.
  - unfold post_transactions.
    destruct (option_map insertTransactionSchema_parse body) as [[data|]|]; try exact Hst.
    pose proof (@createTransaction_dates_valid now st 1 data Hst) as H1.
    destruct (MemStorage.createTransaction now st 1 data) as [t st1]. simpl in H1.
    pose proof (@generateMonthlySummary_dates_valid now st1 1 (summaryYear tz (Transaction.date t))
                  (summaryMonth tz (Transaction.date t)) H1) as H2.
    destruct (generateMonthlySummary tz now st1 1 _ _). exact H2.
  - unfold put_transactions.
    destruct id as [id|]; [|exact Hst].
    destruct (MemStorage.getTransactionById st id) as [t|]; [|exact Hst].
    destruct (option_map partialSchema_parse body) as [[data|]|]; try exact Hst.
    pose proof (@updateTransaction_dates_valid st id data Hst) as H1.
    destruct (MemStorage.updateTransaction st id data) as [upd st1]. simpl in H1.
    match goal with
    | |- context [generateMonthlySummary tz now st1 ?u ?y ?m] =>
        pose proof (@generateMonthlySummary_dates_valid now st1 u y m H1) as H2;
          destruct (generateMonthlySummary tz now st1 u y m)
    end. exact H2.
  - unfold delete_transactions.
    destruct id as [id|]; [|exact Hst].
    destruct (MemStorage.getTransactionById st id) as [t|]; [|exact Hst].
    pose proof (@deleteTransaction_dates_valid st id Hst) as H1.
    destruct (MemStorage.deleteTransaction st id) as [[|] st1]; simpl in H1; [|exact H1].
    match goal with
    | |- context [generateMonthlySummary tz now st1 ?u ?y ?m] =>
        pose proof (@generateMonthlySummary_dates_valid now st1 u y m H1) as H2;
          destruct (generateMonthlySummary tz now st1 u y m)
    end. exact H2.
  - unfold post_upload_statement.
    destruct (MemStorage.orNull pdfContent) as [content|]; [|exact Hst].
    destruct (pdfParse content) as [text|]; [|exact Hst].
    destruct (Nat.eqb _ 0); [exact Hst|].
    pose proof (@saveAll_dates_valid now 1 (extractTransactions now text) st Hst) as H1.
    destruct (saveAll now st 1 (extractTransactions now text)) as [[[|first saved]|] st1];
      simpl in H1; try exact H1.
    match goal with
    | |- context [generateMonthlySummary tz now st1 ?u ?y ?m] =>
        pose proof (@generateMonthlySummary_dates_valid now st1 u y m H1) as H2;
          destruct (generateMonthlySummary tz now st1 u y m)
    end. exact H2.
  - unfold get_transactions_month. destruct (validMonth y m) as [[? ?]|]; exact Hst.
  - unfold get_summaries_month. destruct (validMonth y m) as [[? ?]|]; [|exact Hst].
    destruct (MemStorage.getMonthlySummaryByMonth st 1 _ _); exact Hst.
Qed.

Lemma run_dates_valid (reqs : list (Z * Request (num := num))) :
  forall st : store, dates_valid st -> dates_valid (run tz pdfParse st reqs).
Proof.
  induction reqs as [|[now req] reqs IH]; intros st Hst; [exact Hst|].
  apply IH. now apply handle_dates_valid.
Qed.

(** In a zone that is not behind UTC, whatever requests the server has
    served, the volatile store's month filter returns exactly the user's
    stored transactions dated in the month. *)
Theorem served_month_filter_not_behind_utc (reqs : list (Z * Request (num := num))) (u y m : Z) :
  not_behind_utc tz ->
  let st := run tz pdfParse MemStorage.new reqs in
  MemStorage.getTransactionsByMonth tz st u y m
  = filter (fun t => (Transaction.userId t =? u) && inMonth y m t)
           (JsMap.values (MemStorage.transactions st)).
Proof.
  intros Htz st. apply getTransactionsByMonth_not_behind_utc; [exact Htz|].
  apply run_dates_valid, dates_valid_new.
Qed.

End Filters.

End MonthFilterFacts.

(** C6, at the failing input. Three expenses are posted: 1e308 and 1e308
    (Food) and 5 (Housing). The total expenses overflow to Infinity, which
    is strictly positive; the stored percentages are 0 (Housing, 5 over
    Infinity) and NaN (Food, Infinity over Infinity), so they do not add up
    to 100, within any tolerance, and the amounts 5 and Infinity are all
    that is left of the three expenses. *)
Lemma binary64_percentages_overflow :
  map (@MonthlySummary.totalExpenses string)
      (JsMap.values (MemStorage.monthlySummaries Scenario.overflow)) = ["Infinity"%string]
  /\ map (fun b => (CategoryBreakdown.category b, CategoryBreakdown.amount b,
                    CategoryBreakdown.percentage b))
         (JsMap.values (MemStorage.categoryBreakdowns Scenario.overflow))
     = [("Housing", "5", "0"); ("Food", "Infinity", "NaN")]%string
  /\ numToString
       (sum (map (fun b => toNumber (CategoryBreakdown.percentage b))
                 (JsMap.values (MemStorage.categoryBreakdowns Scenario.overflow))))
     = "NaN"%string.
Proof. split; [|split]; vm_compute; reflexivity. Qed.

(** Short of overflow the sums agree up to rounding only: for expenses of
    0.1 (Food), 0.1 (Housing) and 0.6 (Food) the total is
    (0.1 + 0.1) + 0.6 = 0.8 while the breakdowns are 0.1 and
    0.1 + 0.6 = 0.7, and the percentages 12.5 and 87.49999999999999. *)
Lemma binary64_cents_stored :
  map (@MonthlySummary.totalExpenses string)
      (JsMap.values (MemStorage.monthlySummaries Scenario.cents)) = ["0.8"%string]
  /\ map (fun b => (CategoryBreakdown.category b, CategoryBreakdown.amount b,
                    CategoryBreakdown.percentage b))
         (JsMap.values (MemStorage.categoryBreakdowns Scenario.cents))
     = [("Housing", "0.1", "12.5"); ("Food", "0.7", "87.49999999999999")]%string.
Proof. split; vm_compute; reflexivity. Qed.

(** C4, at the failing inputs. In a process five hours west of Greenwich
    the volatile store's query for March 2024 returns the transaction dated
    2024-04-01, and its query for April 2024 does not; the relational
    store's filter, asked for March of the year 50, returns a row dated
    1950-03-10 (in any zone; here UTC). *)
Lemma month_filter_failures :
  map (@Transaction.date string)
      (MemStorage.getTransactionsByMonth Scenario.west Scenario.aprilFirst 1 2024 3)
  = [{| JsDate.year := 2024; JsDate.month := 4; JsDate.day := 1 |}]
  /\ MemStorage.getTransactionsByMonth Scenario.west Scenario.aprilFirst 1 2024 4 = []
  /\ PostgresStorage.getTransactionsByMonth JsDate.UTC [Scenario.row1950] 50 3
     = [Scenario.row1950]
  /\ inMonth 50 3 Scenario.row1950 = false.
Proof. repeat split; vm_compute; reflexivity. Qed.

(** The relational store's filter away from UTC. Its bounds are local
    midnights, the rows' dates UTC midnights: two hours east of Greenwich
    the query for March 2024 misses the row dated 2024-03-31, five hours
    west the row dated 2024-03-01; in a UTC process both are returned, and
    the row dated 2024-04-01 is not. *)
Lemma relational_filter_off_utc :
  PostgresStorage.getTransactionsByMonth Scenario.east
    [Scenario.rowDated 2024 3 31] 2024 3 = []
  /\ PostgresStorage.getTransactionsByMonth Scenario.west
       [Scenario.rowDated 2024 3 1] 2024 3 = []
  /\ PostgresStorage.getTransactionsByMonth JsDate.UTC
       [Scenario.rowDated 2024 3 1; Scenario.rowDated 2024 3 31; Scenario.rowDated 2024 4 1]
       2024 3
     = [Scenario.rowDated 2024 3 1; Scenario.rowDated 2024 3 31].
Proof. repeat split; vm_compute; reflexivity. Qed.

(* ================================================================== *)
(** * Further properties of the code                                    *)
(* ================================================================== *)

(** ** Further facts about [JsMap] *)

Module MapLookupFacts.
Section Facts.
Variables K V : Type.
Variable keqb : K -> K -> bool.
Hypothesis keqb_eq : forall a b, keqb a b = true <-> a = b.

Local Abbreviation get := (JsMap.get keqb).
Local Abbreviation set := (JsMap.set keqb).
Local Abbreviation delete := (JsMap.delete keqb).

Lemma get_delete_other k k' (m : JsMap.t K V) :
  k' <> k -> get k' (delete k m) = get k' m.
Proof.
  intros Hne. induction m as [|[k0 v0] r IH]; simpl; [reflexivity|].
  destruct (keqb k k0) eqn:E; simpl.
  - apply keqb_eq in E. subst k0.
    destruct (keqb k' k) eqn:E'; [apply keqb_eq in E'; contradiction|reflexivity].
  - destruct (keqb k' k0); [reflexivity|exact IH].
Qed.

Lemma get_delete_absent k k' (m : JsMap.t K V) :
  get k' m = None -> get k' (delete k m) = None.
Proof.
  induction m as [|[k0 v0] r IH]; simpl; [reflexivity|].
  destruct (keqb k' k0) eqn:E'; [discriminate|]. intros Hr.
  destruct (keqb k k0); simpl; [exact Hr|]. rewrite E'. now apply IH.
Qed.

Lemma delete_absent k (m : JsMap.t K V) : get k m = None -> delete k m = m.
Proof.
  induction m as [|[k0 v0] r IH]; simpl; [reflexivity|].
  destruct (keqb k k0); [discriminate|]. intros Hr. now rewrite IH.
Qed.

(** [set] on a key that is present replaces the value in place. *)
Lemma set_present_map (W : Type) (f : V -> W) k v e (m : JsMap.t K V) :
  get k m = Some e -> f v = f e ->
  map f (JsMap.values (set k v m)) = map f (JsMap.values m).
Proof.
  intros Hg Hf. induction m as [|[k0 v0] r IH]; simpl in *; [discriminate|].
  destruct (keqb k k0); simpl.
  - injection Hg as ->. now rewrite Hf.
  - f_equal. now apply IH.
Qed.

Lemma set_same k e (m : JsMap.t K V) : get k m = Some e -> set k e m = m.
Proof.
  induction m as [|[k0 v0] r IH]; simpl; [discriminate|].
  destruct (keqb k k0) eqn:E.
  - intros [= ->]. apply keqb_eq in E. now subst.
  - intros Hr. now rewrite IH.
Qed.

Lemma values_set_inv k v x (m : JsMap.t K V) :
  In x (JsMap.values (set k v m)) -> x = v \/ In x (JsMap.values m).
Proof.
  unfold JsMap.values. induction m as [|[k0 v0] r IH]; simpl.
  - intros [<-|[]]. now left.
  - destruct (keqb k k0); simpl.
    + intros [<-|Hin]; auto.
    + intros [<-|Hin]; auto. destruct (IH Hin); auto.
Qed.

Lemma values_delete_inv k x (m : JsMap.t K V) :
  In x (JsMap.values (delete k m)) -> In x (JsMap.values m).
Proof.
  unfold JsMap.values. induction m as [|[k0 v0] r IH]; simpl; [auto|].
  destruct (keqb k k0); simpl; intuition.
Qed.

(** Whatever [set] keeps of the old values, and the new one. *)
Lemma values_set_keeps k v x (m : JsMap.t K V) :
  In x (JsMap.values m) -> get k m <> Some x -> In x (JsMap.values (set k v m)).
Proof.
  unfold JsMap.values. induction m as [|[k0 v0] r IH]; simpl; [intros []|].
  destruct (keqb k k0) eqn:E; simpl.
  - intros [<-|Hin] Hne; [congruence|auto].
  - intros [<-|Hin] Hne; auto.
Qed.

Lemma in_values_set_new k v (m : JsMap.t K V) : In v (JsMap.values (set k v m)).
Proof.
  unfold JsMap.values. induction m as [|[k0 v0] r IH]; simpl; [auto|].
  destruct (keqb k k0); simpl; auto.
Qed.

(** [set] of a value that a search does not accept, over nothing that it
    accepts, does not change what the search finds. *)
Lemma find_set_frame (p : V -> bool) k v (m : JsMap.t K V) :
  p v = false ->
  (forall e, get k m = Some e -> p e = false) ->
  find p (JsMap.values (set k v m)) = find p (JsMap.values m).
Proof.
  intros Hv. unfold JsMap.values. induction m as [|[k0 v0] r IH]; simpl; intros He.
  - now rewrite Hv.
  - destruct (keqb k k0) eqn:E; simpl.
    + rewrite Hv. now rewrite (He v0 eq_refl).
    + destruct (p v0); [reflexivity|]. now apply IH.
Qed.



End Facts.
End MapLookupFacts.

Lemma map_filter_fst (A B : Type) (p : B -> bool) (f : A -> B) (g : A -> Z) (l1 l2 : list A) :
  map (fun x => (f x, g x)) l1 = map (fun x => (f x, g x)) l2 ->
  map g (filter (fun x => p (f x)) l1) = map g (filter (fun x => p (f x)) l2).
Proof.
  revert l2. induction l1 as [|a l1 IH]; intros [|b l2]; simpl; try discriminate; auto.
  intros [= Hf Hg Hr]. rewrite Hf. destruct (p (f b)); simpl; [rewrite Hg; f_equal|]; auto.
Qed.

Lemma NoDup_snoc (A : Type) (l : list A) (x : A) :
  NoDup l -> ~ In x l -> NoDup (l ++ [x]).
Proof.
  induction l as [|a l IH]; simpl; intros Hnd Hni.
  - constructor; [intros []|constructor].
  - inversion Hnd as [|? ? Ha Hl]; subst. constructor.
    + rewrite in_app_iff. simpl. intuition.
    + apply IH; intuition.
Qed.

(** ** What every handler keeps *)

Module InvariantFacts.
Import StoreInv StoreInvFacts MemStorageFacts EngineFacts HandlerFacts.

Section Facts.
Context {num numstr : Type} `{JsNum num numstr}.
Variable tz : TimeZone.
Variable pdfParse : string -> option string.

Local Abbreviation store := (MemStorage.t numstr).
Local Abbreviation Tx := (Transaction.t numstr).

Lemma insertTransactionSchema_parse_Some (x d : InsertTransaction.t num) :
  insertTransactionSchema_parse x = Some d ->
  d = x
  /\ isNaN (InsertTransaction.amount x) = false
  /\ In (InsertTransaction.category x) categories
  /\ (InsertTransaction.type x = "income"%string
      \/ InsertTransaction.type x = "expense"%string).
Proof.
  unfold insertTransactionSchema_parse.
  destruct (negb (isNaN (InsertTransaction.amount x))) eqn:En; cbn [andb]; [|discriminate].
  destruct (existsb (String.eqb (InsertTransaction.category x)) categories) eqn:Ec;
    cbn [andb]; [|discriminate].
  destruct (existsb (String.eqb (InsertTransaction.type x)) ["income"; "expense"]%string)
    eqn:Et; [|discriminate].
  intros Hd. injection Hd as Hd. subst d. split; [reflexivity|].
  split; [now apply negb_true_iff|]. split.
  - apply existsb_exists in Ec as (c & Hin & Hc). apply String.eqb_eq in Hc. now subst.
  - apply existsb_exists in Et as (c & Hin & Hc). apply String.eqb_eq in Hc.
    destruct Hin as [<-|[<-|[]]]; auto.
Qed.

Lemma partialSchema_parse_Some (x d : PartialInsertTransaction.t num) :
  partialSchema_parse x = Some d ->
  d = x
  /\ (forall c, PartialInsertTransaction.category x = Some c -> In c categories)
  /\ (forall ty, PartialInsertTransaction.type x = Some ty ->
                 ty = "income"%string \/ ty = "expense"%string).
Proof.
  unfold partialSchema_parse.
  destruct (absentOr (fun a => negb (isNaN a)) (PartialInsertTransaction.amount x));
    cbn [andb]; [|discriminate].
  destruct (absentOr (fun c => existsb (String.eqb c) categories)
                     (PartialInsertTransaction.category x)) eqn:Ec; cbn [andb];
    [|discriminate].
  destruct (absentOr (fun c => existsb (String.eqb c) ["income"; "expense"]%string)
                     (PartialInsertTransaction.type x)) eqn:Et; [|discriminate].
  intros Hd. injection Hd as Hd. subst d. split; [reflexivity|]. split.
  - intros c Hc. rewrite Hc in Ec. cbn [absentOr] in Ec.
    apply existsb_exists in Ec as (c' & Hin & Hc'). apply String.eqb_eq in Hc'. now subst.
  - intros ty Hty. rewrite Hty in Et. cbn [absentOr] in Et.
    apply existsb_exists in Et as (c' & Hin & Hc'). apply String.eqb_eq in Hc'.
    destruct Hin as [<-|[<-|[]]]; auto.
Qed.

(** *** A property of the store that the storage calls of the handlers
    keep is kept by every handler *)

Section Lifting.
Variable P : store -> Prop.
(** the users on whose behalf the handlers recompute *)
Variable Q : Z -> Prop.
Hypothesis Q_demo : Q 1.
Hypothesis Q_owner :
  forall (st : store) (t : Tx), P st -> In t (JsMap.values (MemStorage.transactions st)) ->
                                Q (Transaction.userId t).
Hypothesis P_create :
  forall now (st : store) data,
    insertTransactionSchema_parse data = Some data ->
    P st -> P (snd (MemStorage.createTransaction now st 1 data)).
Hypothesis P_update :
  forall (st : store) id data,
    partialSchema_parse data = Some data ->
    P st -> P (snd (MemStorage.updateTransaction st id data)).
Hypothesis P_delete :
  forall (st : store) id, P st -> P (snd (MemStorage.deleteTransaction st id)).
(** the month recomputed is the month of a date string *)
Hypothesis P_recompute :
  forall now (st : store) u d,
    Q u -> P st ->
    P (snd (generateMonthlySummary tz now st u (summaryYear tz d) (summaryMonth tz d))).

Lemma saveAll_lift now (l : list (InsertTransaction.t num)) :
  forall st : store, P st -> P (snd (saveAll now st 1 l)).
Proof.
  induction l as [|x l IH]; intros st Hst; [exact Hst|].
  cbn [saveAll]. destruct (insertTransactionSchema_parse _) as [data|] eqn:Ep; [|exact Hst].
  assert (Hd : insertTransactionSchema_parse data = Some data).
  { destruct (insertTransactionSchema_parse_Some _ Ep) as [-> _]. exact Ep. }
  pose proof (@P_create now st data Hd Hst) as H1.
  destruct (MemStorage.createTransaction now st 1 data) as [saved st1]. simpl in H1.
  specialize (IH st1 H1). destruct (saveAll now st1 1 l) as [[rest|] st2]; exact IH.
Qed.

Lemma handle_lift now (st : store) (req : Request (num := num)) :
  P st -> P (snd (handle tz pdfParse now st req)).
Proof.
  intros Hst. destruct req as [body|id body|id|pdfContent|y m|y m]; simpl.
  - unfold post_transactions. destruct body as [body|]; cbn [option_map]; [|exact Hst].
    destruct (insertTransactionSchema_parse body) as [data|] eqn:Ep; [|exact Hst].
    assert (Hd : insertTransactionSchema_parse data = Some data).
    { destruct (insertTransactionSchema_parse_Some _ Ep) as [-> _]. exact Ep. }
    pose proof (@P_create now st data Hd Hst) as H1.
    destruct (MemStorage.createTransaction now st 1 data) as [t st1]. simpl in H1.
    pose proof (@P_recompute now st1 1 (Transaction.date t) Q_demo H1) as H2.
    destruct (generateMonthlySummary tz now st1 1 _ _). exact H2.
  - unfold put_transactions.
    destruct id as [id|]; [|exact Hst].
    destruct (MemStorage.getTransactionById st id) as [t|] eqn:Eg; [|exact Hst].
    destruct body as [body|]; cbn [option_map]; [|exact Hst].
    destruct (partialSchema_parse body) as [data|] eqn:Ep; [|exact Hst].
    assert (Hd : partialSchema_parse data = Some data).
    { destruct (partialSchema_parse_Some _ Ep) as [-> _]. exact Ep. }
    pose proof (@P_update st id data Hd Hst) as H1.
    assert (Hq : Q (Transaction.userId t)).
    { apply (@Q_owner st t Hst). now apply get_in_values with (k := id). }
    destruct (MemStorage.updateTransaction st id data) as [upd st1]. simpl in H1.
    match goal with
    | |- context [generateMonthlySummary tz now st1 ?u (summaryYear tz ?d) ?m] =>
        pose proof (@P_recompute now st1 u d Hq H1) as H2;
          destruct (generateMonthlySummary tz now st1 u (summaryYear tz d) m)
    end. exact H2.
  - unfold delete_transactions.
    destruct id as [id|]; [|exact Hst].
    destruct (MemStorage.getTransactionById st id) as [t|] eqn:Eg; [|exact Hst].
    pose proof (@P_delete st id Hst) as H1.
    assert (Hq : Q (Transaction.userId t)).
    { apply (@Q_owner st t Hst). now apply get_in_values with (k := id). }
    destruct (MemStorage.deleteTransaction st id) as [[|] st1]; simpl in H1; [|exact H1].
    match goal with
    | |- context [generateMonthlySummary tz now st1 ?u (summaryYear tz ?d) ?m] =>
        pose proof (@P_recompute now st1 u d Hq H1) as H2;
          destruct (generateMonthlySummary tz now st1 u (summaryYear tz d) m)
    end. exact H2.
  - unfold post_upload_statement.
    destruct (MemStorage.orNull pdfContent) as [content|]; [|exact Hst].
    destruct (pdfParse content) as [text|]; [|exact Hst].
    destruct (Nat.eqb _ 0); [exact Hst|].
    pose proof (@saveAll_lift now (extractTransactions now text) st Hst) as H1.
    destruct (saveAll now st 1 (extractTransactions now text)) as [[[|first saved]|] st1];
      simpl in H1; try exact H1.
    match goal with
    | |- context [generateMonthlySummary tz now st1 ?u (summaryYear tz ?d) ?m] =>
        pose proof (@P_recompute now st1 u d Q_demo H1) as H2;
          destruct (generateMonthlySummary tz now st1 u (summaryYear tz d) m)
    end. exact H2.
  - unfold get_transactions_month. destruct (validMonth y m) as [[? ?]|]; exact Hst.
  - unfold get_summaries_month. destruct (validMonth y m) as [[? ?]|]; [|exact Hst].
    destruct (MemStorage.getMonthlySummaryByMonth st 1 _ _); exact Hst.
Qed.

Lemma run_lift (reqs : list (Z * Request (num := num))) :
  forall st : store, P st -> P (run tz pdfParse st reqs).
Proof.
  induction reqs as [|[now req] reqs IH]; intros st Hst; [exact Hst|].
  apply IH. now apply handle_lift.
Qed.

End Lifting.

(** *** The schema of stored transactions *)

Lemma createTransaction_schema_valid now (st : store) u data :
  insertTransactionSchema_parse data = Some data ->
  schema_valid st -> schema_valid (snd (MemStorage.createTransaction now st u data)).
Proof.
  intros Hp Hst t Hin. unfold MemStorage.createTransaction in Hin. simpl in Hin.
  apply MapLookupFacts.values_set_inv in Hin as [->|Hin]; [|now apply Hst].
  simpl. destruct (insertTransactionSchema_parse_Some _ Hp) as (_ & _ & Hc & Ht). auto.
Qed.

Lemma updateTransaction_schema_valid (st : store) id data :
  partialSchema_parse data = Some data ->
  schema_valid st -> schema_valid (snd (MemStorage.updateTransaction st id data)).
Proof.
  intros Hp Hst. unfold MemStorage.updateTransaction.
  destruct (JsMap.get Z.eqb id (MemStorage.transactions st)) as [old|] eqn:Eg; [|exact Hst].
  intros t Hin. simpl in Hin.
  apply MapLookupFacts.values_set_inv in Hin as [->|Hin]; [|now apply Hst].
  destruct (partialSchema_parse_Some _ Hp) as (_ & Hc & Ht).
  destruct (Hst old (get_in_values _ _ Eg)) as [Hc0 Ht0]. simpl. split.
  - destruct (PartialInsertTransaction.category data) as [c|]; simpl;
      [exact (Hc c eq_refl)|exact Hc0].
  - destruct (PartialInsertTransaction.type data) as [ty|]; simpl;
      [exact (Ht ty eq_refl)|exact Ht0].
Qed.

Lemma deleteTransaction_schema_valid (st : store) id :
  schema_valid st -> schema_valid (snd (MemStorage.deleteTransaction st id)).
Proof.
  intros Hst t Hin. unfold MemStorage.deleteTransaction in Hin. simpl in Hin.
  apply Hst. now apply MapLookupFacts.values_delete_inv in Hin.
Qed.

Lemma generateMonthlySummary_schema_valid now (st : store) u y m :
  schema_valid st -> schema_valid (snd (generateMonthlySummary tz now st u y m)).
Proof.
  intros Hst t. rewrite generateMonthlySummary_transactions. apply Hst.
Qed.

Lemma run_schema_valid (reqs : list (Z * Request (num := num))) (st : store) :
  schema_valid st -> schema_valid (run tz pdfParse st reqs).
Proof.
  apply (@run_lift (@schema_valid numstr) (fun _ => True)); auto.
  - intros. now apply createTransaction_schema_valid.
  - intros. now apply updateTransaction_schema_valid.
  - intros. now apply deleteTransaction_schema_valid.
  - intros. now apply generateMonthlySummary_schema_valid.
Qed.

(** *** What a recompute does to the table of summaries *)

Lemma createOrUpdateMonthlySummary_table now (st : store) u data :
  let r := MemStorage.createOrUpdateMonthlySummary now st u data in
  MemStorage.monthlySummaries (snd r)
  = JsMap.set Z.eqb (MonthlySummary.id (fst r)) (fst r) (MemStorage.monthlySummaries st)
  /\ MonthlySummary.year (fst r) = InsertMonthlySummary.year data
  /\ MonthlySummary.month (fst r) = InsertMonthlySummary.month data
  /\ match MemStorage.getMonthlySummaryByMonth st u (InsertMonthlySummary.year data)
             (InsertMonthlySummary.month data) with
     | Some e => MonthlySummary.id (fst r) = MonthlySummary.id e
                 /\ MonthlySummary.userId (fst r) = MonthlySummary.userId e
     | None => MonthlySummary.id (fst r) = MemStorage.summaryId st
               /\ MonthlySummary.userId (fst r) = u
     end.
Proof.
  cbv zeta. unfold MemStorage.createOrUpdateMonthlySummary.
  destruct (MemStorage.getMonthlySummaryByMonth st u _ _); simpl; auto.
Qed.

(** The table of summaries after a recompute: as it was, or with the
    month's summary [s] set under its identifier. *)
Lemma generateMonthlySummary_table now (st : store) u y m :
  let st' := snd (generateMonthlySummary tz now st u y m) in
  MemStorage.monthlySummaries st' = MemStorage.monthlySummaries st
  \/ exists s,
       MemStorage.monthlySummaries st'
       = JsMap.set Z.eqb (MonthlySummary.id s) s (MemStorage.monthlySummaries st)
       /\ MonthlySummary.year s = y /\ MonthlySummary.month s = m
       /\ match MemStorage.getMonthlySummaryByMonth st u y m with
          | Some e => MonthlySummary.id s = MonthlySummary.id e
                      /\ MonthlySummary.userId s = MonthlySummary.userId e
          | None => MonthlySummary.id s = MemStorage.summaryId st
                    /\ MonthlySummary.userId s = u
          end.
Proof.
  cbv zeta. unfold generateMonthlySummary.
  destruct (Nat.eqb _ 0); [now left|]. right.
  pose proof (createOrUpdateMonthlySummary_table now st u
                (summaryDataOf y m (MemStorage.getTransactionsByMonth tz st u y m))) as Ht.
  cbv zeta in Ht.
  destruct (MemStorage.createOrUpdateMonthlySummary now st u _) as [s st1].
  simpl in Ht. destruct Ht as (Hm & Hy & Hmo & He).
  destruct (MemStorage.updateCategoryBreakdowns st1 _ _) as [rs st2] eqn:E2.
  assert (H2 : MemStorage.monthlySummaries st2 = MemStorage.monthlySummaries st1).
  { change st2 with (snd (rs, st2)). rewrite <- E2.
    unfold MemStorage.updateCategoryBreakdowns.
    clear. set (st0 := MemStorage.withBreakdowns st1 _ _).
    change (MemStorage.monthlySummaries st1) with (MemStorage.monthlySummaries st0).
    generalize st0. clear.
    induction (breakdownsOf (MemStorage.getTransactionsByMonth tz st u y m)) as [|b bs IH];
      intros st0; [reflexivity|].
    cbn [MemStorage.createAll MemStorage.createCategoryBreakdown].
    specialize (IH (MemStorage.withBreakdowns st0
                      (JsMap.set Z.eqb (MemStorage.breakdownId st0)
                         {| CategoryBreakdown.id := MemStorage.breakdownId st0;
                            CategoryBreakdown.summaryId := MonthlySummary.id s;
                            CategoryBreakdown.category := InsertCategoryBreakdown.category b;
                            CategoryBreakdown.amount :=
                              numToString (InsertCategoryBreakdown.amount b);
                            CategoryBreakdown.percentage :=
                              numToString (InsertCategoryBreakdown.percentage b) |}
                         (MemStorage.categoryBreakdowns st0))
                      (MemStorage.breakdownId st0 + 1))).
    destruct (MemStorage.createAll _ (MonthlySummary.id s) bs) as [rs' st']. exact IH. }
  exists s. simpl. rewrite H2. auto.
Qed.

Lemma getMonthlySummaryByMonth_Some (st : store) u y m e :
  MemStorage.getMonthlySummaryByMonth st u y m = Some e ->
  In e (JsMap.values (MemStorage.monthlySummaries st)) /\ summaryKey e = (u, y, m).
Proof.
  intros Hf. apply find_some in Hf as [Hin Hp]. split; [exact Hin|].
  apply andb_true_iff in Hp as [Hp Hm]. apply andb_true_iff in Hp as [Hu Hy].
  apply Z.eqb_eq in Hu, Hy, Hm. unfold summaryKey. congruence.
Qed.

Lemma getMonthlySummaryByMonth_None (st : store) u y m :
  MemStorage.getMonthlySummaryByMonth st u y m = None ->
  ~ In (u, y, m) (map summaryKey (JsMap.values (MemStorage.monthlySummaries st))).
Proof.
  intros Hf Hin. apply in_map_iff in Hin as (s & Hk & Hin).
  apply (find_none _ _ Hf) in Hin. unfold summaryKey in Hk. injection Hk as Hu Hy Hm.
  rewrite Hu, Hy, Hm, !Z.eqb_refl in Hin. discriminate.
Qed.

Lemma summary_stored (st : store) e :
  Wf st -> In e (JsMap.values (MemStorage.monthlySummaries st)) ->
  JsMap.get Z.eqb (MonthlySummary.id e) (MemStorage.monthlySummaries st) = Some e.
Proof.
  intros (_ & Hs & _) Hin. eapply Ok_in_get; [exact Hs|].
  eapply Ok_value_key in Hin; [exact Hin|exact Hs].
Qed.

(** *** One summary for each month of a user *)

Lemma generateMonthlySummary_unique now (st : store) u y m :
  Wf st -> summaries_unique st ->
  summaries_unique (snd (generateMonthlySummary tz now st u y m)).
Proof.
  intros Hwf Hst. unfold summaries_unique in *.
  destruct (generateMonthlySummary_table now st u y m) as [->|(s & -> & Hy & Hm & He)];
    [exact Hst|].
  destruct (MemStorage.getMonthlySummaryByMonth st u y m) as [e|] eqn:Ef.
  - destruct He as [Hid Hu]. destruct (getMonthlySummaryByMonth_Some _ _ _ _ Ef) as [Hin Hk].
    rewrite Hid.
    rewrite (@MapLookupFacts.set_present_map _ _ Z.eqb _ summaryKey _ s e); auto.
    + now apply summary_stored.
    + rewrite Hk. unfold summaryKey. rewrite Hy, Hm, Hu.
      unfold summaryKey in Hk. congruence.
  - destruct He as [Hid Hu]. rewrite Hid.
    rewrite (JsMapFacts.set_new Z.eqb Z.eqb_eq).
    + unfold JsMap.values. rewrite map_app, map_app. simpl.
      apply NoDup_snoc; [exact Hst|].
      unfold summaryKey at 1. rewrite Hu, Hy, Hm.
      now apply getMonthlySummaryByMonth_None.
    + destruct Hwf as (_ & Hs & _). eapply Ok_key_fresh; [exact Hs|lia].
Qed.

Lemma run_unique (reqs : list (Z * Request (num := num))) (st : store) :
  Wf st -> summaries_unique st ->
  summaries_unique (run tz pdfParse st reqs).
Proof.
  intros Hwf Hu.
  apply (@run_lift (fun st => Wf st /\ summaries_unique st) (fun _ => True)); auto.
  - intros now0 st0 data _ [Hw Hq]. split; [now apply createTransaction_Wf|exact Hq].
  - intros st0 id data _ [Hw Hq]. split; [now apply updateTransaction_Wf|].
    unfold summaries_unique, MemStorage.updateTransaction in *.
    destruct (JsMap.get _ _ _); exact Hq.
  - intros st0 id [Hw Hq]. split; [now apply deleteTransaction_Wf|exact Hq].
  - intros now0 st0 u d _ [Hw Hq].
    split; [now apply generateMonthlySummary_Wf|now apply generateMonthlySummary_unique].
Qed.

(** *** Every breakdown has its summary *)

Lemma generateMonthlySummary_owned now (st : store) u y m :
  Wf st -> breakdowns_owned st ->
  breakdowns_owned (snd (generateMonthlySummary tz now st u y m)).
Proof.
  intros Hwf Hst.
  destruct (MemStorage.getTransactionsByMonth tz st u y m) as [|t0 txs] eqn:Et.
  - now rewrite (generateMonthlySummary_empty _ now _ _ _ _ Et).
  - assert (Hne : MemStorage.getTransactionsByMonth tz st u y m <> [])
      by (rewrite Et; discriminate).
    destruct (generateMonthlySummary_spec tz now u y m Hwf Hne)
      as (s & Hr & Hwf' & _ & _ & Hget & _ & _ & _ & _ & Hb & Hother).
    set (st' := snd (generateMonthlySummary tz now st u y m)) in *.
    destruct (getMonthlySummaryByMonth_Some _ _ _ _ Hget) as [Hs _].
    assert (Hkeep : forall s0, In s0 (JsMap.values (MemStorage.monthlySummaries st)) ->
                               exists s1, In s1 (JsMap.values (MemStorage.monthlySummaries st'))
                                          /\ MonthlySummary.id s1 = MonthlySummary.id s0).
    { intros s0 Hin0.
      destruct (generateMonthlySummary_table now st u y m) as [E|(s2 & E & _)];
        fold st' in E; rewrite E.
      - now exists s0.
      - destruct (Z.eq_dec (MonthlySummary.id s0) (MonthlySummary.id s2)) as [Eid|Hne2].
        + exists s2. split; [apply MapLookupFacts.in_values_set_new|auto].
        + exists s0. split; [|reflexivity].
          apply MapLookupFacts.values_set_keeps; [exact Hin0|].
          intros Hg. destruct Hwf as (_ & Hok & _).
          eapply Ok_get_id in Hg; [|exact Hok]. congruence. }
    intros b Hin.
    destruct (Z.eq_dec (CategoryBreakdown.summaryId b) (MonthlySummary.id s)) as [E|Hn].
    + exists s. auto.
    + assert (Hb' : In b (MemStorage.getCategoryBreakdowns st' (CategoryBreakdown.summaryId b))).
      { unfold MemStorage.getCategoryBreakdowns. apply filter_In. split; [exact Hin|].
        apply Z.eqb_refl. }
      rewrite (Hother _ Hn) in Hb'. unfold MemStorage.getCategoryBreakdowns in Hb'.
      apply filter_In in Hb' as [Hb' _]. destruct (Hst b Hb') as (s0 & Hin0 & Hid0).
      destruct (Hkeep s0 Hin0) as (s1 & Hin1 & Hid1). exists s1. split; [exact Hin1|congruence].
Qed.

Lemma run_owned (reqs : list (Z * Request (num := num))) (st : store) :
  Wf st -> breakdowns_owned st ->
  breakdowns_owned (run tz pdfParse st reqs).
Proof.
  intros Hwf Hu.
  apply (@run_lift (fun st => Wf st /\ breakdowns_owned st) (fun _ => True)); auto.
  - intros now0 st0 data _ [Hw Hq]. split; [now apply createTransaction_Wf|exact Hq].
  - intros st0 id data _ [Hw Hq]. split; [now apply updateTransaction_Wf|].
    unfold breakdowns_owned, MemStorage.updateTransaction in *.
    destruct (JsMap.get _ _ _); exact Hq.
  - intros st0 id [Hw Hq]. split; [now apply deleteTransaction_Wf|exact Hq].
  - intros now0 st0 u d _ [Hw Hq].
    split; [now apply generateMonthlySummary_Wf|now apply generateMonthlySummary_owned].
Qed.

(** *** One user *)

Lemma generateMonthlySummary_single_user now (st : store) y m :
  Wf st -> single_user st ->
  single_user (snd (generateMonthlySummary tz now st 1 y m)).
Proof.
  intros Hwf [Ht Hs]. split.
  - intros t. rewrite generateMonthlySummary_transactions. apply Ht.
  - intros s0.
    destruct (generateMonthlySummary_table now st 1 y m) as [->|(s & -> & _ & _ & He)];
      [apply Hs|].
    intros Hin. apply MapLookupFacts.values_set_inv in Hin as [->|Hin]; [|now apply Hs].
    destruct (MemStorage.getMonthlySummaryByMonth st 1 y m) as [e|] eqn:Ef.
    + destruct He as [_ ->]. apply Hs. now apply (getMonthlySummaryByMonth_Some _ _ _ _ Ef).
    + now destruct He.
Qed.

Lemma run_single_user (reqs : list (Z * Request (num := num))) (st : store) :
  Wf st -> single_user st -> single_user (run tz pdfParse st reqs).
Proof.
  intros Hwf Hu.
  apply (@run_lift (fun st => Wf st /\ single_user st) (fun u => u = 1)); auto.
  - intros st0 t [_ [Ht _]] Hin. now apply Ht.
  - intros now0 st0 data _ [Hw [Ht Hs]]. split; [now apply createTransaction_Wf|].
    split; [|exact Hs]. intros t Hin. unfold MemStorage.createTransaction in Hin.
    simpl in Hin. apply MapLookupFacts.values_set_inv in Hin as [->|Hin]; [reflexivity|auto].
  - intros st0 id data _ [Hw [Ht Hs]]. split; [now apply updateTransaction_Wf|].
    unfold single_user, MemStorage.updateTransaction.
    destruct (JsMap.get Z.eqb id (MemStorage.transactions st0)) as [old|] eqn:Eg;
      [|split; assumption].
    split; [|exact Hs]. intros t Hin. simpl in Hin.
    apply MapLookupFacts.values_set_inv in Hin as [->|Hin]; [|auto].
    simpl. apply Ht. now apply get_in_values with (k := id).
  - intros st0 id [Hw [Ht Hs]]. split; [now apply deleteTransaction_Wf|].
    split; [|exact Hs]. intros t Hin. apply Ht.
    unfold MemStorage.deleteTransaction in Hin. simpl in Hin.
    now apply MapLookupFacts.values_delete_inv in Hin.
  - intros now0 st0 u d -> [Hw Hq].
    split; [now apply generateMonthlySummary_Wf|now apply generateMonthlySummary_single_user].
Qed.

(** *** Identifiers are not used twice *)

Lemma createAll_transactionId (bs : list (InsertCategoryBreakdown.t num)) :
  forall (st : store) sid,
    MemStorage.transactionId (snd (MemStorage.createAll st sid bs))
    = MemStorage.transactionId st.
Proof.
  induction bs as [|b bs IH]; intros st sid; [reflexivity|].
  cbn [MemStorage.createAll MemStorage.createCategoryBreakdown].
  specialize (IH (MemStorage.withBreakdowns st
                    (JsMap.set Z.eqb (MemStorage.breakdownId st)
                       {| CategoryBreakdown.id := MemStorage.breakdownId st;
                          CategoryBreakdown.summaryId := sid;
                          CategoryBreakdown.category := InsertCategoryBreakdown.category b;
                          CategoryBreakdown.amount :=
                            numToString (InsertCategoryBreakdown.amount b);
                          CategoryBreakdown.percentage :=
                            numToString (InsertCategoryBreakdown.percentage b) |}
                       (MemStorage.categoryBreakdowns st))
                    (MemStorage.breakdownId st + 1)) sid).
  destruct (MemStorage.createAll _ sid bs) as [rs st']. exact IH.
Qed.

Lemma generateMonthlySummary_transactionId now (st : store) u y m :
  MemStorage.transactionId (snd (generateMonthlySummary tz now st u y m))
  = MemStorage.transactionId st.
Proof.
  unfold generateMonthlySummary.
  destruct (Nat.eqb _ 0); [reflexivity|].
  destruct (MemStorage.createOrUpdateMonthlySummary now st u _) as [s st1] eqn:E1.
  assert (H1 : MemStorage.transactionId st1 = MemStorage.transactionId st).
  { unfold MemStorage.createOrUpdateMonthlySummary in E1.
    destruct (MemStorage.getMonthlySummaryByMonth st u _ _); injection E1 as _ <-; reflexivity. }
  destruct (MemStorage.updateCategoryBreakdowns st1 _ _) as [rs st2] eqn:E2.
  simpl. rewrite <- H1. unfold MemStorage.updateCategoryBreakdowns in E2.
  change st2 with (snd (rs, st2)). rewrite <- E2. now rewrite createAll_transactionId.
Qed.


Lemma run_no_reuse (st0 : store) (reqs : list (Z * Request (num := num))) :
  no_reuse st0 (run tz pdfParse st0 reqs).
Proof.
  apply (@run_lift (no_reuse st0) (fun _ => True)); auto.
  - intros now0 st data _ [Hc Ha]. split; [unfold MemStorage.createTransaction; simpl; lia|].
    intros id Hid Hnone. unfold MemStorage.createTransaction, MemStorage.getTransactionById.
    simpl. rewrite (JsMapFacts.get_set_other Z.eqb Z.eqb_eq) by lia. now apply Ha.
  - intros st id data _ [Hc Ha]. unfold no_reuse, MemStorage.updateTransaction.
    destruct (JsMap.get Z.eqb id (MemStorage.transactions st)) as [old|] eqn:Eg;
      [|split; assumption].
    split; [exact Hc|]. intros id' Hid Hnone. unfold MemStorage.getTransactionById. simpl.
    specialize (Ha id' Hid Hnone). unfold MemStorage.getTransactionById in Ha.
    rewrite (JsMapFacts.get_set_other Z.eqb Z.eqb_eq); [exact Ha|congruence].
  - intros st id [Hc Ha]. split; [exact Hc|]. intros id' Hid Hnone.
    unfold MemStorage.deleteTransaction, MemStorage.getTransactionById. simpl.
    apply MapLookupFacts.get_delete_absent. now apply Ha.
  - intros now0 st u d _ [Hc Ha]. unfold no_reuse, MemStorage.getTransactionById.
    rewrite generateMonthlySummary_transactions.
    split; [|exact Ha].
    rewrite generateMonthlySummary_transactionId. exact Hc.
  - split; [lia|auto].
Qed.

(** *** Summaries are about months of the calendar *)

Lemma summaryMonth_range (d : DateOnly) : 1 <= summaryMonth tz d <= 12.
Proof.
  unfold summaryMonth, JsDate.getMonth.
  destruct (CalendarFacts.days_from_civil_from_days
              (JsDate.Day (JsDate.LocalTime tz (JsDate.newDate d)))) as [[Hm _] _].
  lia.
Qed.

Lemma generateMonthlySummary_months now (st : store) u y m :
  1 <= m <= 12 -> months_in_range st ->
  months_in_range (snd (generateMonthlySummary tz now st u y m)).
Proof.
  intros Hm Hst s0.
  destruct (generateMonthlySummary_table now st u y m) as [->|(s & -> & _ & Hmo & _)];
    [apply Hst|].
  intros Hin. apply MapLookupFacts.values_set_inv in Hin as [->|Hin]; [lia|now apply Hst].
Qed.

Lemma run_months_in_range (reqs : list (Z * Request (num := num))) (st : store) :
  months_in_range st -> months_in_range (run tz pdfParse st reqs).
Proof.
  apply (@run_lift (@months_in_range numstr) (fun _ => True)); auto.
  - intros st0 id data _ Hq. unfold months_in_range, MemStorage.updateTransaction in *.
    destruct (JsMap.get _ _ _); exact Hq.
  - intros now0 st0 u d _ Hq. apply generateMonthlySummary_months; [|exact Hq].
    apply summaryMonth_range.
Qed.

(** *** The lookup of a month finds the summary stored for it *)

Lemma unique_lookup (st : store) (s : MonthlySummary.t numstr) :
  summaries_unique st ->
  In s (JsMap.values (MemStorage.monthlySummaries st)) ->
  MemStorage.getMonthlySummaryByMonth st (MonthlySummary.userId s) (MonthlySummary.year s)
    (MonthlySummary.month s) = Some s.
Proof.
  unfold summaries_unique, MemStorage.getMonthlySummaryByMonth.
  induction (JsMap.values (MemStorage.monthlySummaries st)) as [|a l IH]; [intros _ []|].
  cbn [map find In]. intros Hnd Hin. inversion Hnd as [|? ? Ha Hl]; subst.
  destruct ((MonthlySummary.userId a =? MonthlySummary.userId s)
            && (MonthlySummary.year a =? MonthlySummary.year s)
            && (MonthlySummary.month a =? MonthlySummary.month s)) eqn:Ep.
  - destruct Hin as [->|Hin]; [reflexivity|]. exfalso. apply Ha.
    apply andb_true_iff in Ep as [Ep Em]. apply andb_true_iff in Ep as [Eu Ey].
    apply Z.eqb_eq in Eu, Ey, Em.
    replace (summaryKey a) with (summaryKey s) by (unfold summaryKey; congruence).
    now apply in_map.
  - destruct Hin as [->|Hin]; [now rewrite !Z.eqb_refl in Ep|]. now apply IH.
Qed.

(** *** The list of transactions after a creation and after a deletion *)

Lemma createTransaction_values now (st : store) u ins :
  Wf st ->
  JsMap.values (MemStorage.transactions (snd (MemStorage.createTransaction now st u ins)))
  = JsMap.values (MemStorage.transactions st)
    ++ [fst (MemStorage.createTransaction now st u ins)].
Proof.
  intros (Ht & _). unfold MemStorage.createTransaction. simpl.
  rewrite (JsMapFacts.set_new Z.eqb Z.eqb_eq) by (eapply Ok_key_fresh; [exact Ht|lia]).
  unfold JsMap.values. now rewrite map_app.
Qed.

Lemma deleteTransaction_values (st : store) id :
  Wf st ->
  JsMap.values (MemStorage.transactions (snd (MemStorage.deleteTransaction st id)))
  = filter (fun x => negb (Transaction.id x =? id)) (JsMap.values (MemStorage.transactions st)).
Proof.
  intros ((Ha & Hnd) & _). unfold MemStorage.deleteTransaction. simpl.
  rewrite (JsMapFacts.delete_filter Z.eqb Z.eqb_eq) by exact Hnd.
  unfold JsMap.values. clear Hnd.
  induction (MemStorage.transactions st) as [|[k v] r IH]; [reflexivity|].
  destruct (Ha k v (or_introl eq_refl)) as [Hk _].
  assert (IH' := IH (fun k' v' Hin => Ha k' v' (or_intror Hin))).
  cbn [filter map fst snd]. rewrite Hk, (Z.eqb_sym k id).
  destruct (negb (id =? k)); cbn [map snd]; now rewrite IH'.
Qed.

End Facts.
End InvariantFacts.

(** ** The columns of the export *)

Module CsvFacts.
Import NumberSyntax Csv.
Local Open Scope string_scope.

(** Checks against the expected outputs: [Number(s).toFixed(2)] *)
Example toFixed2_examples :
  map (fun s => toFixed2 (Float64.of_string s))
    ["1.005"; "1.255"; "8.345"; "0.5"; "1234.5678"; "0.001"; "0.005"; "0.015";
     "1.2345678901234568e20"; "1e21"; "200"; "12.5"; "0"; "-0.001"; "-12.345";
     "999999999999999900000"; "0.994999"; "0.995"; "5e-324"; "2.675"; "1.45"; "10.235";
     "0.615"; "NaN"; "Infinity"; "-Infinity"]%string
  = ["1.00"; "1.25"; "8.35"; "0.50"; "1234.57"; "0.00"; "0.01"; "0.01";
     "123456789012345683968.00"; "1e+21"; "200.00"; "12.50"; "0.00"; "-0.00";
     "-12.35"; "999999999999999868928.00"; "0.99"; "0.99"; "0.00"; "2.67"; "1.45"; "10.23";
     "0.61"; "NaN"; "Infinity"; "-Infinity"]%string.
Proof. vm_compute. reflexivity. Qed.

(** *** Strings of digits *)

Lemma all_digits_app (s t : string) : all_digits (s ++ t) = all_digits s && all_digits t.
Proof.
  induction s as [|c s IH]; simpl; [reflexivity|]. rewrite IH. now rewrite andb_assoc.
Qed.

Lemma all_digits_zeros (n : nat) : all_digits (zeros n) = true.
Proof. induction n as [|n IH]; simpl; [reflexivity|exact IH]. Qed.

Lemma length_app (s t : string) :
  String.length (s ++ t) = (String.length s + String.length t)%nat.
Proof. induction s as [|c s IH]; simpl; [reflexivity|]. now rewrite IH. Qed.

Lemma length_zeros (n : nat) : String.length (zeros n) = n.
Proof. induction n as [|n IH]; simpl; [reflexivity|]. now rewrite IH. Qed.

Lemma all_digits_substring (s : string) :
  all_digits s = true -> forall i n, all_digits (String.substring i n s) = true.
Proof.
  induction s as [|c s IH]; intros Hs i n.
  - destruct i, n; reflexivity.
  - simpl in Hs. apply andb_true_iff in Hs as [Hc Hs].
    destruct i as [|i]; simpl.
    + destruct n as [|n]; [reflexivity|]. simpl. rewrite Hc. now apply IH.
    + now apply IH.
Qed.

Lemma length_substring (s : string) :
  forall i n, (i + n <= String.length s)%nat -> String.length (String.substring i n s) = n.
Proof.
  induction s as [|c s IH]; intros i n Hl; simpl in Hl.
  - assert (i = 0%nat) by lia. assert (n = 0%nat) by lia. subst. reflexivity.
  - destruct i as [|i]; simpl.
    + destruct n as [|n]; [reflexivity|]. simpl. rewrite IH; [reflexivity|lia].
    + apply IH. lia.
Qed.

Lemma all_digits_uint (d : Decimal.uint) : all_digits (NilEmpty.string_of_uint d) = true.
Proof. induction d; simpl; auto. Qed.

Lemma length_uint (d : Decimal.uint) :
  d <> Decimal.Nil -> (1 <= String.length (NilEmpty.string_of_uint d))%nat.
Proof. destruct d; simpl; (congruence || lia). Qed.

(** A natural number is written with one decimal digit at least, and
    nothing else. *)
Lemma string_of_Z_digits (n : Z) :
  0 <= n ->
  all_digits (string_of_Z n) = true /\ (1 <= String.length (string_of_Z n))%nat.
Proof.
  intros Hn. unfold string_of_Z. destruct n as [|p|p]; [split; [reflexivity|simpl; lia]| |lia].
  simpl. pose proof (Unsigned.to_uint_nonnil p) as Hnn.
  unfold NilZero.string_of_uint. destruct (Pos.to_uint p) eqn:E; [congruence| | | | | | | | | |];
    (split; [apply all_digits_uint|apply length_uint; discriminate]).
Qed.

Lemma take_digits_app (d : string) c r :
  all_digits d = true -> JsString.is_digit c = false ->
  JsString.take_digits (d ++ String c r) = d.
Proof.
  intros Hd Hc. induction d as [|a d IH]; simpl in *; [now rewrite Hc|].
  apply andb_true_iff in Hd as [Ha Hd]. rewrite Ha. now rewrite IH.
Qed.

Lemma drop_digits_app (d : string) c r :
  all_digits d = true -> JsString.is_digit c = false ->
  JsString.drop_digits (d ++ String c r) = String c r.
Proof.
  intros Hd Hc. induction d as [|a d IH]; simpl in *; [now rewrite Hc|].
  apply andb_true_iff in Hd as [Ha Hd]. rewrite Ha. now apply IH.
Qed.

(** The layout of [toFixed]: a dot before the last two of three digits or
    more matches the amount pattern, whole. *)
Lemma dotted_matches (m : string) :
  all_digits m = true -> (3 <= String.length m)%nat ->
  let k := String.length m in
  let s := String.substring 0 (k - 2) m ++ "." ++ String.substring (k - 2) 2 m in
  JsString.amount_here s = Some s.
Proof.
  intros Hd Hl k s.
  set (ip := String.substring 0 (k - 2) m) in *.
  set (fp := String.substring (k - 2) 2 m) in *.
  assert (Hip : all_digits ip = true) by now apply all_digits_substring.
  assert (Hfp : all_digits fp = true) by now apply all_digits_substring.
  assert (Lip : String.length ip = (k - 2)%nat) by (apply length_substring; unfold k; lia).
  assert (Lfp : String.length fp = 2%nat) by (apply length_substring; unfold k; lia).
  destruct fp as [|a [|b [|c fp]]]; simpl in Lfp; try lia.
  simpl in Hfp. apply andb_true_iff in Hfp as [Ha Hb]. rewrite andb_true_r in Hb.
  unfold JsString.amount_here, s. simpl.
  rewrite take_digits_app, drop_digits_app by (auto; reflexivity).
  destruct ip as [|i0 ip]; [simpl in Lip; unfold k in *; lia|].
  rewrite Ha, Hb. reflexivity.
Qed.

(** *** The magnitude of a binary64 number *)

Lemma digits2_pos_bound (m : positive) : Zpos m < 2 ^ Zpos (SpecFloat.digits2_pos m).
Proof.
  induction m as [m IH|m IH|]; cbn [SpecFloat.digits2_pos]; [| |reflexivity].
  - rewrite Pos2Z.inj_succ, Z.pow_succ_r by lia. lia.
  - rewrite Pos2Z.inj_succ, Z.pow_succ_r by lia. lia.
Qed.

Lemma valid_mantissa (s : bool) (m : positive) (e : Z) :
  SpecFloat.valid_binary FloatOps.prec FloatOps.emax (S754_finite s m e) = true ->
  Zpos m < 2 ^ 53.
Proof.
  unfold SpecFloat.valid_binary, SpecFloat.bounded, SpecFloat.canonical_mantissa,
    SpecFloat.fexp. intros Hb.
  apply andb_true_iff in Hb as [Hc _]. apply Z.eqb_eq in Hc.
  pose proof (digits2_pos_bound m) as Hd.
  assert (Hle : Zpos (SpecFloat.digits2_pos m) <= 53).
  { change FloatOps.prec with 53 in Hc.
    pose proof (Z.le_max_l (Z.pos (digits2_pos m) + e - 53)
                  (SpecFloat.emin 53 FloatOps.emax)) as Hmax.
    change Z.max with IntDef.Z.max in Hmax. lia. }
  eapply Z.lt_le_trans; [exact Hd|]. apply Z.pow_le_mono_r; lia.
Qed.

Lemma compare_cont_lt (m c : positive) :
  PosDef.Pos.compare_cont Eq m c = Lt -> (Zpos m < Zpos c)%Z.
Proof. intros Hc. apply Pos2Z.pos_lt_pos. apply Pos.compare_lt_iff. exact Hc. Qed.

(** A number below 10^21: its magnitude as a fraction. *)
Lemma below_1e21 (x : float) :
  PrimFloat.ltb (PrimFloat.abs x) 1e21 = true ->
  match Prim2SF (PrimFloat.abs x) with
  | S754_zero _ => True
  | S754_finite s m e =>
      s = false
      /\ (if (0 <=? e)%Z then Zpos m * 2 ^ e < 10 ^ 21
          else Zpos m < 10 ^ 21 * 2 ^ (- e))%Z
  | _ => False
  end.
Proof.
  rewrite ltb_spec, abs_spec.
  pose proof (Prim2SF_valid x) as Hv.
  assert (E21 : Prim2SF 1e21 = S754_finite false 7629394531250000 17)
    by (vm_compute; reflexivity).
  rewrite E21. clear E21.
  destruct (Prim2SF x) as [s|s| |s m e]; cbn [SFabs SFltb SFcompare]; intros Hc.
  - exact I.
  - discriminate Hc.
  - discriminate Hc.
  - apply valid_mantissa in Hv. split; [reflexivity|].
    destruct (Z.compare_spec e 17) as [->|Hlt|Hgt].
    + cbn [Z.leb Z.compare]. cbv iota.
      destruct (PosDef.Pos.compare_cont Eq m 7629394531250000) eqn:Ec;
        try discriminate Hc.
      apply compare_cont_lt in Ec.
      change (2 ^ 17)%Z with 131072%Z. change (10 ^ 21)%Z with 1000000000000000000000%Z.
      lia.
    + clear Hc. destruct (Z.leb_spec 0 e) as [He|He].
      * assert (H2 : (2 ^ e <= 2 ^ 16)%Z) by (apply Z.pow_le_mono_r; lia).
        assert (H3 : (0 < 2 ^ e)%Z) by (apply Z.pow_pos_nonneg; lia).
        change (2 ^ 16)%Z with 65536%Z in H2.
        change (2 ^ 53)%Z with 9007199254740992%Z in Hv.
        change (10 ^ 21)%Z with 1000000000000000000000%Z. nia.
      * assert (H3 : (0 < 2 ^ (- e))%Z) by (apply Z.pow_pos_nonneg; lia).
        change (2 ^ 53)%Z with 9007199254740992%Z in Hv.
        change (10 ^ 21)%Z with 1000000000000000000000%Z. nia.
    + discriminate Hc.
Qed.

(** *** The amount column *)

Lemma toFixed2_matches (x : float) :
  PrimFloat.ltb (PrimFloat.abs x) 1e21 = true ->
  JsString.amount_here (toFixed2 (PrimFloat.abs x)) = Some (toFixed2 (PrimFloat.abs x)).
Proof.
  intros Hlt. apply below_1e21 in Hlt. unfold toFixed2.
  destruct (Prim2SF (PrimFloat.abs x)) as [s|s| |s m e]; try contradiction; [reflexivity|].
  destruct Hlt as [-> Hlt]. cbv zeta.
  set (p := if (0 <=? e)%Z then (Z.pos m * 2 ^ e)%Z else Z.pos m) in *.
  set (q := if (0 <=? e)%Z then 1%Z else (2 ^ (- e))%Z) in *.
  assert (Hq : (0 < q)%Z).
  { unfold q. destruct (Z.leb_spec 0 e); [lia|]. apply Z.pow_pos_nonneg; lia. }
  assert (Hp : (0 <= p)%Z).
  { unfold p. destruct (Z.leb_spec 0 e); [|lia].
    apply Z.mul_nonneg_nonneg; [lia|]. apply Z.pow_nonneg. lia. }
  assert (Hb : (10 ^ 21 * q <=? p)%Z = false).
  { apply Z.leb_gt. unfold p, q. destruct (0 <=? e)%Z; lia. }
  rewrite Hb.
  match goal with
  | |- context [append EmptyString ?y] => change (append EmptyString y) with y
  end.
  assert (Hn : (0 <= (2 * 100 * p + q) / (2 * q))%Z) by (apply Z.div_pos; lia).
  destruct (string_of_Z_digits Hn) as [Hd Hl].
  apply dotted_matches.
  - rewrite all_digits_app, all_digits_zeros, Hd. reflexivity.
  - rewrite length_app, length_zeros. lia.
Qed.

(** *** The date column *)

Lemma formattedDate_not_behind_utc (tz : TimeZone) (d : DateOnly) :
  not_behind_utc tz -> JsDate.valid d ->
  formattedDate tz d
  = string_of_Z (JsDate.month d) ++ "/" ++ string_of_Z (JsDate.day d) ++ "/"
    ++ string_of_Z (JsDate.year d).
Proof.
  intros Htz Hd. unfold formattedDate, JsDate.getMonth, JsDate.getDate, JsDate.getFullYear.
  cbv zeta. rewrite (@CalendarFacts.local_date tz d Htz Hd).
  now rewrite Z.sub_add.
Qed.

(** *** The description column *)

Lemma read_quoted_text_escape (d rest : string) :
  match rest with String c _ => Ascii.eqb c dquote = false | EmptyString => True end ->
  read_quoted_text (escape_quotes d ++ String dquote rest) = Some (d, rest).
Proof.
  intros Hrest. induction d as [|c d IH].
  - simpl. destruct rest as [|c r]; [reflexivity|]. now rewrite Hrest.
  - cbn [escape_quotes]. destruct (Ascii.eqb c dquote) eqn:Ec.
    + apply Ascii.eqb_eq in Ec. subst c. cbn [append read_quoted_text].
      rewrite !Ascii.eqb_refl. rewrite IH. reflexivity.
    + cbn [append read_quoted_text]. rewrite Ec, IH. reflexivity.
Qed.

End CsvFacts.

(** ** The importer *)

Module ImporterFacts.
Import StoreInv StoreInvFacts MemStorageFacts EngineFacts HandlerFacts InvariantFacts.

(** *** Lines without text have no amount *)

Lemma trim_end_text (s : string) : has_text s = true -> JsString.trim_end s <> EmptyString.
Proof.
  induction s as [|c s IH]; simpl; [discriminate|].
  destruct (JsString.trim_end s) eqn:Et; [|discriminate].
  destruct (JsString.is_space c); simpl; [|discriminate].
  intros Hs. now apply IH in Hs.
Qed.

Lemma trim_start_text (s : string) : has_text s = true -> has_text (JsString.trim_start s) = true.
Proof.
  induction s as [|c s IH]; simpl; [discriminate|].
  destruct (JsString.is_space c) eqn:Ec; simpl; [exact IH|]. intros _. now rewrite Ec.
Qed.

Lemma match_amount_text (s g : string) : JsString.match_amount s = Some g -> has_text s = true.
Proof.
  induction s as [|c s IH]; simpl; [discriminate|].
  destruct (Ascii.eqb c "$"%char) eqn:Ec.
  - apply Ascii.eqb_eq in Ec. subst c. reflexivity.
  - intros Hm. rewrite (IH Hm). apply orb_true_r.
Qed.

Lemma test_amount_not_blank (line : string) :
  JsString.test_amount line = true ->
  negb (Nat.eqb (String.length (JsString.trim line)) 0) = true.
Proof.
  unfold JsString.test_amount. destruct (JsString.match_amount line) as [g|] eqn:Em;
    [|discriminate]. intros _.
  apply match_amount_text, trim_start_text, trim_end_text in Em.
  unfold JsString.trim. destruct (JsString.trim_end _); [congruence|reflexivity].
Qed.

(** *** The keyword tests *)

Lemma prefix_ci_spec (p : string) :
  forall s, JsString.prefix_ci p s = true
            <-> exists w post, s = (w ++ post)%string /\ lower w = lower p.
Proof.
  induction p as [|a p IH]; intros s.
  - split; [intros _; exists EmptyString, s; auto|reflexivity].
  - destruct s as [|b s]; cbn [JsString.prefix_ci].
    + split; [discriminate|]. intros (w & post & Hs & Hw).
      destruct w; [discriminate Hw|discriminate Hs].
    + rewrite andb_true_iff, Ascii.eqb_eq, IH. split.
      * intros (Hab & w & post & -> & Hw). exists (String b w), post.
        split; [reflexivity|]. cbn [lower]. unfold lower_case.
        unfold JsString.fold_case in Hab. now rewrite Hw, Hab.
      * intros (w & post & Hs & Hw). destruct w as [|b' w]; [discriminate Hw|].
        cbn [lower] in Hw. injection Hs as <- ->. injection Hw as Hab Hw.
        split; [symmetry; exact Hab|]. exists w, post. auto.
Qed.

Lemma contains_ci_spec (p : string) :
  forall s, JsString.contains_ci p s = true <-> mentions p s.
Proof.
  induction s as [|c s IH].
  - cbn [JsString.contains_ci]. rewrite orb_false_r, prefix_ci_spec. split.
    + intros (w & post & Hs & Hw). exists EmptyString, w, post. auto.
    + intros (pre & w & post & Hs & Hw). destruct pre; [|discriminate Hs].
      exists w, post. auto.
  - cbn [JsString.contains_ci]. rewrite orb_true_iff, prefix_ci_spec, IH. split.
    + intros [(w & post & Hs & Hw)|(pre & w & post & Hs & Hw)].
      * exists EmptyString, w, post. auto.
      * exists (String c pre), w, post. split; [|exact Hw]. simpl. now rewrite Hs.
    + intros (pre & w & post & Hs & Hw). destruct pre as [|c' pre].
      * left. exists w, post. auto.
      * right. simpl in Hs. injection Hs as _ Hs. exists pre, w, post. auto.
Qed.

Lemma test_any_ci_mentions (words : list string) (line : string) :
  mentions_any words line -> JsString.test_any_ci words line = true.
Proof.
  intros (word & Hin & Hm). unfold JsString.test_any_ci. apply existsb_exists.
  exists word. split; [exact Hin|]. now apply contains_ci_spec.
Qed.

Lemma test_any_ci_spec (words : list string) (line : string) :
  (JsString.test_any_ci words line = true /\ mentions_any words line)
  \/ (JsString.test_any_ci words line = false /\ ~ mentions_any words line).
Proof.
  destruct (JsString.test_any_ci words line) eqn:E.
  - left. split; [reflexivity|]. unfold JsString.test_any_ci in E.
    apply existsb_exists in E as (word & Hin & Hc). exists word.
    split; [exact Hin|]. now apply contains_ci_spec.
  - right. split; [reflexivity|]. intros Hm. apply test_any_ci_mentions in Hm. congruence.
Qed.

Lemma filter_filter_imp (A : Type) (p q : A -> bool) (l : list A) :
  (forall x, p x = true -> q x = true) -> filter p (filter q l) = filter p l.
Proof.
  intros Hpq. induction l as [|a l IH]; simpl; [reflexivity|].
  destruct (q a) eqn:Eq; simpl; [now rewrite IH|].
  destruct (p a) eqn:Ep; [|exact IH]. apply Hpq in Ep. congruence.
Qed.


Section Facts.
Context {num numstr : Type} `{JsNum num numstr}.

Local Abbreviation store := (MemStorage.t numstr).
Local Abbreviation Tx := (Transaction.t numstr).


Lemma extractTransactions_lines now (text : string) :
  Forall2 (ofLine now)
          (filter JsString.test_amount (JsString.split_lines text))
          (extractTransactions now text).
Proof.
  unfold extractTransactions. cbv zeta.
  rewrite <- (@filter_filter_imp _ JsString.test_amount
                (fun line => negb (Nat.eqb (String.length (JsString.trim line)) 0))
                (JsString.split_lines text) test_amount_not_blank).
  set (lines := filter (fun line => negb (Nat.eqb (String.length (JsString.trim line)) 0))
                       (JsString.split_lines text)).
  induction lines as [|line lines IH]; [constructor|].
  cbn [filter flat_map]. unfold JsString.test_amount at 1.
  destruct (JsString.match_amount line) as [g|] eqn:Em; [|exact IH].
  cbn [app]. constructor; [|exact IH].
  exists g. split; [exact Em|].
  cbn [InsertTransaction.date InsertTransaction.description InsertTransaction.pdfSource
       InsertTransaction.category InsertTransaction.type InsertTransaction.amount].
  split; [reflexivity|]. split; [reflexivity|]. split; [reflexivity|].
  split; [|split].
  - unfold categoryWords.
    repeat match goal with
           | |- categoryOf _ _ (if JsString.test_any_ci ?ws line then _ else _) =>
               destruct (test_any_ci_spec ws line) as [[-> ?]|[-> ?]];
                 [now apply categoryOf_first|apply categoryOf_later; [assumption|]]
           end.
    apply categoryOf_other.
  - intros Hi. apply test_any_ci_mentions in Hi. fold incomeWords. now rewrite Hi.
  - intros Hi. fold incomeWords.
    destruct (test_any_ci_spec incomeWords line) as [[_ Hyes]|[-> _]]; [contradiction|].
    auto.
Qed.

Lemma categoryOf_In (line category : string) :
  categoryOf line categoryWords category -> In category categories.
Proof.
  unfold categoryWords, categories. intros Hc.
  repeat match goal with
         | Hc : categoryOf _ (_ :: _) _ |- _ => inversion Hc; subst; clear Hc; [simpl; tauto|]
         end.
  match goal with Hc : categoryOf _ [] _ |- _ => inversion Hc end. simpl. tauto.
Qed.

(** The category Income is given to lines that mention an income word. *)
Lemma categoryOf_Income (line : string) :
  categoryOf line categoryWords "Income" -> mentions_any incomeWords line.
Proof.
  unfold categoryWords. intros Hc.
  repeat match goal with
         | Hc : categoryOf _ (_ :: _) _ |- _ =>
             inversion Hc; subst; clear Hc; try discriminate
         end.
  - match goal with
    | Hany : mentions_any _ line |- _ => destruct Hany as (word & Hin & Hm)
    end.
    exists word. split; [|exact Hm]. unfold incomeWords. simpl in *. tauto.
  - match goal with Hc : categoryOf _ [] _ |- _ => inversion Hc end.
Qed.

Lemma ofLine_schema now (line : string) (x : InsertTransaction.t num) :
  ofLine now line x ->
  In (InsertTransaction.category x) categories
  /\ (InsertTransaction.type x = "income"%string \/ InsertTransaction.type x = "expense"%string)
  /\ (InsertTransaction.category x = "Income"%string ->
      InsertTransaction.type x = "income"%string).
Proof.
  intros (g & _ & _ & _ & _ & Hc & Hyes & Hno).
  split; [now apply categoryOf_In in Hc|]. split.
  - destruct (test_any_ci_spec incomeWords line) as [[_ Hi]|[_ Hi]];
      [left; now apply Hyes|right; now apply Hno].
  - intros Ec. rewrite Ec in Hc. now apply Hyes, categoryOf_Income.
Qed.

Lemma categoryOf_functional (line : string) groups (c c' : string) :
  categoryOf line groups c -> categoryOf line groups c' -> c = c'.
Proof.
  induction 1 as [|ws c groups Hm|ws c0 groups c Hm Hc IH]; inversion 1; subst;
    (reflexivity || contradiction || auto).
Qed.

(** A line has one transaction. *)
Lemma ofLine_functional now (line : string) (x y : InsertTransaction.t num) :
  ofLine now line x -> ofLine now line y -> x = y.
Proof.
  intros (g & Hg & Hd & Hs & Hp & Hc & Hyes & Hno)
         (g' & Hg' & Hd' & Hs' & Hp' & Hc' & Hyes' & Hno').
  assert (g' = g) by congruence. subst g'.
  pose proof (categoryOf_functional Hc Hc') as Ec.
  assert (Eta : InsertTransaction.type x = InsertTransaction.type y
                /\ InsertTransaction.amount x = InsertTransaction.amount y).
  { destruct (test_any_ci_spec incomeWords line) as [[_ Hi]|[_ Hi]].
    - destruct (Hyes Hi) as [-> ->]. destruct (Hyes' Hi) as [-> ->]. auto.
    - destruct (Hno Hi) as [-> ->]. destruct (Hno' Hi) as [-> ->]. auto. }
  destruct Eta as [Et Ea]. destruct x, y. simpl in *. congruence.
Qed.

Lemma insertTransactionSchema_parse_ok (x : InsertTransaction.t num) :
  isNaN (InsertTransaction.amount x) = false ->
  In (InsertTransaction.category x) categories ->
  (InsertTransaction.type x = "income"%string \/ InsertTransaction.type x = "expense"%string) ->
  insertTransactionSchema_parse x = Some x.
Proof.
  intros Hn Hc Ht. unfold insertTransactionSchema_parse. rewrite Hn.
  assert (Ec : existsb (String.eqb (InsertTransaction.category x)) categories = true).
  { apply existsb_exists. exists (InsertTransaction.category x). split; [exact Hc|].
    apply String.eqb_refl. }
  assert (Et : existsb (String.eqb (InsertTransaction.type x)) ["income"; "expense"]%string
               = true).
  { apply existsb_exists. exists (InsertTransaction.type x). split; [|apply String.eqb_refl].
    destruct Ht as [-> | ->]; simpl; auto. }
  rewrite Ec, Et. reflexivity.
Qed.


Lemma saveAll_saves now (l : list (InsertTransaction.t num)) :
  forall st : store,
    Wf st ->
    (forall x, In x l ->
               isNaN (InsertTransaction.amount x) = false
               /\ In (InsertTransaction.category x) categories
               /\ (InsertTransaction.type x = "income"%string
                   \/ InsertTransaction.type x = "expense"%string)) ->
    exists saved,
      fst (saveAll now st 1 l) = Some saved
      /\ Wf (snd (saveAll now st 1 l))
      /\ JsMap.values (MemStorage.transactions (snd (saveAll now st 1 l)))
         = JsMap.values (MemStorage.transactions st) ++ saved
      /\ Forall2 savedFrom l saved.
Proof.
  induction l as [|x l IH]; intros st Hwf Hok.
  - exists []. simpl. rewrite app_nil_r. auto.
  - cbn [saveAll].
    destruct (Hok x (or_introl eq_refl)) as (Hn & Hc & Ht).
    rewrite insertTransactionSchema_parse_ok by assumption.
    pose proof (@createTransaction_Wf _ _ _ now st 1
                  {| InsertTransaction.date := InsertTransaction.date x;
                     InsertTransaction.description := InsertTransaction.description x;
                     InsertTransaction.category := InsertTransaction.category x;
                     InsertTransaction.amount := InsertTransaction.amount x;
                     InsertTransaction.type := InsertTransaction.type x;
                     InsertTransaction.pdfSource := Some "Uploaded PDF"%string |} Hwf) as Hwf1.
    unfold MemStorage.createTransaction in *. cbn [snd] in Hwf1.
    match type of Hwf1 with Wf ?s => set (st1 := s) in * end.
    destruct (IH st1 Hwf1) as (saved & Hs & Hwf2 & Hv & Hall).
    { intros y Hy. apply Hok. now right. }
    destruct (saveAll now st1 1 l) as [[rest|] st2]; simpl in Hs; [|discriminate].
    injection Hs as ->. eexists. split; [reflexivity|]. split; [exact Hwf2|].
    cbn [snd] in *. split.
    + rewrite Hv. unfold st1. cbn [MemStorage.transactions].
      rewrite (JsMapFacts.set_new Z.eqb Z.eqb_eq).
      * unfold JsMap.values. rewrite map_app. simpl. now rewrite <- app_assoc.
      * destruct Hwf as (Hok0 & _). eapply Ok_key_fresh; [exact Hok0|lia].
    + constructor; [|exact Hall]. unfold savedFrom. simpl. auto 10.
Qed.

End Facts.

(** Three lines: a rent, a salary in capital letters, a line without an
    amount. *)
Lemma extractTransactions_example :
  map (fun x => (InsertTransaction.category x, InsertTransaction.type x,
                 numToString (InsertTransaction.amount x)))
      (extractTransactions (num := float) 1000
         ("Rent $500.00" ++ String "010" ("SALARY of March $1200.50"
                                          ++ String "010" "no amount here")))
  = [("Housing", "expense", "-500"); ("Income", "income", "1200.5")]%string.
Proof. vm_compute. reflexivity. Qed.

End ImporterFacts.

(** ** The store (server/storage.ts) *)

Section StoreOperations.
Context {num numstr : Type} `{JsNum num numstr}.

Import StoreInv StoreInvFacts MemStorageFacts.

Lemma find_snoc (A : Type) (p : A -> bool) (l : list A) (x : A) :
  find p (l ++ [x]) = match find p l with
                      | Some y => Some y
                      | None => if p x then Some x else None
                      end.
Proof.
  induction l as [|a l IH]; simpl; [reflexivity|]. destruct (p a); [reflexivity|exact IH].
Qed.

(** X1. [createUser] gives the new user the counter's value as identifier,
    which no user has; [getUser] then finds the new user under it and the
    other users as before. [getUserByUsername] finds the first user of
    that name: a user created under a name already taken is stored but is
    not the one found. *)
Theorem createUser_then_lookup (st : MemStorage.t numstr) (insertUser : InsertUser.t) :
  users_ok st = true ->
  let r := MemStorage.createUser st insertUser in
  User.id (fst r) = MemStorage.userId st
  /\ MemStorage.getUser st (User.id (fst r)) = None
  /\ MemStorage.getUser (snd r) (User.id (fst r)) = Some (fst r)
  /\ (forall id, id <> User.id (fst r) ->
                 MemStorage.getUser (snd r) id = MemStorage.getUser st id)
  /\ (forall username,
        MemStorage.getUserByUsername (snd r) username
        = match MemStorage.getUserByUsername st username with
          | Some u => Some u
          | None => if String.eqb (InsertUser.username insertUser) username
                    then Some (fst r) else None
          end)
  /\ users_ok (snd r) = true.
Proof.
  unfold users_ok. intros Hok. apply table_ok_spec in Hok. cbv zeta.
  unfold MemStorage.createUser, MemStorage.getUser, MemStorage.getUserByUsername. simpl.
  assert (Hfresh : ~ In (MemStorage.userId st) (JsMap.keys (MemStorage.users st)))
    by (eapply Ok_key_fresh; [exact Hok|lia]).
  split; [reflexivity|]. split; [|split; [|split; [|split]]].
  - now apply (JsMapFacts.get_None_not_in Z.eqb Z.eqb_eq).
  - apply (JsMapFacts.get_set_same Z.eqb Z.eqb_eq).
  - intros id Hne. apply (JsMapFacts.get_set_other Z.eqb Z.eqb_eq). congruence.
  - intros username. rewrite (JsMapFacts.set_new Z.eqb Z.eqb_eq) by exact Hfresh.
    unfold JsMap.values. rewrite map_app. simpl. apply find_snoc.
  - apply table_ok_spec. now apply Ok_set_new.
Qed.

(** X2. [createTransaction] puts the new transaction at the end of its
    user's list, as [getTransactions] returns it, and leaves the lists of
    the other users as they were. *)
Theorem createTransaction_appends now (st : MemStorage.t numstr) userId
        (insertTransaction : InsertTransaction.t num) :
  wf st = true ->
  let r := MemStorage.createTransaction now st userId insertTransaction in
  forall u,
    MemStorage.getTransactions (snd r) u
    = MemStorage.getTransactions st u ++ (if userId =? u then [fst r] else []).
Proof.
  intros Hwf. apply wf_spec in Hwf. destruct Hwf as (Ht & _). cbv zeta. intros u.
  unfold MemStorage.createTransaction, MemStorage.getTransactions. simpl.
  rewrite (JsMapFacts.set_new Z.eqb Z.eqb_eq) by (eapply Ok_key_fresh; [exact Ht|lia]).
  unfold JsMap.values. rewrite map_app, filter_app. simpl.
  destruct (userId =? u); reflexivity.
Qed.

(** X3. [deleteTransaction] answers whether the identifier was stored;
    afterwards the identifier is absent, every other transaction is still
    found, a second deletion answers false, and the summaries and
    breakdowns are what they were (the store does not recompute). *)
Theorem deleteTransaction_removes (st : MemStorage.t numstr) id :
  wf st = true ->
  let r := MemStorage.deleteTransaction st id in
  fst r = match MemStorage.getTransactionById st id with Some _ => true | None => false end
  /\ MemStorage.getTransactionById (snd r) id = None
  /\ (forall id', id' <> id ->
                  MemStorage.getTransactionById (snd r) id'
                  = MemStorage.getTransactionById st id')
  /\ fst (MemStorage.deleteTransaction (snd r) id) = false
  /\ MemStorage.monthlySummaries (snd r) = MemStorage.monthlySummaries st
  /\ MemStorage.categoryBreakdowns (snd r) = MemStorage.categoryBreakdowns st.
Proof.
  intros Hwf. apply wf_spec in Hwf. destruct Hwf as ((_ & Hnd) & _). cbv zeta.
  unfold MemStorage.deleteTransaction, MemStorage.getTransactionById, JsMap.has. simpl.
  assert (Hgone : JsMap.get Z.eqb id (JsMap.delete Z.eqb id (MemStorage.transactions st))
                  = None) by now apply (JsMapFacts.get_delete_same Z.eqb Z.eqb_eq).
  split; [reflexivity|]. split; [exact Hgone|]. split; [|split; [|split]]; auto.
  - intros id' Hne. now apply (MapLookupFacts.get_delete_other Z.eqb Z.eqb_eq).
  - now rewrite Hgone.
Qed.

Lemma map_pair_split (A B C : Type) (f : A -> B) (g : A -> C) (l1 l2 : list A) :
  map (fun x => (f x, g x)) l1 = map (fun x => (f x, g x)) l2 ->
  map g l1 = map g l2.
Proof.
  revert l2. induction l1 as [|a l1 IH]; intros [|b l2]; simpl; try discriminate; auto.
  intros [= _ Hg Hr]. rewrite Hg. f_equal. auto.
Qed.

(** X4. [updateTransaction] replaces the transaction where it stands:
    the identifiers of the stored transactions, and of every user's list,
    are the same in the same order. An update that supplies no field
    leaves the store as it was. *)
Theorem updateTransaction_in_place (st : MemStorage.t numstr) id
        (updateData : PartialInsertTransaction.t num) :
  let r := MemStorage.updateTransaction st id updateData in
  map (@Transaction.id numstr) (JsMap.values (MemStorage.transactions (snd r)))
  = map (@Transaction.id numstr) (JsMap.values (MemStorage.transactions st))
  /\ (forall u, map (@Transaction.id numstr) (MemStorage.getTransactions (snd r) u)
                = map (@Transaction.id numstr) (MemStorage.getTransactions st u))
  /\ (updateData = {| PartialInsertTransaction.date := None;
                      PartialInsertTransaction.description := None;
                      PartialInsertTransaction.category := None;
                      PartialInsertTransaction.amount := None;
                      PartialInsertTransaction.type := None;
                      PartialInsertTransaction.pdfSource := None |} ->
      snd r = st).
Proof.
  cbv zeta. unfold MemStorage.updateTransaction.
  destruct (JsMap.get Z.eqb id (MemStorage.transactions st)) as [t|] eqn:Eg;
    [|simpl; auto].
  cbn [snd MemStorage.transactions].
  match goal with
  | |- context [JsMap.set Z.eqb id ?v _] => set (t' := v)
  end.
  assert (Hpair : map (fun x : Transaction.t numstr => (Transaction.userId x, Transaction.id x))
                      (JsMap.values (JsMap.set Z.eqb id t' (MemStorage.transactions st)))
                  = map (fun x => (Transaction.userId x, Transaction.id x))
                        (JsMap.values (MemStorage.transactions st))).
  { apply MapLookupFacts.set_present_map with (e := t); [exact Eg|reflexivity]. }
  split; [|split].
  - exact (map_pair_split _ _ _ _ Hpair).
  - intros u. unfold MemStorage.getTransactions. cbn [MemStorage.transactions].
    exact (map_filter_fst (fun x => x =? u) _ _ _ _ Hpair).
  - intros ->. unfold t'. simpl. destruct t; simpl.
    rewrite (MapLookupFacts.set_same Z.eqb Z.eqb_eq id _ Eg). destruct st; reflexivity.
Qed.

End StoreOperations.

(** The witness of X1: a second user named demo is stored under 2, and
    the user found by that name is still the first. *)
Lemma createUser_then_lookup_witness :
  users_ok (MemStorage.new (numstr := string)) = true
  /\ let r := MemStorage.createUser (MemStorage.new (numstr := string))
                {| InsertUser.username := "demo"; InsertUser.password := "other" |} in
     User.id (fst r) = 2
     /\ option_map User.id (MemStorage.getUserByUsername (snd r) "demo") = Some 1.
Proof.
  assert (Hok : users_ok (MemStorage.new (numstr := string)) = true) by reflexivity.
  split; [exact Hok|].
  destruct (createUser_then_lookup (MemStorage.new (numstr := string))
              {| InsertUser.username := "demo"; InsertUser.password := "other" |} Hok)
    as (Hid & _ & _ & _ & Hname & _).
  cbv zeta. split; [exact Hid|]. rewrite Hname. reflexivity.
Defined.

(** The witness of X2: a third transaction of the scenario. *)
Lemma createTransaction_appends_witness :
  StoreInv.wf Scenario.march = true
  /\ map (@Transaction.id string)
         (MemStorage.getTransactions
            (snd (MemStorage.createTransaction 5000 Scenario.march 1 Scenario.groceries)) 1)
     = [1; 2; 3].
Proof.
  assert (Hwf : StoreInv.wf Scenario.march = true) by (vm_compute; reflexivity).
  split; [exact Hwf|].
  rewrite (createTransaction_appends 5000 Scenario.march 1 Scenario.groceries Hwf 1).
  vm_compute. reflexivity.
Defined.

(** The witness of X3: the salary of the scenario is deleted. *)
Lemma deleteTransaction_removes_witness :
  StoreInv.wf Scenario.march = true
  /\ fst (MemStorage.deleteTransaction Scenario.march 1) = true
  /\ MemStorage.getTransactionById (snd (MemStorage.deleteTransaction Scenario.march 1)) 1
     = None.
Proof.
  assert (Hwf : StoreInv.wf Scenario.march = true) by (vm_compute; reflexivity).
  split; [exact Hwf|].
  destruct (deleteTransaction_removes Scenario.march 1 Hwf) as (Hr & Hgone & _).
  split; [rewrite Hr; vm_compute; reflexivity|exact Hgone].
Defined.

(** ** What the served store keeps (server/routes.ts over server/storage.ts) *)

Section ServedStore.
Context {num numstr : Type} `{JsNum num numstr}.
Variable tz : TimeZone.
Variable pdfParse : string -> option string.

Import StoreInv StoreInvFacts MemStorageFacts EngineFacts HandlerFacts InvariantFacts.

Local Abbreviation store := (MemStorage.t numstr).
Local Abbreviation served reqs := (run tz pdfParse (MemStorage.new (numstr := numstr)) reqs).

(** X5. Whatever requests the server has served, the store holds one
    summary at most for a month, and every stored summary is the one that
    GET /api/summaries/:year/:month answers for its own year and month,
    with status 200 and the breakdowns stored under its identifier. *)
Theorem served_summaries_reachable (reqs : list (Z * Request (num := num))) :
  let st := served reqs in
  summaries_unique st
  /\ forall s, In s (JsMap.values (MemStorage.monthlySummaries st)) ->
               get_summaries_month st (Some (MonthlySummary.year s))
                                   (Some (MonthlySummary.month s))
               = ({| status := 200;
                     body := json_summary s (MemStorage.getCategoryBreakdowns
                                               st (MonthlySummary.id s)) |}, st).
Proof.
  cbv zeta.
  assert (Hu : summaries_unique (served reqs)).
  { apply run_unique; [apply Wf_new|]. constructor. }
  assert (Hs : single_user (served reqs)).
  { apply run_single_user; [apply Wf_new|]. split; intros ? []. }
  assert (Hm : months_in_range (served reqs)).
  { apply run_months_in_range. intros ? []. }
  split; [exact Hu|]. intros s Hin.
  unfold get_summaries_month, validMonth.
  specialize (Hm s Hin). destruct Hs as [_ Hs]. specialize (Hs s Hin).
  destruct (Z.ltb_spec (MonthlySummary.month s) 1); [lia|].
  destruct (Z.gtb_spec (MonthlySummary.month s) 12); [lia|]. cbn [orb].
  pose proof (unique_lookup _ Hu Hin) as Hl. rewrite Hs in Hl. rewrite Hl. reflexivity.
Qed.

(** X6. Whatever requests the server has served, every stored category
    breakdown belongs to a stored summary: none is left behind under an
    identifier that no summary has. *)
Theorem served_breakdowns_owned (reqs : list (Z * Request (num := num))) :
  breakdowns_owned (served reqs).
Proof. apply run_owned; [apply Wf_new|]. intros b []. Qed.

(** X7. Transaction identifiers are not used twice: an identifier below
    the counter that is absent from the store (it was deleted) stays absent
    whatever requests follow, and the counter never goes back. *)
Theorem served_ids_not_reused (st0 : store) (reqs : list (Z * Request (num := num))) id :
  id < MemStorage.transactionId st0 ->
  MemStorage.getTransactionById st0 id = None ->
  MemStorage.getTransactionById (run tz pdfParse st0 reqs) id = None
  /\ MemStorage.transactionId st0 <= MemStorage.transactionId (run tz pdfParse st0 reqs).
Proof.
  intros Hid Hnone. destruct (run_no_reuse tz pdfParse st0 reqs) as [Hc Ha]. auto.
Qed.

(** X8. Whatever requests the server has served (bodies of any content,
    imported statements included), every stored transaction has a category
    of the enumeration and the type income or expense. *)
Theorem served_transactions_schema_valid (reqs : list (Z * Request (num := num))) :
  schema_valid (served reqs).
Proof. apply run_schema_valid. intros t []. Qed.

(** X9. The handlers write on behalf of the demo user only, so GET
    /api/transactions and GET /api/summaries, which list the demo user's
    records, answer with every stored transaction and every stored
    summary, in the order of their creation. *)
Theorem served_lists_are_whole_tables (reqs : list (Z * Request (num := num))) :
  let st := served reqs in
  get_transactions st = (200, JsMap.values (MemStorage.transactions st))
  /\ get_summaries st = (200, JsMap.values (MemStorage.monthlySummaries st)).
Proof.
  cbv zeta.
  assert (Hs : single_user (served reqs)).
  { apply run_single_user; [apply Wf_new|]. split; intros ? []. }
  destruct Hs as [Ht Hs].
  unfold get_transactions, get_summaries, MemStorage.getTransactions,
    MemStorage.getMonthlySummaries. cbv zeta.
  split; f_equal; apply filter_all; intros x Hin; apply Z.eqb_eq; auto.
Qed.

(** X10. A request answered with status 400 or 404 leaves the store as it
    was. *)
Theorem rejected_request_changes_nothing now (st : store) (req : Request (num := num)) :
  let r := handle tz pdfParse now st req in
  status (fst r) = 400 \/ status (fst r) = 404 -> snd r = st.
Proof.
  cbv zeta. destruct req as [body|id body|id|pdfContent|y m|y m]; cbn [handle].
  - unfold post_transactions.
    destruct (option_map insertTransactionSchema_parse body) as [[data|]|]; try reflexivity.
    destruct (MemStorage.createTransaction now st 1 data) as [t st1].
    destruct (generateMonthlySummary tz now st1 1 _ _). simpl. intros [?|?]; discriminate.
  - unfold put_transactions.
    destruct id as [id|]; [|reflexivity].
    destruct (MemStorage.getTransactionById st id) as [t|]; [|reflexivity].
    destruct (option_map partialSchema_parse body) as [[data|]|]; try reflexivity.
    destruct (MemStorage.updateTransaction st id data) as [upd st1].
    destruct (generateMonthlySummary tz now st1 _ _ _). simpl. intros [?|?]; discriminate.
  - unfold delete_transactions.
    destruct id as [id|]; [|reflexivity].
    destruct (MemStorage.getTransactionById st id) as [t|]; [|reflexivity].
    destruct (MemStorage.deleteTransaction st id) as [[|] st1].
    + destruct (generateMonthlySummary tz now st1 _ _ _). simpl. intros [?|?]; discriminate.
    + simpl. intros [?|?]; discriminate.
  - unfold post_upload_statement.
    destruct (MemStorage.orNull pdfContent) as [content|]; [|reflexivity].
    destruct (pdfParse content) as [text|]; [|reflexivity].
    destruct (Nat.eqb _ 0); [reflexivity|].
    destruct (saveAll now st 1 (extractTransactions now text)) as [[[|first saved]|] st1];
      try (simpl; intros [?|?]; discriminate).
    destruct (generateMonthlySummary tz now st1 _ _ _). simpl. intros [?|?]; discriminate.
  - unfold get_transactions_month. destruct (validMonth y m) as [[? ?]|]; reflexivity.
  - unfold get_summaries_month. destruct (validMonth y m) as [[? ?]|]; [|reflexivity].
    destruct (MemStorage.getMonthlySummaryByMonth st 1 _ _); reflexivity.
Qed.

End ServedStore.

(** ** What a successful request does to the list of transactions *)

Section RouteEffects.
Context {num numstr : Type} `{JsNum num numstr}.
Variable tz : TimeZone.
Variable pdfParse : string -> option string.

Import StoreInv StoreInvFacts MemStorageFacts EngineFacts HandlerFacts InvariantFacts
       ImporterFacts.

Local Abbreviation store := (MemStorage.t numstr).

(** X11. POST /api/transactions with a body whose amount is a number,
    whose category is of the enumeration and whose type is income or
    expense is answered 201 with the stored transaction: it has the
    counter's value as identifier, GET /api/transactions lists it last,
    after the transactions listed before, and it is found under its
    identifier. *)
Theorem posted_transaction_is_listed now (st : store) (data : InsertTransaction.t num) :
  wf st = true ->
  isNaN (InsertTransaction.amount data) = false ->
  In (InsertTransaction.category data) categories ->
  (InsertTransaction.type data = "income"%string
   \/ InsertTransaction.type data = "expense"%string) ->
  let r := post_transactions tz now st (Some data) in
  exists t,
    fst r = {| status := 201; body := json_transaction (Some t) |}
    /\ Transaction.id t = MemStorage.transactionId st
    /\ get_transactions (snd r) = (200, snd (get_transactions st) ++ [t])
    /\ MemStorage.getTransactionById (snd r) (Transaction.id t) = Some t.
Proof.
  intros Hwf Hn Hc Ht. apply wf_spec in Hwf. cbv zeta.
  unfold post_transactions. cbn [option_map].
  rewrite insertTransactionSchema_parse_ok by assumption.
  pose proof (createTransaction_values now 1 data Hwf) as Hv.
  assert (Hid : Transaction.id (fst (MemStorage.createTransaction now st 1 data))
                = MemStorage.transactionId st) by reflexivity.
  assert (Hu : Transaction.userId (fst (MemStorage.createTransaction now st 1 data)) = 1)
    by reflexivity.
  assert (Hg : MemStorage.getTransactionById
                 (snd (MemStorage.createTransaction now st 1 data))
                 (MemStorage.transactionId st)
               = Some (fst (MemStorage.createTransaction now st 1 data))).
  { unfold MemStorage.getTransactionById, MemStorage.createTransaction. simpl.
    apply (JsMapFacts.get_set_same Z.eqb Z.eqb_eq). }
  destruct (MemStorage.createTransaction now st 1 data) as [t st1]. cbn [fst snd] in *.
  pose proof (generateMonthlySummary_transactions tz now st1 1
                (summaryYear tz (Transaction.date t))
                (summaryMonth tz (Transaction.date t))) as Htx.
  destruct (generateMonthlySummary tz now st1 1 _ _) as [s st2]. cbn [fst snd] in *.
  exists t. split; [reflexivity|]. split; [exact Hid|].
  unfold get_transactions, MemStorage.getTransactions, MemStorage.getTransactionById.
  cbv zeta. cbn [snd]. rewrite Htx, Hv, filter_app. split.
  - cbn [filter]. rewrite Hu. reflexivity.
  - rewrite Hid. exact Hg.
Qed.

(** X12. DELETE /api/transactions/:id of a stored transaction is answered
    204 (the answer 500 of the handler is never given by this store);
    afterwards the identifier is not found, and every user's list is the
    list of before without that transaction. *)
Theorem deleted_transaction_is_unlisted now (st : store) id (t : Transaction.t numstr) :
  wf st = true ->
  MemStorage.getTransactionById st id = Some t ->
  let r := delete_transactions tz now st (Some id) in
  fst r = {| status := 204; body := no_content |}
  /\ MemStorage.getTransactionById (snd r) id = None
  /\ forall u, MemStorage.getTransactions (snd r) u
               = filter (fun x => negb (Transaction.id x =? id))
                        (MemStorage.getTransactions st u).
Proof.
  intros Hwf Hg. apply wf_spec in Hwf. cbv zeta.
  unfold delete_transactions. rewrite Hg.
  pose proof (deleteTransaction_values id Hwf) as Hv.
  assert (Hs : fst (MemStorage.deleteTransaction st id) = true).
  { unfold MemStorage.deleteTransaction, JsMap.has. cbn [fst].
    unfold MemStorage.getTransactionById in Hg. now rewrite Hg. }
  assert (Hgone : MemStorage.getTransactionById (snd (MemStorage.deleteTransaction st id)) id
                  = None).
  { unfold MemStorage.getTransactionById, MemStorage.deleteTransaction. cbn [snd].
    cbn [MemStorage.transactions].
    apply (JsMapFacts.get_delete_same Z.eqb Z.eqb_eq). now destruct Hwf as ((_ & Hnd) & _). }
  destruct (MemStorage.deleteTransaction st id) as [success st1]. cbn [fst snd] in *.
  subst success.
  match goal with
  | |- context [generateMonthlySummary tz now st1 ?u ?y ?m] =>
      pose proof (generateMonthlySummary_transactions tz now st1 u y m) as Htx;
        destruct (generateMonthlySummary tz now st1 u y m) as [s st2]
  end.
  cbn [fst snd] in *. split; [reflexivity|].
  unfold MemStorage.getTransactionById, MemStorage.getTransactions in *.
  rewrite Htx. split; [exact Hgone|]. intros u. rewrite Hv.
  rewrite !BreakdownFacts.filter_filter. apply filter_ext. intros x. apply andb_comm.
Qed.

Lemma Forall2_in_right (A B : Type) (R : A -> B -> Prop) (l1 : list A) (l2 : list B) y :
  Forall2 R l1 l2 -> In y l2 -> exists x, In x l1 /\ R x y.
Proof.
  induction 1 as [|a b l1 l2 Hab Hall IH]; [intros []|].
  intros [<-|Hin]; [exists a; simpl; auto|].
  destruct (IH Hin) as (x & Hx & Hr). exists x. simpl. auto.
Qed.


(** X14. POST /api/upload-statement with a document whose text has a
    line with an amount, none of the amounts read being NaN, is answered
    201; every extracted transaction is saved, in order, after the
    transactions stored before, under the demo user and with the source
    Uploaded PDF. *)
Theorem upload_saves_every_extracted_transaction
        now (st : store) pdfContent (content text : string) :
  wf st = true ->
  MemStorage.orNull pdfContent = Some content ->
  pdfParse content = Some text ->
  extractTransactions (num := num) now text <> [] ->
  (forall x, In x (extractTransactions now text) ->
             isNaN (InsertTransaction.amount x) = false) ->
  let r := post_upload_statement tz pdfParse now st pdfContent in
  exists saved summary,
    fst r = {| status := 201; body := json_upload saved summary |}
    /\ Forall2 savedFrom (extractTransactions now text) saved
    /\ JsMap.values (MemStorage.transactions (snd r))
       = JsMap.values (MemStorage.transactions st) ++ saved.
Proof.
  intros Hwf Hc Hp Hne Hnan. apply wf_spec in Hwf. cbv zeta.
  unfold post_upload_statement. rewrite Hc, Hp.
  destruct (Nat.eqb (List.length (extractTransactions now text)) 0) eqn:El.
  { apply EngineFacts.length_zero_nil in El. contradiction. }
  destruct (@saveAll_saves _ _ _ now (extractTransactions now text) st Hwf)
    as (saved & Hs & _ & Hv & Hall).
  { intros x Hin. split; [now apply Hnan|].
    destruct (@Forall2_in_right _ _ _ _ _ _ (extractTransactions_lines now text) Hin)
      as (line & _ & Hof).
    destruct (ofLine_schema Hof) as (Hcat & Ht & _). auto. }
  destruct (saveAll now st 1 (extractTransactions now text)) as [o st1].
  cbn [fst snd] in *. subst o.
  destruct saved as [|first saved].
  { inversion Hall as [E|]. symmetry in E. contradiction. }
  match goal with
  | |- context [generateMonthlySummary tz now st1 ?u ?y ?m] =>
      pose proof (generateMonthlySummary_transactions tz now st1 u y m) as Htx;
        destruct (generateMonthlySummary tz now st1 u y m) as [s st2]
  end.
  cbn [fst snd] in *. exists (first :: saved), s. split; [reflexivity|].
  split; [exact Hall|]. now rewrite Htx.
Qed.

End RouteEffects.

(** ** The month of a stored date *)

Section StoredDates.
Context {num numstr : Type} `{JsNum num numstr}.
Variable tz : TimeZone.
Variable pdfParse : string -> option string.

Import StoreInv StoreInvFacts MemStorageFacts EngineFacts HandlerFacts InvariantFacts.
Import MonthFilterFacts.

Local Abbreviation store := (MemStorage.t numstr).
Local Abbreviation served reqs := (run tz pdfParse (MemStorage.new (numstr := numstr)) reqs).

Lemma served_single_user (reqs : list (Z * Request (num := num))) : single_user (served reqs).
Proof. apply run_single_user; [apply Wf_new|]. split; intros ? []. Qed.

(** X15. In a process whose zone is not behind UTC, whatever requests the
    server has served, GET /api/transactions/month/:year/:month with a
    month from 1 to 12 is answered 200 with exactly the stored
    transactions dated in that month of that year, in the order of their
    creation. *)
Theorem served_month_list_not_behind_utc (reqs : list (Z * Request (num := num))) (y m : Z) :
  not_behind_utc tz -> 1 <= m <= 12 ->
  let st := served reqs in
  get_transactions_month tz st (Some y) (Some m)
  = ({| status := 200;
        body := json_transactions
                  (filter (inMonth y m) (JsMap.values (MemStorage.transactions st))) |}, st).
Proof.
  intros Htz Hm. cbv zeta. unfold get_transactions_month, validMonth.
  destruct (Z.ltb_spec m 1); [lia|]. destruct (Z.gtb_spec m 12); [lia|]. cbn [orb].
  rewrite getTransactionsByMonth_not_behind_utc;
    [|exact Htz|apply run_dates_valid, dates_valid_new].
  f_equal. f_equal. f_equal. apply filter_ext_in. intros t Hin.
  destruct (served_single_user reqs) as [Ht _]. rewrite (Ht t Hin). reflexivity.
Qed.

(** X16. The edit form sends back the stored date string as a Date. An
    update of a stored transaction that supplies this date and nothing
    else leaves the transaction, and the store, as they were: the date
    string survives the way through Date and back. *)
Theorem update_with_stored_date_keeps_it
        (reqs : list (Z * Request (num := num))) id (t : Transaction.t numstr) :
  let st := served reqs in
  MemStorage.getTransactionById st id = Some t ->
  MemStorage.updateTransaction (num := num) st id
    {| PartialInsertTransaction.date := Some (JsDate.newDate (Transaction.date t));
       PartialInsertTransaction.description := None;
       PartialInsertTransaction.category := None;
       PartialInsertTransaction.amount := None;
       PartialInsertTransaction.type := None;
       PartialInsertTransaction.pdfSource := None |}
  = (Some t, st).
Proof.
  cbv zeta. intros Hg.
  assert (Hv : JsDate.valid (Transaction.date t)).
  { apply (@run_dates_valid _ _ _ tz pdfParse reqs MemStorage.new (@dates_valid_new _)).
    now apply get_in_values with (k := id). }
  assert (Hd : JsDate.toISODate (JsDate.newDate (Transaction.date t)) = Transaction.date t).
  { unfold JsDate.toISODate, JsDate.newDate, JsDate.Day, JsDate.msPerDay.
    rewrite Z.div_mul by lia. now apply CalendarFacts.civil_from_days_from_civil. }
  unfold MemStorage.updateTransaction. unfold MemStorage.getTransactionById in Hg.
  rewrite Hg. cbn [PartialInsertTransaction.date PartialInsertTransaction.description
                   PartialInsertTransaction.category PartialInsertTransaction.amount
                   PartialInsertTransaction.type PartialInsertTransaction.pdfSource
                   MemStorage.overwrite].
  rewrite Hd.
  assert (Et : {| Transaction.id := Transaction.id t;
                  Transaction.userId := Transaction.userId t;
                  Transaction.date := Transaction.date t;
                  Transaction.description := Transaction.description t;
                  Transaction.category := Transaction.category t;
                  Transaction.amount := Transaction.amount t;
                  Transaction.type := Transaction.type t;
                  Transaction.pdfSource := Transaction.pdfSource t;
                  Transaction.createdAt := Transaction.createdAt t |} = t)
    by (destruct t; reflexivity).
  rewrite Et. rewrite (MapLookupFacts.set_same Z.eqb Z.eqb_eq id _ Hg).
  f_equal. destruct (served reqs); reflexivity.
Qed.

End StoredDates.

Section BothStores.
Context {num numstr : Type} `{JsNum num numstr}.
Variable pdfParse : string -> option string.

Import MonthFilterFacts.

Lemma not_behind_utc_UTC : not_behind_utc JsDate.UTC.
Proof. intros t. unfold JsDate.UTC, JsDate.fixedOffset, JsDate.msPerDay. simpl. lia. Qed.


End BothStores.

(** ** The CSV export (server/routes.ts, GET /api/export/:year/:month) *)

Section CsvExport.
Variable tz : TimeZone.
Variable pdfParse : string -> option string.

Import MemStorageFacts InvariantFacts MonthFilterFacts CsvFacts.

Local Abbreviation served reqs :=
  (run (num := float) tz pdfParse (MemStorage.new (numstr := string)) reqs).

(** X18. The amount column of the export, for a stored amount whose
    magnitude is below 10^21: digits, a dot and two digits, which is the
    amount pattern of the importer. *)
Theorem exported_amount_matches_pattern (amount : string) :
  PrimFloat.ltb (PrimFloat.abs (Float64.of_string amount)) 1e21 = true ->
  JsString.amount_here (Csv.amountField amount) = Some (Csv.amountField amount).
Proof. intros Hlt. unfold Csv.amountField. now apply toFixed2_matches. Qed.

Lemma append_assoc (a b c : string) : ((a ++ b) ++ c = a ++ (b ++ c))%string.
Proof. induction a as [|x a IH]; simpl; [reflexivity|]. now rewrite IH. Qed.

(** X19. The description column of the export is read back by a reader
    of quoted CSV fields: whatever the description holds (commas, quotes,
    line breaks), the field read is the description, and what follows the
    field in the row is left to be read. *)
Theorem description_field_reads_back (description rest : string) :
  match rest with
  | String c _ => Ascii.eqb c Csv.dquote = false
  | EmptyString => True
  end ->
  read_quoted (Csv.descriptionField description ++ rest) = Some (description, rest).
Proof.
  intros Hrest. unfold Csv.descriptionField, read_quoted. cbn [append].
  rewrite Ascii.eqb_refl, append_assoc. cbn [append].
  now apply read_quoted_text_escape.
Qed.

(** X20. In a process whose zone is not behind UTC, whatever requests the
    server has served, the export of a month from 1 to 12 is answered 404
    when no stored transaction is dated in that month, and else with the
    header line and one row for each stored transaction dated in the
    month, in the order of their creation, whose date column is the
    month, day and year of the stored date. *)
Theorem served_export_not_behind_utc (reqs : list (Z * Request (num := float))) (y m : Z) :
  not_behind_utc tz -> 1 <= m <= 12 ->
  let st := served reqs in
  let rows := filter (inMonth y m) (JsMap.values (MemStorage.transactions st)) in
  Csv.get_export tz st (Some y) (Some m)
  = match rows with
    | [] => Csv.json_message 404 "No transactions found for this month"
    | _ :: _ =>
        Csv.text_csv
          (String.concat (String "010"%char EmptyString)
             ("Date,Description,Category,Amount,Type"%string :: map plainRow rows))
    end.
Proof.
  intros Htz Hm. cbv zeta. unfold Csv.get_export, validMonth.
  destruct (Z.ltb_spec m 1); [lia|]. destruct (Z.gtb_spec m 12); [lia|]. cbn [orb].
  assert (Hd : dates_valid (served reqs)) by apply run_dates_valid, dates_valid_new.
  rewrite getTransactionsByMonth_not_behind_utc; [|exact Htz|exact Hd].
  assert (Hs : single_user (served reqs)).
  { apply run_single_user; [apply Wf_new|]. split; intros ? []. }
  destruct Hs as [Ht _].
  assert (Ef : filter (fun t => (Transaction.userId t =? 1) && inMonth y m t)
                      (JsMap.values (MemStorage.transactions (served reqs)))
               = filter (inMonth y m) (JsMap.values (MemStorage.transactions (served reqs)))).
  { apply filter_ext_in. intros t Hin. now rewrite (Ht t Hin). }
  rewrite Ef.
  assert (Hrows : forall t, In t (filter (inMonth y m)
                                    (JsMap.values (MemStorage.transactions (served reqs)))) ->
                            Csv.csvRow tz t = plainRow t).
  { intros t Hin. apply filter_In in Hin as [Hin _].
    unfold Csv.csvRow, plainRow. f_equal. f_equal.
    apply formattedDate_not_behind_utc; [exact Htz|now apply Hd]. }
  destruct (filter (inMonth y m) (JsMap.values (MemStorage.transactions (served reqs))))
    as [|t rows]; [reflexivity|].
  cbn [List.length Nat.eqb]. unfold Csv.csvContent. cbv zeta.
  f_equal. f_equal. f_equal. now apply map_ext_in.
Qed.

End CsvExport.

(** ** The breakdowns of a month (server/routes.ts, generateMonthlySummary) *)

Section BreakdownOrder.
Context {num numstr : Type} `{JsNum num numstr}.

Import BreakdownFacts.

Local Abbreviation Tx := (Transaction.t numstr).

Lemma accumulate_keys (l : list Tx) :
  forall m : JsMap.t string num,
    (forall t, In t l -> In (Transaction.category t) (JsMap.keys m)) ->
    JsMap.keys (fold_left accumulate l m) = JsMap.keys m.
Proof.
  induction l as [|t l IH]; intros m Hin; [reflexivity|]. cbn [fold_left].
  assert (Hk : JsMap.keys (accumulate m t) = JsMap.keys m).
  { unfold accumulate. apply (JsMapFacts.keys_set_old String.eqb String.eqb_eq).
    apply Hin. now left. }
  rewrite IH; [exact Hk|]. intros t' Ht'. rewrite Hk. apply Hin. now right.
Qed.

Lemma filter_map_comm (A B : Type) (p : B -> bool) (g : A -> B) (l : list A) :
  filter p (map g l) = map g (filter (fun x => p (g x)) l).
Proof.
  induction l as [|a l IH]; simpl; [reflexivity|]. rewrite IH. now destruct (p (g a)).
Qed.

Lemma expensesByCategory_entries (txs : list Tx) :
  (forall t, In t txs -> isExpense t = true -> In (Transaction.category t) categories) ->
  expensesByCategory txs = map (fun c => (c, runningTotal c txs)) categories.
Proof.
  intros Hcat.
  assert (Hk : JsMap.keys (expensesByCategory txs) = categories).
  { rewrite expensesByCategory_fold, accumulate_keys.
    - rewrite initial_list. unfold JsMap.keys. rewrite map_map. apply map_id.
    - intros t Hin. apply filter_In in Hin as [Hin He].
      rewrite initial_list. unfold JsMap.keys. rewrite map_map, map_id. now apply Hcat. }
  pose proof (expensesByCategory_nodup txs) as Hnd.
  transitivity (map (fun c => (c, runningTotal c txs))
                    (JsMap.keys (expensesByCategory txs))); [|now rewrite Hk].
  unfold JsMap.keys. rewrite map_map.
  rewrite <- (map_id (expensesByCategory txs)) at 1.
  apply map_ext_in. intros [c v] Hin. cbn [fst]. f_equal.
  apply (JsMapFacts.in_get_nodup String.eqb String.eqb_eq _ _ _ Hnd) in Hin.
  rewrite expensesByCategory_get in Hin.
  destruct (filter (fun t => isExpense t && ofCategory c t) txs) eqn:Ef.
  - rewrite (runningTotal_none _ _ Ef). destruct (existsb _ _); congruence.
  - congruence.
Qed.

End BreakdownOrder.

(** X21. The breakdowns of transactions whose expenses have categories of
    the enumeration and amounts that do not read as NaN: one for each
    category of the enumeration whose total expense (the sum of the
    absolute amounts of the transactions of type expense and of that
    category) is strictly positive, in the order of the enumeration (not of
    the transactions), with that total as amount and, as percentage, the
    total divided by the total expenses (the sum of the absolute amounts of
    the transactions of type expense), times 100. *)
Theorem breakdowns_follow_the_enumeration (transactions : list (Transaction.t string)) :
  (forall t, In t transactions -> Transaction.type t = "expense"%string ->
             In (Transaction.category t) categories
             /\ isNaN (toNumber (Transaction.amount t)) = false) ->
  breakdownsOf transactions
  = map (fun c =>
           {| InsertCategoryBreakdown.category := c;
              InsertCategoryBreakdown.amount := categoryTotal c transactions;
              InsertCategoryBreakdown.percentage :=
                mul (div (categoryTotal c transactions) (expenseTotal transactions))
                    hundred |})
        (filter (fun c => gtb (categoryTotal c transactions) zero) categories).
Proof.
  intros Hok. unfold breakdownsOf. cbv zeta.
  rewrite expensesByCategory_entries, filter_map_comm, map_map.
  - rewrite Float64Facts.totalExpensesOf_expenseTotal.
    assert (Hplain : forall c, BreakdownFacts.runningTotal c transactions
                               = categoryTotal c transactions).
    { intros c. apply Float64Facts.runningTotal_categoryTotal.
      intros t Hin Ht. now apply Hok. }
    cbn [fst snd]. rewrite (filter_ext _ _ (fun c => f_equal (fun v => gtb v zero) (Hplain c))).
    apply map_ext. intros c. now rewrite Hplain.
  - intros t Hin Ht. apply Hok; [exact Hin|]. now apply String.eqb_eq.
Qed.

(** ** What a recompute leaves alone *)

Section RecomputeFrame.
Context {num numstr : Type} `{JsNum num numstr}.
Variable tz : TimeZone.

Import StoreInv StoreInvFacts MemStorageFacts EngineFacts HandlerFacts InvariantFacts.

Local Abbreviation store := (MemStorage.t numstr).

Lemma recompute_frame now (st : store) (u y m u' y' m' : Z) :
  Wf st ->
  (u', y', m') <> (u, y, m) ->
  let st' := snd (generateMonthlySummary tz now st u y m) in
  MemStorage.transactions st' = MemStorage.transactions st
  /\ MemStorage.getMonthlySummaryByMonth st' u' y' m'
     = MemStorage.getMonthlySummaryByMonth st u' y' m'
  /\ forall s', MemStorage.getMonthlySummaryByMonth st u' y' m' = Some s' ->
                MemStorage.getCategoryBreakdowns st' (MonthlySummary.id s')
                = MemStorage.getCategoryBreakdowns st (MonthlySummary.id s').
Proof.
  intros Hwf Hne. cbv zeta.
  split; [apply generateMonthlySummary_transactions|].
  destruct (MemStorage.getTransactionsByMonth tz st u y m) as [|t0 txs] eqn:Et.
  { rewrite (generateMonthlySummary_empty _ now _ _ _ _ Et). auto. }
  assert (Hnil : MemStorage.getTransactionsByMonth tz st u y m <> [])
    by (rewrite Et; discriminate).
  destruct (generateMonthlySummary_spec tz now u y m Hwf Hnil)
    as (s & _ & _ & _ & _ & _ & _ & _ & _ & Hid & _ & Hother).
  set (st' := snd (generateMonthlySummary tz now st u y m)) in *.
  rename Hid into Hs.
  (* what sat under the identifier of the summary written *)
  assert (Hold : forall e, JsMap.get Z.eqb (MonthlySummary.id s) (MemStorage.monthlySummaries st)
                           = Some e -> summaryKey e = (u, y, m)).
  { intros e He. rewrite Hs in He.
    destruct (MemStorage.getMonthlySummaryByMonth st u y m) as [e0|] eqn:Ef.
    - destruct (getMonthlySummaryByMonth_Some _ _ _ _ Ef) as [Hin Hk].
      apply summary_stored in Hin; [|exact Hwf]. rewrite Hin in He. now injection He as <-.
    - exfalso. destruct Hwf as (_ & Hok & _).
      apply (Ok_key_fresh Hok (Z.le_refl _)).
      apply (JsMapFacts.get_Some_in Z.eqb Z.eqb_eq) in He.
      change (MemStorage.summaryId st) with (fst (MemStorage.summaryId st, e)).
      now apply in_map. }
  assert (Hmiss : forall e : MonthlySummary.t numstr,
             summaryKey e = (u, y, m) ->
             (MonthlySummary.userId e =? u') && (MonthlySummary.year e =? y')
             && (MonthlySummary.month e =? m') = false).
  { intros e Hk. unfold summaryKey in Hk. injection Hk as Hu Hy Hm.
    destruct ((MonthlySummary.userId e =? u') && (MonthlySummary.year e =? y')
              && (MonthlySummary.month e =? m')) eqn:Ep; [|reflexivity].
    apply andb_true_iff in Ep as [Ep E3]. apply andb_true_iff in Ep as [E1 E2].
    apply Z.eqb_eq in E1, E2, E3. exfalso. apply Hne. congruence. }
  assert (Hfind : MemStorage.getMonthlySummaryByMonth st' u' y' m'
                  = MemStorage.getMonthlySummaryByMonth st u' y' m').
  { unfold MemStorage.getMonthlySummaryByMonth at 1 2.
    destruct (generateMonthlySummary_table tz now st u y m)
      as [E|(s2 & E & Hy2 & Hm2 & He2)]; fold st' in E; rewrite E; [reflexivity|].
    assert (Hid2 : MonthlySummary.id s2 = MonthlySummary.id s).
    { rewrite Hs. destruct (MemStorage.getMonthlySummaryByMonth st u y m); tauto. }
    apply (MapLookupFacts.find_set_frame Z.eqb).
    - apply Hmiss. unfold summaryKey. rewrite Hy2, Hm2. f_equal. f_equal.
      destruct (MemStorage.getMonthlySummaryByMonth st u y m) as [e0|] eqn:Ef;
        [|tauto].
      destruct He2 as [_ ->].
      destruct (getMonthlySummaryByMonth_Some _ _ _ _ Ef) as [_ Hk].
      unfold summaryKey in Hk. congruence.
    - intros e He. apply Hmiss, Hold. now rewrite <- Hid2. }
  split; [exact Hfind|].
  intros s' Hs'. apply Hother. intros Heq.
  destruct (getMonthlySummaryByMonth_Some _ _ _ _ Hs') as [Hin Hk].
  pose proof Hin as Hg. apply summary_stored in Hg; [|exact Hwf]. rewrite Heq in Hg.
  apply Hold in Hg. congruence.
Qed.

(** X22. A recompute of one month of one user changes no transaction and
    nothing of any other month or user: the summary found for another
    (user, year, month) is the one found before, with the breakdowns it
    had. *)
Theorem recompute_leaves_other_months now (st : store) (u y m u' y' m' : Z) :
  wf st = true ->
  (u', y', m') <> (u, y, m) ->
  let st' := snd (generateMonthlySummary tz now st u y m) in
  MemStorage.transactions st' = MemStorage.transactions st
  /\ MemStorage.getMonthlySummaryByMonth st' u' y' m'
     = MemStorage.getMonthlySummaryByMonth st u' y' m'
  /\ forall s', MemStorage.getMonthlySummaryByMonth st u' y' m' = Some s' ->
                MemStorage.getCategoryBreakdowns st' (MonthlySummary.id s')
                = MemStorage.getCategoryBreakdowns st (MonthlySummary.id s').
Proof.
  intros Hwf Hne. apply wf_spec in Hwf. now apply recompute_frame.
Qed.

End RecomputeFrame.

(** ** The month selector of the dashboard *)

(** X23. From a month between 1 and 12 the two arrows of the dashboard
    lead to a month between 1 and 12, which the server's month routes
    accept as it is; each arrow undoes the other. *)
Theorem dashboard_arrows (s : Dashboard.State) :
  1 <= Dashboard.currentMonth s <= 12 ->
  let p := Dashboard.prevMonth s in
  let n := Dashboard.nextMonth s in
  validMonth (Dashboard.queryYear p) (Dashboard.queryMonth p)
  = Some (Dashboard.currentYear p, Dashboard.currentMonth p)
  /\ validMonth (Dashboard.queryYear n) (Dashboard.queryMonth n)
     = Some (Dashboard.currentYear n, Dashboard.currentMonth n)
  /\ Dashboard.nextMonth p = s
  /\ Dashboard.prevMonth n = s.
Proof.
  destruct s as [m y]. cbn [Dashboard.currentMonth]. intros Hm. cbv zeta.
  assert (Hrange : forall k, 1 <= k <= 12 -> (k <? 1) || (k >? 12) = false).
  { intros k Hk. destruct (Z.ltb_spec k 1); [lia|]. destruct (Z.gtb_spec k 12); [lia|].
    reflexivity. }
  unfold Dashboard.prevMonth, Dashboard.nextMonth, validMonth, Dashboard.queryYear,
    Dashboard.queryMonth. cbn [Dashboard.currentMonth Dashboard.currentYear].
  destruct (Z.eqb_spec m 1) as [E1|H1]; destruct (Z.eqb_spec m 12) as [E12|H12];
    cbn [Dashboard.currentMonth Dashboard.currentYear]; try lia.
  - rewrite !Hrange by lia. destruct (Z.eqb_spec 12 12); [|lia].
    destruct (Z.eqb_spec (m + 1) 1); [lia|].
    repeat split; f_equal; lia.
  - rewrite !Hrange by lia. destruct (Z.eqb_spec (m - 1) 12); [lia|].
    destruct (Z.eqb_spec 1 1); [|lia].
    repeat split; f_equal; lia.
  - rewrite !Hrange by lia. destruct (Z.eqb_spec (m - 1) 12); [lia|].
    destruct (Z.eqb_spec (m + 1) 1); [lia|].
    repeat split; f_equal; lia.
Qed.

(** ** The witnesses, on the worked scenario *)

(** The witness of X7: the salary is posted and deleted; the groceries
    posted next are stored under 2, and 1 is not used again. *)
Lemma served_ids_not_reused_witness :
  1 < MemStorage.transactionId
        (run JsDate.UTC Scenario.plainText Scenario.fresh Scenario.posted_then_deleted)
  /\ MemStorage.getTransactionById
       (run JsDate.UTC Scenario.plainText Scenario.fresh Scenario.posted_then_deleted) 1 = None
  /\ MemStorage.getTransactionById
       (run JsDate.UTC Scenario.plainText
            (run JsDate.UTC Scenario.plainText Scenario.fresh Scenario.posted_then_deleted)
            [(3000, POST_transactions (Some Scenario.groceries))]) 1 = None.
Proof.
  assert (H1 : 1 < MemStorage.transactionId
                     (run JsDate.UTC Scenario.plainText Scenario.fresh
                          Scenario.posted_then_deleted)) by (vm_compute; reflexivity).
  assert (H2 : MemStorage.getTransactionById
                 (run JsDate.UTC Scenario.plainText Scenario.fresh
                      Scenario.posted_then_deleted) 1 = None) by (vm_compute; reflexivity).
  split; [exact H1|]. split; [exact H2|].
  exact (proj1 (served_ids_not_reused JsDate.UTC Scenario.plainText _
                  [(3000, POST_transactions (Some Scenario.groceries))] H1 H2)).
Defined.

(** The witness of X10: an update without a readable identifier. *)
Lemma rejected_request_changes_nothing_witness :
  status (fst (handle JsDate.UTC Scenario.plainText 3000 Scenario.march
                      (PUT_transactions None (Some Scenario.moveToApril)))) = 400
  /\ snd (handle JsDate.UTC Scenario.plainText 3000 Scenario.march
                 (PUT_transactions None (Some Scenario.moveToApril))) = Scenario.march.
Proof.
  assert (H1 : status (fst (handle JsDate.UTC Scenario.plainText 3000 Scenario.march
                                   (PUT_transactions None (Some Scenario.moveToApril)))) = 400)
    by reflexivity.
  split; [exact H1|].
  exact (rejected_request_changes_nothing JsDate.UTC Scenario.plainText 3000 Scenario.march
           (PUT_transactions None (Some Scenario.moveToApril)) (or_introl H1)).
Defined.

(** The witness of X11: the salary is posted to the new store. *)
Lemma posted_transaction_is_listed_witness :
  StoreInv.wf Scenario.fresh = true
  /\ isNaN (InsertTransaction.amount Scenario.salary) = false
  /\ exists t,
       fst (post_transactions JsDate.UTC 1000 Scenario.fresh (Some Scenario.salary))
       = {| status := 201; body := json_transaction (Some t) |}
       /\ Transaction.id t = 1.
Proof.
  assert (H1 : StoreInv.wf Scenario.fresh = true) by reflexivity.
  assert (H2 : isNaN (InsertTransaction.amount Scenario.salary) = false) by reflexivity.
  assert (H3 : In (InsertTransaction.category Scenario.salary) categories)
    by (simpl; tauto).
  assert (H4 : InsertTransaction.type Scenario.salary = "income"%string
               \/ InsertTransaction.type Scenario.salary = "expense"%string)
    by (left; reflexivity).
  split; [exact H1|]. split; [exact H2|].
  destruct (posted_transaction_is_listed JsDate.UTC 1000 Scenario.fresh Scenario.salary
              H1 H2 H3 H4) as (t & Hr & Hid & _).
  exists t. split; [exact Hr|exact Hid].
Defined.

(** The witness of X12: the groceries of the scenario are deleted. *)
Lemma deleted_transaction_is_unlisted_witness :
  StoreInv.wf Scenario.march = true
  /\ (exists t, MemStorage.getTransactionById Scenario.march 2 = Some t)
  /\ fst (delete_transactions JsDate.UTC 3000 Scenario.march (Some 2))
     = {| status := 204; body := no_content |}
  /\ MemStorage.getTransactionById
       (snd (delete_transactions JsDate.UTC 3000 Scenario.march (Some 2))) 2 = None.
Proof.
  assert (H1 : StoreInv.wf Scenario.march = true) by (vm_compute; reflexivity).
  remember (MemStorage.getTransactionById Scenario.march 2) as o eqn:E.
  assert (Ho : match o with Some _ => True | None => False end)
    by (rewrite E; vm_compute; exact I).
  destruct o as [t|]; [|contradiction]. symmetry in E.
  split; [exact H1|]. split; [exists t; reflexivity|].
  destruct (deleted_transaction_is_unlisted JsDate.UTC 3000 Scenario.march 2 H1 E)
    as (Hr & Hgone & _).
  split; [exact Hr|exact Hgone].
Defined.

(** The witness of X14: a statement of two lines with an amount and one
    without. *)
Lemma upload_saves_every_extracted_transaction_witness :
  StoreInv.wf Scenario.fresh = true
  /\ List.length (extractTransactions (num := float) 1000
                    "Rent $500.00
no amount here
Salary deposit $1000.00"%string) = 2%nat
  /\ exists saved summary,
       fst (post_upload_statement JsDate.UTC Scenario.plainText 1000 Scenario.fresh
              (Some "Rent $500.00
no amount here
Salary deposit $1000.00"%string))
       = {| status := 201; body := json_upload saved summary |}
       /\ List.length saved = 2%nat.
Proof.
  set (text := "Rent $500.00
no amount here
Salary deposit $1000.00"%string).
  assert (H1 : StoreInv.wf Scenario.fresh = true) by reflexivity.
  assert (H2 : MemStorage.orNull (Some text) = Some text) by reflexivity.
  assert (H3 : Scenario.plainText text = Some text) by reflexivity.
  assert (Hl : List.length (extractTransactions (num := float) 1000 text) = 2%nat)
    by (vm_compute; reflexivity).
  assert (H4 : extractTransactions (num := float) 1000 text <> []).
  { intros E. rewrite E in Hl. discriminate Hl. }
  assert (Hall : forallb (fun x => negb (isNaN (InsertTransaction.amount x)))
                         (extractTransactions (num := float) 1000 text) = true)
    by (vm_compute; reflexivity).
  assert (H5 : forall x, In x (extractTransactions (num := float) 1000 text) ->
                         isNaN (InsertTransaction.amount x) = false).
  { intros x Hin. apply negb_true_iff.
    exact (proj1 (forallb_forall _ _) Hall x Hin). }
  split; [exact H1|]. split; [exact Hl|].
  destruct (upload_saves_every_extracted_transaction JsDate.UTC Scenario.plainText 1000
              Scenario.fresh (Some text) H1 H2 H3 H4 H5) as (saved & summary & Hr & Hs & _).
  exists saved, summary. split; [exact Hr|].
  rewrite <- (Forall2_length Hs). exact Hl.
Defined.

(** The witness of X15: March 2024 of the scenario, in a UTC process. *)
Lemma served_month_list_not_behind_utc_witness :
  not_behind_utc JsDate.UTC
  /\ get_transactions_month JsDate.UTC Scenario.march (Some 2024) (Some 3)
     = ({| status := 200;
           body := json_transactions
                     (filter (inMonth 2024 3)
                             (JsMap.values (MemStorage.transactions Scenario.march))) |},
        Scenario.march).
Proof.
  split; [exact not_behind_utc_UTC|].
  apply (served_month_list_not_behind_utc Scenario.plainText
           [(1000, POST_transactions (Some Scenario.salary));
            (2000, POST_transactions (Some Scenario.groceries))] 2024
           not_behind_utc_UTC).
  lia.
Defined.

(** The witness of X16: the salary of the scenario, saved again with its
    own date. *)
Lemma update_with_stored_date_keeps_it_witness :
  exists t,
    MemStorage.getTransactionById
      (run (num := float) JsDate.UTC Scenario.plainText (MemStorage.new (numstr := string))
           [(1000, POST_transactions (Some Scenario.salary))]) 1 = Some t
    /\ fst (MemStorage.updateTransaction (num := float)
              (run (num := float) JsDate.UTC Scenario.plainText
                   (MemStorage.new (numstr := string))
                   [(1000, POST_transactions (Some Scenario.salary))]) 1
              {| PartialInsertTransaction.date :=
                   Some (JsDate.newDate (Transaction.date t));
                 PartialInsertTransaction.description := None;
                 PartialInsertTransaction.category := None;
                 PartialInsertTransaction.amount := None;
                 PartialInsertTransaction.type := None;
                 PartialInsertTransaction.pdfSource := None |})
       = Some t.
Proof.
  remember (MemStorage.getTransactionById
              (run (num := float) JsDate.UTC Scenario.plainText
                   (MemStorage.new (numstr := string))
                   [(1000, POST_transactions (Some Scenario.salary))]) 1) as o eqn:E.
  assert (Ho : match o with Some _ => True | None => False end)
    by (rewrite E; vm_compute; exact I).
  destruct o as [t|]; [|contradiction]. symmetry in E.
  exists t. split; [reflexivity|].
  rewrite (update_with_stored_date_keeps_it JsDate.UTC Scenario.plainText
             [(1000, POST_transactions (Some Scenario.salary))] 1 E).
  reflexivity.
Defined.


(** The witness of X18: the groceries, stored as -200, are exported as
    200.00. *)
Lemma exported_amount_matches_pattern_witness :
  PrimFloat.ltb (PrimFloat.abs (Float64.of_string "-200")) 1e21 = true
  /\ Csv.amountField "-200" = "200.00"%string
  /\ JsString.amount_here (Csv.amountField "-200") = Some (Csv.amountField "-200").
Proof.
  assert (H1 : PrimFloat.ltb (PrimFloat.abs (Float64.of_string "-200")) 1e21 = true)
    by (vm_compute; reflexivity).
  split; [exact H1|]. split; [vm_compute; reflexivity|].
  exact (exported_amount_matches_pattern "-200" H1).
Defined.

(** The witness of X19: a description with a comma and a quote, followed
    by the category column. *)
Lemma description_field_reads_back_witness :
  read_quoted (Csv.descriptionField ("tea, " ++ String Csv.dquote "green")
               ++ ",Food")%string
  = Some (("tea, " ++ String Csv.dquote "green")%string, ",Food"%string).
Proof.
  apply (description_field_reads_back ("tea, " ++ String Csv.dquote "green")%string
           ",Food"%string).
  reflexivity.
Defined.

(** The witness of X20: the export of March 2024 after the salary is
    posted, in a UTC process. *)
Lemma served_export_not_behind_utc_witness :
  not_behind_utc JsDate.UTC
  /\ Csv.get_export JsDate.UTC
       (run (num := float) JsDate.UTC Scenario.plainText (MemStorage.new (numstr := string))
            [(1000, POST_transactions (Some Scenario.salary))]) (Some 2024) (Some 3)
     = Csv.text_csv
         ("Date,Description,Category,Amount,Type" ++ String "010"%char
            ("3/5/2024," ++ String Csv.dquote
               ("entry" ++ String Csv.dquote ",Income,1000.00,income")))%string.
Proof.
  split; [exact not_behind_utc_UTC|].
  assert (Hm : 1 <= 3 <= 12) by lia.
  rewrite (served_export_not_behind_utc Scenario.plainText
             [(1000, POST_transactions (Some Scenario.salary))] 2024
             not_behind_utc_UTC Hm).
  vm_compute. reflexivity.
Defined.

(** The witness of X21: March 2024 of the scenario has one breakdown,
    Food, of 200, the whole of the expenses. *)
Lemma breakdowns_follow_the_enumeration_witness :
  map (fun b => (InsertCategoryBreakdown.category b,
                 numToString (InsertCategoryBreakdown.amount b),
                 numToString (InsertCategoryBreakdown.percentage b)))
      (breakdownsOf (MemStorage.getTransactionsByMonth JsDate.UTC Scenario.march 1 2024 3))
  = [("Food", "200", "100")]%string.
Proof.
  rewrite breakdowns_follow_the_enumeration.
  - vm_compute. reflexivity.
  - assert (Hall : forallb (fun t : Transaction.t string =>
                              existsb (String.eqb (Transaction.category t)) categories
                              && negb (isNaN (toNumber (Transaction.amount t))))
                           (MemStorage.getTransactionsByMonth JsDate.UTC Scenario.march
                              1 2024 3)
                   = true) by (vm_compute; reflexivity).
    intros t Hin _. apply (proj1 (forallb_forall _ _) Hall) in Hin.
    apply andb_true_iff in Hin as [Hc Hn]. apply negb_true_iff in Hn. split; [|exact Hn].
    apply existsb_exists in Hc as (c & Hc & E). apply String.eqb_eq in E. now subst.
Defined.

(** The witness of X22: with transactions in March and in April 2024, a
    recompute of March leaves the summary of April as it was. *)
Lemma recompute_leaves_other_months_witness :
  StoreInv.wf (run JsDate.UTC Scenario.plainText Scenario.fresh Scenario.posted_then_moved)
  = true
  /\ (1, 2024, 4) <> (1, 2024, 3)
  /\ MemStorage.getMonthlySummaryByMonth
       (snd (generateMonthlySummary JsDate.UTC 5000
               (run JsDate.UTC Scenario.plainText Scenario.fresh Scenario.posted_then_moved)
               1 2024 3)) 1 2024 4
     = MemStorage.getMonthlySummaryByMonth
         (run JsDate.UTC Scenario.plainText Scenario.fresh Scenario.posted_then_moved)
         1 2024 4.
Proof.
  assert (H1 : StoreInv.wf (run JsDate.UTC Scenario.plainText Scenario.fresh
                                Scenario.posted_then_moved) = true)
    by (vm_compute; reflexivity).
  assert (H2 : (1, 2024, 4) <> (1, 2024, 3)) by discriminate.
  split; [exact H1|]. split; [exact H2|].
  exact (proj1 (proj2 (recompute_leaves_other_months JsDate.UTC 5000 _ H1 H2))).
Defined.

(** The witness of X23: from January 2024 back to December 2023, and
    forth again. *)
Lemma dashboard_arrows_witness :
  Dashboard.prevMonth {| Dashboard.currentMonth := 1; Dashboard.currentYear := 2024 |}
  = {| Dashboard.currentMonth := 12; Dashboard.currentYear := 2023 |}
  /\ Dashboard.nextMonth
       (Dashboard.prevMonth {| Dashboard.currentMonth := 1; Dashboard.currentYear := 2024 |})
     = {| Dashboard.currentMonth := 1; Dashboard.currentYear := 2024 |}.
Proof.
  split; [reflexivity|].
  assert (Hm : 1 <= Dashboard.currentMonth
                      {| Dashboard.currentMonth := 1; Dashboard.currentYear := 2024 |} <= 12)
    by (simpl; lia).
  exact (proj1 (proj2 (proj2 (dashboard_arrows _ Hm)))).
Defined.

(* ================================================================== *)
(** * The central invariant                                             *)
(* ================================================================== *)

Module CurrentFacts.
Import JsDate Calendar CalendarFacts StoreInv StoreInvFacts MemStorageFacts EngineFacts.
Import HandlerFacts MonthFilterFacts InvariantFacts.

Section Facts.
Context {num numstr : Type} `{JsNum num numstr}.
Variable tz : TimeZone.
Variable pdfParse : string -> option string.
Hypothesis Htz : not_behind_utc tz.

Local Abbreviation store := (MemStorage.t numstr).
Local Abbreviation Tx := (Transaction.t numstr).












End Facts.
End CurrentFacts.

Section Handlers.
Context {num numstr : Type} `{JsNum num numstr}.
Variable tz : TimeZone.
Variable pdfParse : string -> option string.

Import StoreInv StoreInvFacts MemStorageFacts HandlerFacts MonthFilterFacts CurrentFacts.


End Handlers.



(** The update of a date recomputes the new month only: after the
    groceries move from March to April, March, which still has the salary,
    keeps a stored summary that counts them (expenses 200), while April's
    is current. The sequence is not steady. *)
Lemma put_moving_date_leaves_old_month_stale :
  let st := run JsDate.UTC Scenario.plainText MemStorage.new Scenario.posted_then_moved in
  steady JsDate.UTC Scenario.plainText MemStorage.new Scenario.posted_then_moved = false
  /\ map (@Transaction.id string) (monthTransactions st 1 2024 3) = [1]
  /\ option_map (@MonthlySummary.totalExpenses string)
                (MemStorage.getMonthlySummaryByMonth st 1 2024 3) = Some "200"%string
  /\ ~ month_current st 1 2024 3
  /\ option_map (@MonthlySummary.totalExpenses string)
                (MemStorage.getMonthlySummaryByMonth st 1 2024 4) = Some "200"%string.
Proof.
  cbv zeta. split; [vm_compute; reflexivity|]. split; [vm_compute; reflexivity|].
  split; [vm_compute; reflexivity|]. split; [|vm_compute; reflexivity].
  intros (s & Hg & Hv & _).
  assert (Hstored :
            option_map summaryValues
              (MemStorage.getMonthlySummaryByMonth
                 (run JsDate.UTC Scenario.plainText MemStorage.new
                      Scenario.posted_then_moved) 1 2024 3)
            = Some (2024, 3, "1000", "200", "800")%string) by (vm_compute; reflexivity).
  assert (Hcurrent :
            aggregateSummary 2024 3
              (monthTransactions
                 (run JsDate.UTC Scenario.plainText MemStorage.new
                      Scenario.posted_then_moved) 1 2024 3)
            = (2024, 3, "1000", "0", "1000")%string) by (vm_compute; reflexivity).
  rewrite Hg in Hstored. cbn [option_map] in Hstored. rewrite Hv, Hcurrent in Hstored.
  discriminate Hstored.
Qed.

(** Behind UTC the months are shifted: five hours west of Greenwich, a
    transaction posted with the date 2024-04-01 is counted in March, and
    April, the month of its date, has no summary. *)
Lemma behind_utc_month_is_shifted :
  map (@Transaction.date string) (monthTransactions Scenario.aprilFirst 1 2024 4)
  = [{| JsDate.year := 2024; JsDate.month := 4; JsDate.day := 1 |}]
  /\ steady Scenario.west Scenario.plainText Scenario.fresh
            [(1000, POST_transactions
                      (Some (Scenario.entry 2024 4 1 (-50) "expense" "Food")))] = true
  /\ MemStorage.getMonthlySummaryByMonth Scenario.aprilFirst 1 2024 4 = None
  /\ option_map (@MonthlySummary.totalExpenses string)
                (MemStorage.getMonthlySummaryByMonth Scenario.aprilFirst 1 2024 3)
     = Some "50"%string.
Proof. split; [|split; [|split]]; vm_compute; reflexivity. Qed.
